(** * Taste and text analytics of the whiskey tasting journal

    A shallow embedding of the analytics core of [data/data.py] and of the
    result cache of [cache_utils.py], followed by the properties of the
    specification that were checked against it.

    Conventions of the embedding:
    - a Python [str] is a [string] holding its UTF-8 encoding; equality and
      [startswith] on code points coincide with equality and prefix on the
      encoding, and [len] counts the bytes that start a code point;
    - a Python [float] is an IEEE-754 binary64 value ([spec_float] at
      precision 53), with the correctly rounded operations of [SpecFloat];
    - a Python number stored in a result is an [int] or a [float] ([num]);
    - a Python [dict] whose iteration order is observable is an association
      list in insertion order ([dict]); the cache, whose order is never
      observed, is a [gmap];
    - a tasting record is a Python [dict]; a field read with
      [record.get(key, default)] is an [option], [None] for a missing key;
    - the record store, the tokenizer and the whitelist file are external
      collaborators: what they return is an input ([Env]);
    - [time.time()] is an input of the function that reads it. *)

From Stdlib Require Import ZArith String Ascii List Lia.
From Stdlib Require Import Floats.SpecFloat.
From stdpp Require Import base option list sorting gmap sets strings.

Local Open Scope Z_scope.

(** ** Python floats: IEEE-754 binary64 *)

Definition prec : Z := 53.
Definition emax : Z := 1024.

Definition float : Type := spec_float.

Definition float_add : float -> float -> float := SFadd prec emax.
Definition float_sub : float -> float -> float := SFsub prec emax.
Definition float_mul : float -> float -> float := SFmul prec emax.
Definition float_div : float -> float -> float := SFdiv prec emax.
Definition float_ltb : float -> float -> bool := SFltb.
Definition float_leb : float -> float -> bool := SFleb.

(** [float(z)] for a Python int [z] (correctly rounded; exact below 2^53). *)
Definition float_of_int (z : Z) : float := binary_normalize prec emax z 0 false.

(** The float literals of the source, as the binary64 values they denote. *)
Definition f1_0 : float := S754_finite false 4503599627370496 (-52).
Definition f0_8 : float := S754_finite false 7205759403792794 (-53).
Definition f0_6 : float := S754_finite false 5404319552844595 (-53).
Definition f0_3 : float := S754_finite false 5404319552844595 (-54).
Definition f0_1 : float := S754_finite false 7205759403792794 (-56).
Definition f1_5 : float := S754_finite false 6755399441055744 (-52).
(** [0.7] and [1.8] occur in the examples of the specification only. *)
Definition f0_7 : float := S754_finite false 6305039478318694 (-53).
Definition f1_8 : float := S754_finite false 8106479329266893 (-52).

Definition is_nan (f : float) : bool :=
  match f with S754_nan => true | _ => false end.

(** Sign bit of a float that is not a NaN. *)
Definition sign_bit (f : float) : bool :=
  match f with
  | S754_zero s | S754_infinity s | S754_finite s _ _ => s
  | S754_nan => false
  end.

(** ** Python numbers: [int] or [float] *)

Inductive num : Type :=
  | Int (z : Z)
  | Float (f : float).

Definition to_float (x : num) : float :=
  match x with Int z => float_of_int z | Float f => f end.

(** [x + y]: integer addition on two ints, float addition after conversion
    as soon as one operand is a float. *)
Definition num_add (x y : num) : num :=
  match x, y with
  | Int a, Int b => Int (a + b)
  | _, _ => Float (float_add (to_float x) (to_float y))
  end.

(** [x * y]. *)
Definition num_mul (x y : num) : num :=
  match x, y with
  | Int a, Int b => Int (a * b)
  | _, _ => Float (float_mul (to_float x) (to_float y))
  end.

(** [x < y]; an int is compared with a float through its conversion, which
    is exact for every int that the analyzers produce (only [0]). *)
Definition num_ltb (x y : num) : bool :=
  match x, y with
  | Int a, Int b => a <? b
  | _, _ => float_ltb (to_float x) (to_float y)
  end.

(** [x >= y]. *)
Definition num_geb (x y : num) : bool :=
  match x, y with
  | Int a, Int b => b <=? a
  | _, _ => float_leb (to_float y) (to_float x)
  end.

(** Python's [sum(ws)]: left to right, starting from the int [0]. *)
Definition py_sum (ws : list num) : num := fold_left num_add ws (Int 0).

(** ** Python strings *)

(** A byte [10xxxxxx] continues a code point started by an earlier byte. *)
Definition is_continuation_byte (c : ascii) : bool :=
  let n := N_of_ascii c in ((128 <=? n) && (n <? 192))%N.

(** [len(s)]: the number of code points. *)
Definition py_len (s : string) : nat :=
  length (List.filter (fun c => negb (is_continuation_byte c))
                      (list_ascii_of_string s)).

(** [s.startswith(p)]. *)
Definition startswith (s p : string) : bool := String.prefix p s.

(** The reserved prefix that marks a soft-deleted record in its memo. *)
Definition DELETED_MARKER : string := "[삭제됨".

(** The guard [not memo or memo.startswith('[삭제됨')]. *)
Definition memo_skipped (memo : string) : bool :=
  bool_decide (memo = EmptyString) || startswith memo DELETED_MARKER.

(** ** Insertion-ordered dictionaries with string keys *)

Definition dict (V : Type) : Type := list (string * V).

(** [d.get(k)]. *)
Fixpoint dict_get {V : Type} (k : string) (d : dict V) : option V :=
  match d with
  | [] => None
  | (k', v) :: d' => if decide (k = k') then Some v else dict_get k d'
  end.

(** [d[k] = v]: an existing key keeps its position, a new key goes last. *)
Fixpoint dict_set {V : Type} (k : string) (v : V) (d : dict V) : dict V :=
  match d with
  | [] => [(k, v)]
  | (k', v') :: d' =>
      if decide (k = k') then (k, v) :: d' else (k', v') :: dict_set k v d'
  end.

(** [list(d.keys())]. *)
Definition dict_keys {V : Type} (d : dict V) : list string := map fst d.

(** [d[k] = d.get(k, 0) + w], the accumulation step of both analyzers. *)
Definition dict_add (k : string) (w : num) (d : dict num) : dict num :=
  dict_set k (num_add (default (Int 0) (dict_get k d)) w) d.

(** [d[k] = d.get(k, 0) + 1], the counting step of the word frequencies. *)
Definition dict_incr (k : string) (d : dict Z) : dict Z :=
  dict_set k (default 0 (dict_get k d) + 1) d.

(** ** Data model *)

(** A tasting record, as far as the analyzers read it.  Every field is read
    with [record.get]; [None] stands for a missing key. *)
Record TastingRecord : Type := {
  user_id : option string;
  whiskey_name : option string;
  taste_notes : option (list string);
  rating : option Z;
  memo : option string
}.

(** One morpheme of the tokenizer: surface form and part-of-speech tag. *)
Record Token : Type := {
  form : string;
  tag : string
}.

(** [kiwi.analyze(memo)[0][0]], the tokens of the best analysis; [None] when
    the call or the indexing raises. *)
Definition Kiwi : Type := string -> option (list Token).

(** What the external collaborators return. *)
Record Env : Type := {
  (** [get_user_records(user_id)]: the user's visible records, newest first. *)
  get_user_records : string -> list TastingRecord;
  (** [data_manager.get_all_records()]: the records of all users. *)
  get_all_records : list TastingRecord;
  (** [_get_kiwi()]: the tokenizer singleton, [None] when it cannot be loaded. *)
  kiwi : option Kiwi;
  (** The [word] column of [whiskey_whitelist.csv]; [None] when the file is
      missing or cannot be read. *)
  whitelist_file : option (list string)
}.

(** ** Configuration *)

(** [Config.RATING_WEIGHTS]. *)
Definition RATING_WEIGHTS : gmap Z float :=
  list_to_map [(5, f1_0); (4, f0_8); (3, f0_6); (2, f0_3); (1, f0_1)].

(** [RATING_WEIGHTS.get(rating, dflt)]. *)
Definition RATING_WEIGHTS_get (rating : Z) (dflt : num) : num :=
  default dflt (Float <$> RATING_WEIGHTS !! rating).

(** [STOPWORDS]. *)
Definition STOPWORDS : gset string := list_to_set [
    "느낌"; "향"; "맛"; "노트"; "스타일"; "계열"; "타입"; "이미지"; "캐릭터";
    "밸런스"; "구성"; "전반"; "전체"; "기본"; "일반적"; "평범"; "무난";
    "바탕"; "하프"; "고인"; "피니시"; "숙성"; "기분"; "사이"; "마무리";
    "도수"; "코리아"; "위스키"; "아드벡";
    "조금"; "약간"; "매우"; "너무"; "꽤"; "상당히"; "살짝";
    "강한"; "약한"; "진한"; "연한"; "가벼운"; "묵직한";
    "좋음"; "별로"; "괜찮"; "싫음"; "애매"; "실망"; "만족"; "불호";
    "호불호"; "취향"; "비추"; "추천";
    "가성비"; "가격"; "비쌈"; "저렴"; "구매"; "재구매"; "선물";
    "데일리"; "입문"; "초보"; "고급"; "한정"; "에디션";
    "처음"; "마지막"; "이번"; "예전"; "요즘"; "항상"; "가끔"; "자주";
    "기대"; "생각"; "느껴짐"; "같음";
    "의"; "을"; "를"; "이"; "가"; "은"; "는"; "에"; "에서"; "로"; "으로";
    "하다"; "되다"; "있다"; "없다"; "같다";
    "올라오"; "기반"; "비하"; "누르"; "느끼"
  ]%string.

(** [_note_to_korean]. *)
Definition _note_to_korean (note : string) : string :=
  let mapping : list (string * string) := [
    ("fruity", "프루티"); ("floral", "플로럴"); ("sweet", "스윗");
    ("oaky", "우디"); ("nutty", "너티"); ("peaty", "피트");
    ("smoky", "스모키"); ("spicy", "스파이시") ]%string in
  default note (dict_get note mapping).

(** ** Whitelist and word frequencies *)

(** [_get_whitelist]: the set of the words of the file, the empty set when
    the file is missing or unreadable. *)
Definition _get_whitelist (file : option (list string)) : gset string :=
  match file with
  | Some words => list_to_set words
  | None => ∅
  end.

(** [token.tag in ['NNG', 'NNP', 'VV']]. *)
Definition noun_or_verb (token : Token) : bool :=
  bool_decide (tag token ∈ ["NNG"; "NNP"; "VV"]%string).

(** [len(word) > 1 and word not in STOPWORDS and word in whitelist]. *)
Definition countable (whitelist : gset string) (word : string) : bool :=
  bool_decide (1 < py_len word)%nat
  && bool_decide (word ∉ STOPWORDS)
  && bool_decide (word ∈ whitelist).

(** The inner loop of [_parse_memo_text] over the tokens of one memo. *)
Definition count_tokens (whitelist : gset string) (tokens : list Token)
    (word_counts : dict Z) : dict Z :=
  fold_left
    (fun counts token =>
       if noun_or_verb token && countable whitelist (form token)
       then dict_incr (form token) counts
       else counts)
    tokens word_counts.

(** The outer loop of [_parse_memo_text]; [None] when the tokenizer raises. *)
Fixpoint count_memos (analyze : Kiwi) (whitelist : gset string)
    (memo_list : list string) (word_counts : dict Z) : option (dict Z) :=
  match memo_list with
  | [] => Some word_counts
  | memo :: rest =>
      if memo_skipped memo then count_memos analyze whitelist rest word_counts
      else
        match analyze memo with
        | None => None
        | Some tokens =>
            count_memos analyze whitelist rest
                        (count_tokens whitelist tokens word_counts)
        end
  end.

(** [_parse_memo_text(memo_list)]: the empty mapping without a tokenizer and
    when anything raises. *)
Definition _parse_memo_text (env : Env) (memo_list : list string) : dict Z :=
  match kiwi env with
  | None => []
  | Some analyze =>
      let whitelist := _get_whitelist (whitelist_file env) in
      default [] (count_memos analyze whitelist memo_list [])
  end.

(** ** Result cache ([cache_utils.py]) *)

Section Cache.
Context {V : Type}.

(** [_CACHE_TTL]. *)
Definition _CACHE_TTL : Z := 300.

(** [time.time() - timestamp < _CACHE_TTL]. *)
Definition fresh (now timestamp : float) : bool :=
  float_ltb (float_sub now timestamp) (float_of_int _CACHE_TTL).

(** [get_cache(key)] read at time [now]: the value and the cache left. *)
Definition get_cache (now : float) (key : string)
    (cache : gmap string (V * float)) : option V * gmap string (V * float) :=
  match cache !! key with
  | Some (value, timestamp) =>
      if fresh now timestamp then (Some value, cache)
      else (None, delete key cache)
  | None => (None, cache)
  end.

(** [set_cache(key, value)] at time [now]. *)
Definition set_cache (now : float) (key : string) (value : V)
    (cache : gmap string (V * float)) : gmap string (V * float) :=
  <[key := (value, now)]> cache.

(** [clear_cache()]. *)
Definition clear_cache (cache : gmap string (V * float))
    : gmap string (V * float) := ∅.
End Cache.

(** The values of [time.time()] from 2004-01-10 to 2038-01-19 are the
    binary64 numbers of the binade from [2^30] to [2^31]: [ticks * 2^-22]
    seconds with a mantissa [ticks] of 53 bits. *)
Definition TICKS_PER_SECOND : Z := 2 ^ 22.

Definition clock (ticks : positive) : float := S754_finite false ticks (-22).

Definition clock_ticks (ticks : positive) : Prop :=
  2 ^ 52 <= Zpos ticks < 2 ^ 53.

(** ** Recent-trend analysis *)

(** [l[:stop]] with Python's treatment of a negative bound. *)
Definition py_slice_to {A : Type} (l : list A) (stop : Z) : list A :=
  if stop <? 0 then take (Z.to_nat (Z.of_nat (length l) + stop)) l
  else take (Z.to_nat stop) l.

(** [sorted(items, key=lambda x: x[1], reverse=True)]: the stable sort by
    descending score, as an insertion sort.  An element moves only past
    elements whose score is strictly greater. *)
Fixpoint insert_desc (x : string * num) (l : list (string * num))
    : list (string * num) :=
  match l with
  | [] => [x]
  | y :: l' =>
      if num_ltb (snd x) (snd y) then y :: insert_desc x l' else x :: y :: l'
  end.

Definition sorted_desc (l : list (string * num)) : list (string * num) :=
  foldr insert_desc [] l.

(** The verdict of the recent-trend analysis. *)
Inductive Trend : Type :=
  | ClearTrend (top_note top_note_korean : string)
  | NoClearTrend.

Definition is_clear_trend (t : Trend) : bool :=
  match t with ClearTrend _ _ => true | NoClearTrend => false end.

(** [records[:min(n, len(records))]]. *)
Definition recent_records (records : list TastingRecord) (n : Z)
    : list TastingRecord :=
  py_slice_to records (Z.min n (Z.of_nat (length records))).

(** [[r for r in recent_records if r.get('rating', 0) >= 3]]. *)
Definition filtered_records (recent : list TastingRecord)
    : list TastingRecord :=
  filter (fun r => 3 <= default 0 (rating r)) recent.

(** [RATING_WEIGHTS.get(record.get('rating', 3), 0.6)]. *)
Definition recent_weight (record : TastingRecord) : num :=
  RATING_WEIGHTS_get (default 3 (rating record)) (Float f0_6).

(** The loop [for note in notes: counts[note] = counts.get(note, 0) + weight]. *)
Definition add_notes (weight : num) (notes : list string) (counts : dict num)
    : dict num :=
  fold_left (fun c note => dict_add note weight c) notes counts.

(** The loop that fills [weighted_counts]. *)
Definition weighted_counts (filtered : list TastingRecord) : dict num :=
  fold_left
    (fun counts record =>
       add_notes (recent_weight record) (default [] (taste_notes record)) counts)
    filtered [].

(** [sorted_notes]. *)
Definition sorted_notes (counts : dict num) : list (string * num) :=
  sorted_desc counts.

(** The rest of [analyze_recent_taste_trend], from [if not weighted_counts]. *)
Definition trend_verdict (counts : dict num) : option Trend :=
  match counts with
  | [] => None
  | _ =>
      match sorted_notes counts with
      | [] => None
      | [(top_note, _)] => Some (ClearTrend top_note (_note_to_korean top_note))
      | (top_note, first_score) :: (_, second_score) :: _ =>
          if num_geb first_score (num_mul second_score (Float f1_5))
          then Some (ClearTrend top_note (_note_to_korean top_note))
          else Some NoClearTrend
      end
  end.

(** [analyze_recent_taste_trend(user_id, n)]. *)
Definition analyze_recent_taste_trend (env : Env) (uid : string) (n : Z)
    : option Trend :=
  let records := get_user_records env uid in
  if Z.of_nat (length records) <? 5 then None
  else
    let filtered := filtered_records (recent_records records n) in
    match filtered with
    | [] => None
    | _ => trend_verdict (weighted_counts filtered)
    end.

(** ** Full-history analysis *)

(** The mapping returned by [get_user_taste_analysis].  The analysis builds
    it with four keys; [similar_wordcloud] is the key that the archive page
    ([update_wordcloud] in [callbacks.py]) adds to the mapping it is handed,
    [None] while the key is absent. *)
Record TasteAnalysis : Type := {
  main_expressions : dict num;
  sub_expressions : dict num;
  memo_wordcloud : dict Z;
  total_count : Z;
  similar_wordcloud : option (dict Z)
}.

(** [f"taste_analysis:{user_id}"]. *)
Definition cache_key (uid : string) : string :=
  String.append "taste_analysis:" uid.

(** [RATING_WEIGHTS.get(rating, 0)]. *)
Definition full_weight (rating : Z) : num := RATING_WEIGHTS_get rating (Int 0).

(** The local variables that the record loop updates. *)
Record Tally : Type := {
  tally_main : dict num;
  tally_sub : dict num;
  tally_memos : list string
}.

(** The body of [for note in notes]. *)
Definition tally_note (rating : Z) (weight : num) (acc : Tally) (note : string)
    : Tally :=
  if 4 <=? rating then
    {| tally_main := dict_add note weight (tally_main acc);
       tally_sub := tally_sub acc;
       tally_memos := tally_memos acc |}
  else if rating <=? 2 then
    {| tally_main := tally_main acc;
       tally_sub := dict_add note weight (tally_sub acc);
       tally_memos := tally_memos acc |}
  else acc.

(** The body of [for record in records]. *)
Definition tally_record (acc : Tally) (record : TastingRecord) : Tally :=
  let rating := default 0 (rating record) in
  let weight := full_weight rating in
  let notes := default [] (taste_notes record) in
  let memo := default EmptyString (memo record) in
  let acc' :=
    if memo_skipped memo then acc
    else {| tally_main := tally_main acc;
            tally_sub := tally_sub acc;
            tally_memos := tally_memos acc ++ [memo] |} in
  fold_left (tally_note rating weight) notes acc'.

Definition tally_records (records : list TastingRecord) : Tally :=
  fold_left tally_record records
    {| tally_main := []; tally_sub := []; tally_memos := [] |}.

(** The part of [get_user_taste_analysis] that runs on a cache miss, up to
    the construction of [result]. *)
Definition compute_taste_analysis (env : Env) (uid : string)
    : option TasteAnalysis :=
  let records := get_user_records env uid in
  if Z.of_nat (length records) <? 5 then None
  else
    let t := tally_records records in
    Some {| main_expressions := tally_main t;
            sub_expressions := tally_sub t;
            memo_wordcloud := _parse_memo_text env (tally_memos t);
            total_count := Z.of_nat (length records);
            similar_wordcloud := None |}.

(** [get_user_taste_analysis(user_id)], with [cache_utils] importable (it
    sits next to [app.py]).  [t_read] is the clock read by [get_cache],
    [t_write] the clock read by [set_cache]; the result comes with the cache
    that the call leaves. *)
Definition get_user_taste_analysis (env : Env) (t_read t_write : float)
    (uid : string) (cache : gmap string (TasteAnalysis * float))
    : option TasteAnalysis * gmap string (TasteAnalysis * float) :=
  match get_cache t_read (cache_key uid) cache with
  | (Some cached, cache') => (Some cached, cache')
  | (None, cache') =>
      match compute_taste_analysis env uid with
      | None => (None, cache')
      | Some result => (Some result, set_cache t_write (cache_key uid) result cache')
      end
  end.

(** ** Similarity and cross-user aggregation *)

(** [set(record.get('taste_notes', [])) & user_notes_set] is not empty. *)
Definition shares_note (record : TastingRecord) (user_notes_set : gset string)
    : bool :=
  let record_notes : gset string :=
    list_to_set (default [] (taste_notes record)) in
  negb (bool_decide (record_notes ∩ user_notes_set = ∅)).

(** The record loop of [get_similar_users_memo_wordcloud]. *)
Definition similar_memos (uid : string) (user_notes_set : gset string)
    (all_records : list TastingRecord) : list string :=
  fold_left
    (fun memos record =>
       if bool_decide (user_id record = Some uid) then memos
       else
         let memo := default EmptyString (memo record) in
         if memo_skipped memo then memos
         else if shares_note record user_notes_set then memos ++ [memo]
         else memos)
    all_records [].

(** [get_similar_users_memo_wordcloud(user_id, user_notes)]. *)
Definition get_similar_users_memo_wordcloud (env : Env) (uid : string)
    (user_notes : list string) : dict Z :=
  match user_notes with
  | [] => []
  | _ =>
      let memos := similar_memos uid (list_to_set user_notes)
                                 (get_all_records env) in
      match memos with
      | [] => []
      | _ => _parse_memo_text env memos
      end
  end.

(** [taste_analysis['similar_wordcloud'] = similar_wordcloud]. *)
Definition attach_similar (taste_analysis : TasteAnalysis)
    (similar : dict Z) : TasteAnalysis :=
  {| main_expressions := main_expressions taste_analysis;
     sub_expressions := sub_expressions taste_analysis;
     memo_wordcloud := memo_wordcloud taste_analysis;
     total_count := total_count taste_analysis;
     similar_wordcloud := Some similar |}.

(** [update_wordcloud] of [callbacks.py], for a logged-in user on the archive
    page, up to the rendering: the analysis handed to the panel and the cache
    left.  The mapping returned by the analysis is the object held by the
    cache (read from it or just stored in it), so the assignment changes the
    cached object as well. *)
Definition update_wordcloud (env : Env) (t_read t_write : float)
    (uid : string) (cache : gmap string (TasteAnalysis * float))
    : option TasteAnalysis * gmap string (TasteAnalysis * float) :=
  match get_user_taste_analysis env t_read t_write uid cache with
  | (Some taste_analysis, cache') =>
      let main_notes := dict_keys (main_expressions taste_analysis) in
      let similar := get_similar_users_memo_wordcloud env uid main_notes in
      let mutated := attach_similar taste_analysis similar in
      (Some mutated,
       alter (fun entry => (mutated, snd entry)) (cache_key uid) cache')
  | (None, cache') => (None, cache')
  end.

(** The mapping returned by [get_product_reviews_wordcloud]. *)
Record ProductReviews : Type := {
  wordcloud : dict Z;
  count : Z;
  has_data : bool
}.

(** The record loop of [get_product_reviews_wordcloud]. *)
Definition product_memos (uid : string) (name : string)
    (all_records : list TastingRecord) : list string :=
  fold_left
    (fun memos record =>
       if bool_decide (user_id record = Some uid) then memos
       else if bool_decide (whiskey_name record ≠ Some name) then memos
       else
         let memo := default EmptyString (memo record) in
         if memo_skipped memo then memos else memos ++ [memo])
    all_records [].

(** [get_product_reviews_wordcloud(user_id, whiskey_name)]. *)
Definition get_product_reviews_wordcloud (env : Env) (uid : string)
    (name : string) : ProductReviews :=
  let memos := product_memos uid name (get_all_records env) in
  match memos with
  | [] => {| wordcloud := []; count := 0; has_data := false |}
  | _ => {| wordcloud := _parse_memo_text env memos;
            count := Z.of_nat (length memos);
            has_data := true |}
  end.

(** ** Rating column of a sheet row ([_parse_whiskey_row]) *)


Definition is_ascii_digit (c : ascii) : bool :=
  let n := N_of_ascii c in ((48 <=? n) && (n <=? 57))%N.

(** [cell.isdigit()] for a cell of ASCII characters: not empty, digits only. *)
Definition isdigit (cell : string) : bool :=
  match list_ascii_of_string cell with
  | [] => false
  | cs => forallb is_ascii_digit cs
  end.

(** [int(cell)] for a cell of ASCII digits. *)
Definition int_of_digits (cell : string) : Z :=
  fold_left (fun acc c => 10 * acc + (Z.of_N (N_of_ascii c) - 48))
            (list_ascii_of_string cell) 0.

(** [int(row[7]) if (row[7] or '').isdigit() else 0]. *)
Definition parse_rating (cell : string) : Z :=
  if isdigit cell then int_of_digits cell else 0.

(** ** Definitions that follow the words of the specification *)

(** The rating table that the recent-trend analysis is documented with. *)
Definition RECENT_TABLE : gmap Z float :=
  list_to_map [(5, f1_0); (4, f0_8); (3, f0_6)].

(** A record carries a tag. *)
Definition carries (t : string) (r : TastingRecord) : Prop :=
  t ∈ default [] (taste_notes r).

#[global] Instance carries_dec (t : string) (r : TastingRecord)
  : Decision (carries t r).
Proof. unfold carries. apply _. Defined.

(** The records that contribute to the recent score of tag [t]: among the
    newest [min(n, len(records))], those rated 3 or more that carry [t]. *)
Definition recent_contributors (t : string) (records : list TastingRecord)
    (n : Z) : list TastingRecord :=
  filter (fun r => 3 <= default 0 (rating r) /\ carries t r)
         (take (Z.to_nat (Z.min n (Z.of_nat (length records)))) records).

(** The weight that a rating table gives to a record (the int [0] when the
    table has no entry for its rating). *)
Definition table_weight (table : gmap Z float) (r : TastingRecord) : num :=
  match rating r ≫= (table !!.) with
  | Some w => Float w
  | None => Int 0
  end.

(** One copy of [w] for each occurrence of tag [t] among [notes]. *)
Definition copies (t : string) (notes : list string) (w : num) : list num :=
  map (fun _ => w) (filter (fun note => note = t) notes).

(** The memos that the tag similarity selects, in the words of the
    specification: records of other users, with a memo that is neither empty
    nor soft-deleted, sharing a tag with the reference tags. *)
Definition qualifying_similar (uid : string) (reference_tags : list string)
    (all_records : list TastingRecord) : list TastingRecord :=
  filter
    (fun r => user_id r <> Some uid
              /\ memo_skipped (default EmptyString (memo r)) = false
              /\ Exists (fun t => t ∈ reference_tags)
                        (default [] (taste_notes r)))
    all_records.

(** The memos that the product similarity selects, in the words of the
    specification. *)
Definition qualifying_product (uid : string) (name : string)
    (all_records : list TastingRecord) : list TastingRecord :=
  filter
    (fun r => whiskey_name r = Some name
              /\ user_id r <> Some uid
              /\ memo_skipped (default EmptyString (memo r)) = false)
    all_records.

(** The memo texts of a list of records. *)
Definition memos_of (rs : list TastingRecord) : list string :=
  map (fun r => default EmptyString (memo r)) rs.

(** The keys of a list, each at its first occurrence. *)
Fixpoint first_seen (l : list string) : list string :=
  match l with
  | [] => []
  | x :: l' => x :: filter (fun y => y <> x) (first_seen l')
  end.

(** [x] stands before [y] in [l]. *)
Definition before {A : Type} (x y : A) (l : list A) : Prop :=
  exists l1 l2 l3, l = l1 ++ x :: l2 ++ y :: l3.

(** ** Auxiliary definitions of the proofs *)

(** The accumulation events of a list of records: one pair of tag and weight
    for each note of each record, in iteration order. *)
Definition events_of (weight_of : TastingRecord -> num)
    (rs : list TastingRecord) : list (string * num) :=
  flat_map (fun r => map (fun note => (note, weight_of r))
                         (default [] (taste_notes r))) rs.

(** Replaying events on a dictionary. *)
Definition accumulate (evs : list (string * num)) (d : dict num) : dict num :=
  fold_left (fun c e => dict_add (fst e) (snd e) c) evs d.

(** The weights of the events of tag [t]. *)
Definition weights_for (t : string) (evs : list (string * num)) : list num :=
  map snd (filter (fun e => fst e = t) evs).

(** A score that is a float, not a NaN and not negative. *)
Definition good_score (x : num) : Prop :=
  match x with
  | Int _ => False
  | Float f => is_nan f = false /\ sign_bit f = false
  end.

(** No key of the word counts fails the filter of [countable]. *)
Definition clean (whitelist : gset string) (d : dict Z) : Prop :=
  forall w c, dict_get w d = Some c ->
    (1 < py_len w)%nat /\ (w ∉ STOPWORDS) /\ (w ∈ whitelist).

(** A key that orders the floats that are not NaN as [<] does: class first
    (negative infinity, negative, zero, positive, positive infinity), then
    exponent and mantissa. *)
Definition float_key (f : float) : Z * (Z * Z) :=
  match f with
  | S754_nan => (0, (0, 0))
  | S754_zero _ => (0, (0, 0))
  | S754_infinity s => if s then (-2, (0, 0)) else (2, (0, 0))
  | S754_finite s m e => if s then (-1, (- e, - Z.pos m)) else (1, (e, Z.pos m))
  end.

(** The lexicographic order of the keys. *)
Definition key_lt (a b : Z * (Z * Z)) : Prop :=
  a.1 < b.1
  \/ (a.1 = b.1
      /\ (a.2.1 < b.2.1 \/ (a.2.1 = b.2.1 /\ a.2.2 < b.2.2))).

(** [x] may stand before [y] in a list sorted by descending score: the score
    of [x] is not less than the score of [y]. *)
Definition not_below (x y : string * num) : Prop :=
  num_ltb (snd x) (snd y) = false.

(** ** Sample data *)

Definition sample_record (uid name : string) (notes : list string)
    (stars : Z) (text : string) : TastingRecord :=
  {| user_id := Some uid; whiskey_name := Some name;
     taste_notes := Some notes; rating := Some stars; memo := Some text |}.

(** Five visible records of user [u1], newest first. *)
Definition sample_records : list TastingRecord := [
  sample_record "u1" "Ardbeg 10" ["peaty"; "smoky"] 5 "스모키 피트";
  sample_record "u1" "Talisker 10" ["smoky"] 4 "스모키";
  sample_record "u1" "Glenfiddich 12" ["fruity"; "sweet"] 3 "바닐라";
  sample_record "u1" "Jameson" ["sweet"] 2 "";
  sample_record "u1" "Glenlivet 12" ["floral"] 1 "꽃"
]%string.

(** Records of other users. *)
Definition sample_others : list TastingRecord := [
  sample_record "u2" "Glenfiddich 12" ["fruity"] 4 "바닐라 과일";
  sample_record "u3" "Glenfiddich 12" ["peaty"] 5 "바닐라";
  sample_record "u3" "glenfiddich 12" ["sweet"] 3 "꿀";
  sample_record "u2" "Lagavulin 16" ["peaty"] 5 "[삭제됨 2025-01-01 10:00] 피트"
]%string.

(** A toy tokenizer: the words of a memo, separated by spaces, as nouns. *)
Fixpoint sample_words (cs : list ascii) (word : string) : list Token :=
  match cs with
  | [] => [{| form := word; tag := "NNG" |}]
  | c :: cs' =>
      if Ascii.eqb c " "
      then {| form := word; tag := "NNG" |} :: sample_words cs' EmptyString
      else sample_words cs' (String.append word (String c EmptyString))
  end.

Definition sample_kiwi : Kiwi :=
  fun text => Some (sample_words (list_ascii_of_string text) EmptyString).

Definition sample_env : Env :=
  {| get_user_records := fun uid =>
       if decide (uid = "u1"%string) then sample_records else [];
     get_all_records := sample_records ++ sample_others;
     kiwi := Some sample_kiwi;
     whitelist_file := Some ["스모키"; "피트"; "바닐라"; "과일"; "꿀"; "향"]%string |}.

(** The same store once [u1] has soft-deleted the newest record: the record
    stays in the store with a marked memo and is no longer among the visible
    records of the user. *)
Definition sample_env_after_delete : Env :=
  {| get_user_records := fun uid =>
       if decide (uid = "u1"%string) then drop 1 sample_records else [];
     get_all_records :=
       sample_record "u1" "Ardbeg 10" ["peaty"; "smoky"] 5
                     "[삭제됨 2025-01-01 10:00] 스모키 피트"
       :: drop 1 sample_records ++ sample_others;
     kiwi := kiwi sample_env;
     whitelist_file := whitelist_file sample_env |}.

(** The cache left by a first analysis of [u1] at second 1000. *)
Definition sample_cache : gmap string (TasteAnalysis * float) :=
  snd (get_user_taste_analysis sample_env (float_of_int 1000)
         (float_of_int 1000) "u1" ∅).


(** * Further definitions *)

(** ** Callers of the analyzers ([callbacks.py]) *)

(** [load_my_wordcloud], for a logged-in user, up to the rendering: the word
    counts handed to the card. *)
Definition load_my_wordcloud (env : Env) (uid : string) : dict Z :=
  let records := get_user_records env uid in
  let all_memos :=
    map (fun r => default EmptyString (memo r))
        (filter (fun r => default EmptyString (memo r) <> EmptyString) records) in
  _parse_memo_text env all_memos.

(** [load_community_wordcloud], for a logged-in user, up to the rendering:
    the word counts handed to the card, [None] when the page shows the
    notice that 5 records are needed; with the cache that the call leaves. *)
Definition load_community_wordcloud (env : Env) (t_read t_write : float)
    (uid : string) (cache : gmap string (TasteAnalysis * float))
    : option (dict Z) * gmap string (TasteAnalysis * float) :=
  match get_user_taste_analysis env t_read t_write uid cache with
  | (None, cache') => (None, cache')
  | (Some taste_analysis, cache') =>
      let user_notes := dict_keys (main_expressions taste_analysis) in
      (Some (get_similar_users_memo_wordcloud env uid user_notes), cache')
  end.

(** ** Definitions that state the further properties *)

(** The surface forms that the word frequencies count, in reading order: the
    nouns and verbs that pass the filter, from the memos that are not
    skipped. *)
Definition counted_forms (analyze : Kiwi) (whitelist : gset string)
    (memo_list : list string) : list string :=
  flat_map
    (fun memo =>
       if memo_skipped memo then []
       else map form
              (filter (fun token =>
                         noun_or_verb token
                         && countable whitelist (form token) = true)
                      (default [] (analyze memo))))
    memo_list.

(** How often [w] occurs in [l]. *)
Definition occurrences (w : string) (l : list string) : nat :=
  length (filter (fun x => x = w) l).

(** Counting a list of words one by one. *)
Definition incr_all (ws : list string) (d : dict Z) : dict Z :=
  fold_left (fun c w => dict_incr w c) ws d.

(** The tags of the records that satisfy [keep], in reading order. *)
Definition tags_of (keep : TastingRecord -> Prop)
    `{!forall r, Decision (keep r)} (rs : list TastingRecord) : list string :=
  flat_map (fun r => default [] (taste_notes r)) (filter keep rs).

(** ** Further sample data *)

(** A tokenizer that raises on the memo [꿀] and answers like the sample
    tokenizer on every other memo. *)
Definition sample_kiwi_failing : Kiwi :=
  fun text => if decide (text = "꿀"%string) then None else sample_kiwi text.

Definition sample_env_failing : Env :=
  {| get_user_records := get_user_records sample_env;
     get_all_records := get_all_records sample_env;
     kiwi := Some sample_kiwi_failing;
     whitelist_file := whitelist_file sample_env |}.

(** ** More of Python's strings *)

(** Whitespace, for [str.strip]: the code points for which [str.isspace]
    holds, by their UTF-8 encodings of one, two and three bytes
    (U+0009..U+000D, U+001C..U+0020; U+0085, U+00A0; U+1680, U+2000..U+200A,
    U+2028, U+2029, U+202F, U+205F, U+3000). *)
Definition space_1 (c1 : ascii) : bool :=
  let n1 := N_of_ascii c1 in
  (((9 <=? n1) && (n1 <=? 13)) || ((28 <=? n1) && (n1 <=? 32)))%N.

Definition space_2 (c1 c2 : ascii) : bool :=
  let n1 := N_of_ascii c1 in
  let n2 := N_of_ascii c2 in
  ((n1 =? 194) && ((n2 =? 133) || (n2 =? 160)))%N.

Definition space_3 (c1 c2 c3 : ascii) : bool :=
  let n1 := N_of_ascii c1 in
  let n2 := N_of_ascii c2 in
  let n3 := N_of_ascii c3 in
  (((n1 =? 225) && (n2 =? 154) && (n3 =? 128))
   || ((n1 =? 226) && (n2 =? 128)
       && (((128 <=? n3) && (n3 <=? 138))
           || (n3 =? 168) || (n3 =? 169) || (n3 =? 175)))
   || ((n1 =? 226) && (n2 =? 129) && (n3 =? 159))
   || ((n1 =? 227) && (n2 =? 128) && (n3 =? 128)))%N.

(** Dropping the whitespace at the head of a byte sequence; [two] and
    [three] recognise the encodings of two and three bytes. *)
Fixpoint lstrip_with (two : ascii -> ascii -> bool)
    (three : ascii -> ascii -> ascii -> bool) (cs : list ascii) : list ascii :=
  match cs with
  | [] => []
  | c1 :: r1 =>
      if space_1 c1 then lstrip_with two three r1
      else
        match r1 with
        | [] => cs
        | c2 :: r2 =>
            if two c1 c2 then lstrip_with two three r2
            else
              match r2 with
              | [] => cs
              | c3 :: r3 =>
                  if three c1 c2 c3 then lstrip_with two three r3 else cs
              end
        end
  end.

Definition lstrip_bytes (cs : list ascii) : list ascii :=
  lstrip_with space_2 space_3 cs.

(** The same from the end: the sequence is read backwards, and so are the
    encodings. *)
Definition rstrip_bytes (cs : list ascii) : list ascii :=
  rev (lstrip_with (fun c1 c2 => space_2 c2 c1)
                   (fun c1 c2 c3 => space_3 c3 c2 c1) (rev cs)).

(** [s.strip()]. *)
Definition py_strip (s : string) : string :=
  string_of_list_ascii (rstrip_bytes (lstrip_bytes (list_ascii_of_string s))).

(** Cutting a byte sequence at every occurrence of [sep]. *)
Fixpoint split_bytes (sep : ascii) (cs : list ascii) : list (list ascii) :=
  match cs with
  | [] => [[]]
  | c :: cs' =>
      if Ascii.eqb c sep then [] :: split_bytes sep cs'
      else
        match split_bytes sep cs' with
        | piece :: pieces => (c :: piece) :: pieces
        | [] => [[c]]
        end
  end.

(** [s.split(',')]. *)
Definition py_split_comma (s : string) : list string :=
  map string_of_list_ascii (split_bytes "," (list_ascii_of_string s)).

(** [sep.join(l)]. *)
Fixpoint py_join (sep : string) (l : list string) : string :=
  match l with
  | [] => EmptyString
  | [x] => x
  | x :: rest => String.append x (String.append sep (py_join sep rest))
  end.

(** [[k.strip() for k in s.split(',')]]. *)
Definition split_strip (s : string) : list string :=
  map py_strip (py_split_comma s).

(** ** Sheet rows and stored records *)

(** A record as the store holds it: the fields that the analyzers read
    ([tasting]) and the other keys.  [record_id] is the id as [str] prints it,
    [str(record.get('id', record.get('timestamp', '')))]. *)
Record StoredRecord : Type := {
  record_id : string;
  record_timestamp : string;
  record_date : string;
  record_username : string;
  record_keyword : string;
  tasting : TastingRecord
}.

(** [(row + [''] * 10)[:10]]. *)
Definition padded_row (row : list string) : list string :=
  take 10 (row ++ replicate 10 EmptyString).

(** [row[i]] after the padding, for [i] below 10. *)
Definition cell (row : list string) (i : nat) : string :=
  nth i (padded_row row) EmptyString.

(** The [taste_notes] of [_parse_whiskey_row]:
    [[note.strip() for note in row[6].split(',') if note.strip()]] when the
    cell is not empty. *)
Definition parse_taste_notes (notes_cell : string) : list string :=
  if decide (notes_cell = EmptyString) then []
  else filter (fun note => note <> EmptyString) (split_strip notes_cell).

(** [_parse_whiskey_row(row)], for a row whose rating cell is a text of ASCII
    characters.  On another rating cell Python leaves [parse_rating]: it
    reads digits of other scripts as their value and raises [ValueError] on
    a character such as a superscript digit; the properties of parsed rows
    are stated for ASCII rating cells ([ascii_only], [ascii_ratings]). *)
Definition _parse_whiskey_row (row : list string) : StoredRecord :=
  {| record_id := cell row 0;
     record_timestamp := cell row 0;
     record_date := cell row 1;
     record_username := cell row 3;
     record_keyword := cell row 9;
     tasting :=
       {| user_id := Some (cell row 2);
          whiskey_name := Some (cell row 4);
          taste_notes := Some (parse_taste_notes (cell row 6));
          rating := Some (parse_rating (cell row 7));
          memo := Some (cell row 8) |} |}.

(** [taste_notes_str] of [save_whiskey_record] and [update_whiskey_record]:
    [", ".join(record.get('taste_notes', []))]. *)
Definition taste_notes_str (r : TastingRecord) : string :=
  py_join ", " (default [] (taste_notes r)).

(** [list.sort(key=..., reverse=True)]: the stable sort by descending key, as
    an insertion sort; [ltb x y] tells that the key of [x] is less than the
    key of [y]. *)
Fixpoint insert_desc_by {A : Type} (ltb : A -> A -> bool) (x : A) (l : list A)
    : list A :=
  match l with
  | [] => [x]
  | y :: l' => if ltb x y then y :: insert_desc_by ltb x l' else x :: y :: l'
  end.

Definition sort_desc_by {A : Type} (ltb : A -> A -> bool) (l : list A)
    : list A :=
  foldr (insert_desc_by ltb) [] l.

(** [x.get('timestamp', '') < y.get('timestamp', '')] on strings. *)
Definition older (x y : StoredRecord) : bool :=
  String.ltb (record_timestamp x) (record_timestamp y).

(** The record is marked as deleted:
    [memo.startswith('[삭제됨')] with [memo = record.get('memo', '')]. *)
Definition is_deleted (r : StoredRecord) : bool :=
  startswith (default EmptyString (memo (tasting r))) DELETED_MARKER.

(** The archive sheet as the sheet manager sees it. *)
Record Sheets : Type := {
  (** [is_connected]; the worksheet is opened before the flag is set. *)
  is_connected : bool;
  (** [whiskey_worksheet.get('A:J')], [None] when the call raises. *)
  worksheet : option (list (list string))
}.

Module GoogleSheetsManager.

(** [get_all_whiskey_records()], for a sheet whose rating cells are texts of
    ASCII characters ([ascii_ratings]); on another sheet a row can make
    [_parse_whiskey_row] raise, and the function then returns the empty
    list. *)
Definition get_all_whiskey_records (sheets : Sheets) : list StoredRecord :=
  if negb (is_connected sheets) then []
  else
    match worksheet sheets with
    | None => []
    | Some values =>
        if (length values <=? 1)%nat then []
        else
          let rows :=
            filter (fun row => Exists (fun c => c <> EmptyString) row)
                   (drop 1 values) in
          sort_desc_by older (map _parse_whiskey_row rows)
    end.

(** [get_user_whiskey_records(user_id)]. *)
Definition get_user_whiskey_records (sheets : Sheets) (uid : string)
    : list StoredRecord :=
  if negb (is_connected sheets) then []
  else
    filter (fun r => user_id (tasting r) = Some uid)
           (get_all_whiskey_records sheets).

(** [get_user_whiskey_records_visible(user_id)]. *)
Definition get_user_whiskey_records_visible (sheets : Sheets) (uid : string)
    : list StoredRecord :=
  if negb (is_connected sheets) then []
  else
    filter (fun r => is_deleted r = false)
           (get_user_whiskey_records sheets uid).

End GoogleSheetsManager.

(** The record store of the data manager: the sheet and
    [memory_store['records']]. *)
Record Store : Type := {
  sheets_manager : Sheets;
  records : list StoredRecord
}.

(** [f"[삭제됨 {deleted_at}] {memo}"]. *)
Definition deleted_memo (deleted_at old_memo : string) : string :=
  String.append "[삭제됨 "
    (String.append deleted_at (String.append "] " old_memo)).

(** [record['memo'] = f"[삭제됨 {deleted_at}] {record.get('memo', '')}"]. *)
Definition mark_deleted (deleted_at : string) (r : StoredRecord)
    : StoredRecord :=
  {| record_id := record_id r;
     record_timestamp := record_timestamp r;
     record_date := record_date r;
     record_username := record_username r;
     record_keyword := record_keyword r;
     tasting :=
       {| user_id := user_id (tasting r);
          whiskey_name := whiskey_name (tasting r);
          taste_notes := taste_notes (tasting r);
          rating := rating (tasting r);
          memo := Some (deleted_memo deleted_at
                          (default EmptyString (memo (tasting r)))) |} |}.

Module WhiskeyDataManager.

(** [get_all_records()]. *)
Definition get_all_records (store : Store) : list StoredRecord :=
  let sheets_records :=
    if is_connected (sheets_manager store)
    then GoogleSheetsManager.get_all_whiskey_records (sheets_manager store)
    else [] in
  match sheets_records with
  | _ :: _ => sheets_records
  | [] => sort_desc_by older (records store)
  end.

(** [get_user_records(user_id)]. *)
Definition get_user_records (store : Store) (uid : string)
    : list StoredRecord :=
  let sheets_records :=
    if is_connected (sheets_manager store)
    then GoogleSheetsManager.get_user_whiskey_records_visible
           (sheets_manager store) uid
    else [] in
  match sheets_records with
  | _ :: _ => sheets_records
  | [] =>
      filter (fun r =>
                py_strip (default EmptyString (user_id (tasting r))) = uid
                /\ is_deleted r = false)
             (get_all_records store)
  end.

(** [get_user_records_count(user_id)]. *)
Definition get_user_records_count (store : Store) (uid : string) : Z :=
  Z.of_nat (length (get_user_records store uid)).

(** The loop of [soft_delete_record] over [memory_store['records']]: the
    first record with that id and that owner gets its memo marked. *)
Fixpoint soft_delete_record (rs : list StoredRecord)
    (id uid deleted_at : string) : list StoredRecord :=
  match rs with
  | [] => []
  | r :: rest =>
      if bool_decide (record_id r = id)
         && bool_decide (user_id (tasting r) = Some uid)
      then mark_deleted deleted_at r :: rest
      else r :: soft_delete_record rest id uid deleted_at
  end.

End WhiskeyDataManager.


(** ** Keywords ([add_record_keyword], [add_preferred_keyword]) *)

(** The new content of the keyword cell, [None] when the keyword is found
    in the cell and nothing is written.  [current_keywords] is the cell as a
    text, which is what [get_all_values] gives to [add_record_keyword]. *)
Definition add_keyword (current_keywords keyword : string) : option string :=
  if decide (current_keywords = EmptyString) then Some keyword
  else
    let keywords_list := split_strip current_keywords in
    if decide (keyword ∈ keywords_list) then None
    else Some (py_join ", " (keywords_list ++ [keyword])).

(** The list of [get_user_preferred_keywords] for a keyword cell that is
    read as a text; it is also the list in which both additions look for the
    keyword, when the cell is not empty. *)
Definition parse_keywords (keywords : string) : list string :=
  if decide (keywords = EmptyString) then [] else split_strip keywords.

(** ** Definitions that state the properties of rows and stores *)

(** A word that survives a keyword or tag cell: without a comma and without
    whitespace at either end. *)
Definition stripped_word (w : string) : Prop :=
  (","%char ∉ list_ascii_of_string w) /\ py_strip w = w.

(** A stripped word that is not empty. *)
Definition plain_word (w : string) : Prop :=
  w <> EmptyString /\ stripped_word w.



(** The record is listed for user [uid] by the scan of the data manager. *)
Definition listed_for (uid : string) (r : StoredRecord) : Prop :=
  py_strip (default EmptyString (user_id (tasting r))) = uid
  /\ is_deleted r = false.

(** The record is the target of a soft delete. *)
Definition delete_target (id uid : string) (r : StoredRecord) : Prop :=
  record_id r = id /\ user_id (tasting r) = Some uid.



(** A sample memory store without a sheet. *)
Definition sample_memory : list StoredRecord := [
  {| record_id := "1735812000.0"; record_timestamp := "2025-01-02T10:00:00";
     record_date := "2025-01-02"; record_username := "kim";
     record_keyword := "";
     tasting := sample_record "u1" "Talisker 10" ["smoky"] 4 "스모키" |};
  {| record_id := "1736065800.0"; record_timestamp := "2025-01-05T09:30:00";
     record_date := "2025-01-05"; record_username := "kim";
     record_keyword := "";
     tasting := sample_record "u1" "Ardbeg 10" ["peaty"] 5 "피트" |};
  {| record_id := "1735988400.0"; record_timestamp := "2025-01-04T12:00:00";
     record_date := "2025-01-04"; record_username := "lee";
     record_keyword := "";
     tasting := sample_record "u2" "Glenlivet 12" ["floral"] 3 "꽃" |}
]%string.

Definition sample_store (rs : list StoredRecord) : Store :=
  {| sheets_manager := {| is_connected := false; worksheet := None |};
     records := rs |}.

(** ** Display of word counts and progress ([components/layouts.py]) *)

(** [x[1] < y[1]] on the items of a word-count dictionary. *)
Definition fewer (x y : string * Z) : bool := snd x <? snd y.

(** What [_create_wordcloud_display] gives: the placeholder for an empty
    dictionary, the [ZeroDivisionError] of [count / max_count], or the words
    in display order with their counts. *)
Inductive WordDisplay : Type :=
  | NoWordsYet
  | DivisionByZero
  | WordsShown (words : list (string * Z)).

(** [_create_wordcloud_display(word_counts, max_words)]:
    [sorted_words] is
    [sorted(word_counts.items(), key=lambda x: x[1], reverse=True)[:max_words]]
    and [max_count] the count of its first word.  The loop divides the count
    of every word by [max_count], which raises on the first word when
    [max_count] is 0; the font size and the colour that it computes from the
    quotient are left out.  Counts are not negative, as the word frequencies
    give them (the quotient of a negative count can overflow). *)
Definition _create_wordcloud_display (word_counts : dict Z) (max_words : Z)
    : WordDisplay :=
  match word_counts with
  | [] => NoWordsYet
  | _ =>
      let sorted_words :=
        py_slice_to (sort_desc_by fewer word_counts) max_words in
      match sorted_words with
      | [] => WordsShown []
      | (_, max_count) :: _ =>
          if max_count =? 0 then DivisionByZero else WordsShown sorted_words
      end
  end.

(** The line under the record count of [_create_whiskey_glass]. *)
Inductive GlassMessage : Type :=
  | MoreToComplete (remaining glass : Z)
      (** [f"{remaining}개 더 기록하면 {glass}잔 완성"] *)
  | GlassesCompleted (glasses : Z)
      (** [f"{glasses}잔 완성!"] *).

(** The message of [_create_whiskey_glass(record_count)]; the liquid height
    is left out. *)
Definition _create_whiskey_glass (record_count : Z) : GlassMessage :=
  let current_fill := record_count mod 10 in
  let completed_glasses := record_count / 10 in
  if current_fill <? 10
  then MoreToComplete (10 - current_fill) (completed_glasses + 1)
  else GlassesCompleted completed_glasses.

(** [update_glass] on the home page, for a logged-in user. *)
Definition update_glass (store : Store) (uid : string) : GlassMessage :=
  _create_whiskey_glass (WhiskeyDataManager.get_user_records_count store uid).

(** A notes card of the archive page: the notice for a missing analysis,
    the notice for an empty bucket, or the notes named in the sentence
    followed by the notes shown as tags. *)
Inductive NotesPanel : Type :=
  | NeedMoreRecords
  | NoNotesYet
  | NotesShown (sentence_notes tags : list string).

(** [_create_main_notes_panel(taste_analysis)], up to the markup: the
    sentence names [note_names_kr[0]] and, when there are two names or more,
    [note_names_kr[1]]; the tags are [note_names_kr[:4]].  The mapping of the
    panel is the one of [_note_to_korean]. *)
Definition _create_main_notes_panel (taste_analysis : option TasteAnalysis)
    : NotesPanel :=
  match taste_analysis with
  | None => NeedMoreRecords
  | Some analysis =>
      match main_expressions analysis with
      | [] => NoNotesYet
      | _ =>
          let sorted_notes := sorted_desc (main_expressions analysis) in
          let note_names_kr :=
            map (fun kv => _note_to_korean (fst kv)) sorted_notes in
          NotesShown (take 2 note_names_kr) (take 4 note_names_kr)
      end
  end.

(** [_create_sub_notes_panel(taste_analysis)], with [note_names_kr[:3]] as
    tags. *)
Definition _create_sub_notes_panel (taste_analysis : option TasteAnalysis)
    : NotesPanel :=
  match taste_analysis with
  | None => NeedMoreRecords
  | Some analysis =>
      match sub_expressions analysis with
      | [] => NoNotesYet
      | _ =>
          let sorted_notes := sorted_desc (sub_expressions analysis) in
          let note_names_kr :=
            map (fun kv => _note_to_korean (fst kv)) sorted_notes in
          NotesShown (take 2 note_names_kr) (take 3 note_names_kr)
      end
  end.

(** What a notes card may show for the records [rs] of a user, for the
    bucket of the records that satisfy [keep], with at most [limit] tags. *)
Definition panel_for (keep : TastingRecord -> Prop)
    `{!forall r, Decision (keep r)} (limit : nat) (rs : list TastingRecord)
    (panel : NotesPanel) : Prop :=
  match panel with
  | NeedMoreRecords => False
  | NoNotesYet => forall r t, r ∈ rs -> keep r -> ~ carries t r
  | NotesShown sentence_notes tags =>
      sentence_notes = take 2 tags
      /\ length tags = Nat.min limit (length (first_seen (tags_of keep rs)))
      /\ (1 <= length tags)%nat
      /\ forall name,
           name ∈ tags ->
           exists t r,
             name = _note_to_korean t /\ r ∈ rs /\ keep r /\ carries t r
  end.

(** * Properties *)

(** ** Float literals *)

(** Each literal is the correctly rounded quotient of two small integers,
    that is, the binary64 value nearest to the decimal written in the source. *)
Lemma float_literals :
  f1_0 = float_of_int 1
  /\ f0_8 = float_div (float_of_int 8) (float_of_int 10)
  /\ f0_6 = float_div (float_of_int 6) (float_of_int 10)
  /\ f0_3 = float_div (float_of_int 3) (float_of_int 10)
  /\ f0_1 = float_div (float_of_int 1) (float_of_int 10)
  /\ f1_5 = float_div (float_of_int 15) (float_of_int 10)
  /\ f0_7 = float_div (float_of_int 7) (float_of_int 10)
  /\ f1_8 = float_div (float_of_int 18) (float_of_int 10).
Proof. vm_compute. repeat split; reflexivity. Qed.

(** ** Dictionaries *)

Section DictLemmas.
Context {V : Type}.
Implicit Types (d : dict V) (k : string) (v : V).

Lemma dict_get_set_eq k v d : dict_get k (dict_set k v d) = Some v.
Proof.
  induction d as [|[k' v'] d IH]; simpl.
  - by rewrite decide_True.
  - destruct (decide (k = k')); simpl.
    + by rewrite decide_True.
    + by rewrite decide_False.
Qed.

Lemma dict_get_set_ne k k' v d :
  k <> k' -> dict_get k' (dict_set k v d) = dict_get k' d.
Proof.
  intros Hne. induction d as [|[k0 v0] d IH]; simpl.
  - by rewrite decide_False.
  - destruct (decide (k = k0)) as [->|]; simpl.
    + by rewrite !decide_False.
    + by rewrite IH.
Qed.

Lemma dict_get_None k d : dict_get k d = None <-> k ∉ dict_keys d.
Proof.
  induction d as [|[k' v'] d IH]; simpl.
  - split; [intros _; apply not_elem_of_nil | done].
  - rewrite not_elem_of_cons. destruct (decide (k = k')) as [->|Hne].
    + split; [done | intros [? _]; done].
    + rewrite IH. split; [by intros ? | by intros [_ ?]].
Qed.

Lemma dict_get_Some_elem k v d : dict_get k d = Some v -> (k, v) ∈ d.
Proof.
  induction d as [|[k' v'] d IH]; simpl; [done|].
  destruct (decide (k = k')) as [->|].
  - intros [= ->]. apply elem_of_cons; auto.
  - intros H. apply elem_of_cons; auto.
Qed.

Lemma dict_get_elem k v d :
  NoDup (dict_keys d) -> (k, v) ∈ d -> dict_get k d = Some v.
Proof.
  induction d as [|[k' v'] d IH]; simpl.
  - intros _ H. by apply elem_of_nil in H.
  - rewrite NoDup_cons. intros [Hk Hd] [H|H]%elem_of_cons.
    + injection H as -> ->. by rewrite decide_True.
    + rewrite decide_False; [auto|]. intros ->. apply Hk.
      apply list_elem_of_fmap. by exists (k', v).
Qed.

Lemma dict_keys_set k v d :
  dict_keys (dict_set k v d) =
    match dict_get k d with
    | Some _ => dict_keys d
    | None => dict_keys d ++ [k]
    end.
Proof.
  induction d as [|[k' v'] d IH]; simpl; [done|].
  destruct (decide (k = k')) as [->|]; simpl; [done|].
  rewrite IH. by destruct (dict_get k d).
Qed.

Lemma dict_set_NoDup k v d :
  NoDup (dict_keys d) -> NoDup (dict_keys (dict_set k v d)).
Proof.
  intros Hnd. rewrite dict_keys_set.
  destruct (dict_get k d) eqn:E; [done|].
  apply NoDup_app. split_and!; [done| |apply NoDup_singleton].
  intros x Hx ->%list_elem_of_singleton. by apply dict_get_None in E.
Qed.
End DictLemmas.

(** ** Accumulated scores *)

Lemma dict_add_get_eq k w d :
  dict_get k (dict_add k w d) = Some (num_add (default (Int 0) (dict_get k d)) w).
Proof. apply dict_get_set_eq. Qed.

Lemma dict_add_get_ne k k' w d :
  k <> k' -> dict_get k' (dict_add k w d) = dict_get k' d.
Proof. apply dict_get_set_ne. Qed.

Lemma add_notes_accumulate w notes d :
  add_notes w notes d = accumulate (map (fun note => (note, w)) notes) d.
Proof.
  unfold add_notes, accumulate. revert d.
  induction notes as [|note notes IH]; intros d; simpl; [done|]. apply IH.
Qed.

Lemma accumulate_app evs1 evs2 d :
  accumulate (evs1 ++ evs2) d = accumulate evs2 (accumulate evs1 d).
Proof. unfold accumulate. apply fold_left_app. Qed.

Lemma fold_add_notes_accumulate (weight_of : TastingRecord -> num) rs d :
  fold_left
    (fun c r => add_notes (weight_of r) (default [] (taste_notes r)) c) rs d
  = accumulate (events_of weight_of rs) d.
Proof.
  revert d. induction rs as [|r rs IH]; intros d; simpl; [done|].
  rewrite IH, accumulate_app. by rewrite add_notes_accumulate.
Qed.

Lemma weighted_counts_accumulate frs :
  weighted_counts frs = accumulate (events_of recent_weight frs) [].
Proof. apply fold_add_notes_accumulate. Qed.

(** The score of a tag after replaying events: the weights of its events,
    added from left to right to what the dictionary held. *)
Lemma accumulate_get t evs d :
  dict_get t (accumulate evs d) =
    match weights_for t evs with
    | [] => dict_get t d
    | ws => Some (fold_left num_add ws (default (Int 0) (dict_get t d)))
    end.
Proof.
  revert d. induction evs as [|[k w] evs IH]; intros d; [done|].
  change (accumulate ((k, w) :: evs) d) with (accumulate evs (dict_add k w d)).
  rewrite IH. unfold weights_for. rewrite filter_cons. simpl.
  destruct (decide (k = t)) as [->|Hne]; simpl.
  - rewrite dict_add_get_eq. simpl.
    by destruct (map snd (filter (fun e => fst e = t) evs)).
  - by rewrite dict_add_get_ne.
Qed.

Lemma accumulate_get_empty t evs :
  dict_get t (accumulate evs []) =
    match weights_for t evs with
    | [] => None
    | ws => Some (py_sum ws)
    end.
Proof. by rewrite accumulate_get. Qed.

Lemma accumulate_NoDup evs d :
  NoDup (dict_keys d) -> NoDup (dict_keys (accumulate evs d)).
Proof.
  revert d. induction evs as [|[k w] evs IH]; intros d Hd; [done|].
  apply IH. by apply dict_set_NoDup.
Qed.

Lemma weights_for_app t evs1 evs2 :
  weights_for t (evs1 ++ evs2) = weights_for t evs1 ++ weights_for t evs2.
Proof. unfold weights_for. by rewrite filter_app, map_app. Qed.

Lemma weights_for_notes t w notes :
  weights_for t (map (fun note => (note, w)) notes) = copies t notes w.
Proof.
  unfold weights_for, copies.
  induction notes as [|x notes IH]; [done|].
  simpl. rewrite !filter_cons. simpl.
  destruct (decide (x = t)); simpl; by rewrite IH.
Qed.

Lemma weights_for_events t weight_of rs :
  weights_for t (events_of weight_of rs) =
    flat_map (fun r => copies t (default [] (taste_notes r)) (weight_of r)) rs.
Proof.
  induction rs as [|r rs IH]; [done|].
  simpl. by rewrite weights_for_app, weights_for_notes, IH.
Qed.

Lemma copies_NoDup t notes w :
  NoDup notes -> copies t notes w = if decide (t ∈ notes) then [w] else [].
Proof.
  unfold copies. induction 1 as [|x notes Hx Hnd IH]; [done|].
  rewrite filter_cons. destruct (decide (x = t)) as [->|Hne]; simpl.
  - rewrite decide_True by apply list_elem_of_here.
    rewrite decide_False in IH by done. by rewrite IH.
  - rewrite IH. destruct (decide (t ∈ notes)) as [Hin|Hnin].
    + rewrite decide_True; [done|]. by apply list_elem_of_further.
    + rewrite decide_False; [done|]. rewrite not_elem_of_cons. split; auto.
Qed.

(** ** The rating tables *)

Lemma RATING_WEIGHTS_lookup x :
  RATING_WEIGHTS !! x =
    if decide (x = 5) then Some f1_0
    else if decide (x = 4) then Some f0_8
    else if decide (x = 3) then Some f0_6
    else if decide (x = 2) then Some f0_3
    else if decide (x = 1) then Some f0_1
    else None.
Proof.
  unfold RATING_WEIGHTS. simpl.
  repeat (case_decide; [subst; by simplify_map_eq|]).
  by simplify_map_eq.
Qed.

Lemma RECENT_TABLE_lookup x :
  RECENT_TABLE !! x =
    if decide (x = 5) then Some f1_0
    else if decide (x = 4) then Some f0_8
    else if decide (x = 3) then Some f0_6
    else None.
Proof.
  unfold RECENT_TABLE. simpl.
  repeat (case_decide; [subst; by simplify_map_eq|]).
  by simplify_map_eq.
Qed.

(** On a record that survives the rating filter and is rated at most 5, the
    weight of the recent-trend analysis is the one of the documented table. *)
Lemma recent_weight_table r :
  3 <= default 0 (rating r) <= 5 ->
  recent_weight r = table_weight RECENT_TABLE r.
Proof.
  unfold recent_weight, table_weight, RATING_WEIGHTS_get.
  destruct (rating r) as [x|]; simpl; [|lia]. intros Hx.
  rewrite RATING_WEIGHTS_lookup, RECENT_TABLE_lookup.
  repeat case_decide; try done; lia.
Qed.

(** The weight of the full-history analysis is the one of [RATING_WEIGHTS]. *)
Lemma full_weight_table r :
  full_weight (default 0 (rating r)) = table_weight RATING_WEIGHTS r.
Proof.
  unfold full_weight, table_weight, RATING_WEIGHTS_get.
  destruct (rating r) as [x|]; simpl.
  - by destruct (RATING_WEIGHTS !! x).
  - by rewrite RATING_WEIGHTS_lookup.
Qed.

(** ** Recent-trend analysis: slices and filters *)

Lemma recent_records_take records n :
  0 <= n ->
  recent_records records n =
    take (Z.to_nat (Z.min n (Z.of_nat (length records)))) records.
Proof.
  intros Hn. unfold recent_records, py_slice_to.
  destruct (Z.ltb_spec (Z.min n (Z.of_nat (length records))) 0); [lia|done].
Qed.

Lemma flat_map_carriers t (w : TastingRecord -> num) rs :
  flat_map (fun r => if decide (carries t r) then [w r] else []) rs
  = map w (filter (carries t) rs).
Proof.
  induction rs as [|r rs IH]; [done|].
  simpl. rewrite filter_cons. destruct (decide (carries t r)); simpl; by rewrite IH.
Qed.

Lemma flat_map_ext_Forall {A B : Type} (f g : A -> list B) l :
  Forall (fun x => f x = g x) l -> flat_map f l = flat_map g l.
Proof. induction 1 as [|x l Hx _ IH]; [done|]. simpl. by rewrite Hx, IH. Qed.

(** A record rated below 3 never reaches the weighting. *)
Lemma filtered_records_drop l1 r l2 :
  default 0 (rating r) < 3 ->
  filtered_records (l1 ++ r :: l2) = filtered_records (l1 ++ l2).
Proof.
  intros Hr. unfold filtered_records.
  rewrite !filter_app, filter_cons_False; [done|lia].
Qed.

(** ** C1: insufficient data *)

Lemma get_user_taste_analysis_few env t_read t_write uid cache :
  (length (get_user_records env uid) < 5)%nat ->
  get_user_taste_analysis env t_read t_write uid cache
  = get_cache t_read (cache_key uid) cache.
Proof.
  intros Hlen. unfold get_user_taste_analysis, compute_taste_analysis.
  destruct (get_cache t_read (cache_key uid) cache) as [[cached|] cache'];
    [done|].
  destruct (Z.ltb_spec (Z.of_nat (length (get_user_records env uid))) 5);
    [done|lia].
Qed.

(** C1, as stated, fails for the full-history analysis: user [u1] had five
    records when the analysis was cached at second 1000; one record is then
    soft-deleted; at second 1100 the user has four visible records and the
    analysis still returns the cached result. *)
Lemma C1_stale_cache_counterexample :
  (length (get_user_records sample_env_after_delete "u1") < 5)%nat
  /\ fst (get_user_taste_analysis sample_env_after_delete (float_of_int 1100)
            (float_of_int 1100) "u1" sample_cache) <> None.
Proof. split; [vm_compute; lia | vm_compute; discriminate]. Qed.

(** C1 (amended): for a user with fewer than 5 visible records the
    recent-trend analysis returns [None] for every [n], and the full-history
    analysis returns what the cache read returns: [None] when the cache holds
    no unexpired entry under the user's key, the cached analysis otherwise.
    Both functions are total: no input makes them raise. *)
Theorem C1_insufficient_data (env : Env) (uid : string) :
  (length (get_user_records env uid) < 5)%nat ->
  (forall n, analyze_recent_taste_trend env uid n = None)
  /\ (forall t_read t_write cache,
        fst (get_user_taste_analysis env t_read t_write uid cache)
        = fst (get_cache t_read (cache_key uid) cache))
  /\ (forall t_read t_write cache,
        fst (get_cache t_read (cache_key uid) cache) = None ->
        fst (get_user_taste_analysis env t_read t_write uid cache) = None).
Proof.
  intros Hlen. split_and!.
  - intros n. unfold analyze_recent_taste_trend.
    destruct (Z.ltb_spec (Z.of_nat (length (get_user_records env uid))) 5);
      [done|lia].
  - intros. by rewrite get_user_taste_analysis_few.
  - intros t_read t_write cache Hmiss.
    by rewrite get_user_taste_analysis_few.
Qed.

Lemma C1_insufficient_data_witness :
  (length (get_user_records sample_env_after_delete "u1") < 5)%nat
  /\ analyze_recent_taste_trend sample_env_after_delete "u1" 10 = None
  /\ fst (get_user_taste_analysis sample_env_after_delete (float_of_int 1100)
            (float_of_int 1100) "u1" ∅) = None.
Proof.
  assert (Hlen : (length (get_user_records sample_env_after_delete "u1") < 5)%nat)
    by (vm_compute; lia).
  destruct (C1_insufficient_data sample_env_after_delete "u1" Hlen)
    as (Hrecent & _ & Hfull).
  split_and!; [exact Hlen | apply Hrecent | apply Hfull; reflexivity].
Defined.

(** ** C2: recent weighted scores *)

Lemma recent_scores_general t frs :
  dict_get t (weighted_counts frs) =
    match flat_map (fun r => copies t (default [] (taste_notes r))
                                    (recent_weight r)) frs with
    | [] => None
    | ws => Some (py_sum ws)
    end.
Proof.
  by rewrite weighted_counts_accumulate, accumulate_get_empty,
    weights_for_events.
Qed.

(** C2: for a user with at least 5 records, every rating in 1..5 and every
    [taste_notes] free of repetitions (a set, as in the data model), the recent
    score of a tag is the sum, in record order and in binary64 arithmetic, of
    the table weights {5: 1.0, 4: 0.8, 3: 0.6} of the records among the newest
    [min(n, len(records))] that are rated 3 or more and carry the tag; the
    tag has no score when there is no such record; a record rated below 3
    contributes to no score; and these scores are the ones the verdict is
    computed from. *)
Theorem C2_recent_weighted_scores (env : Env) (uid : string) (n : Z) :
  let records := get_user_records env uid in
  let filtered := filtered_records (recent_records records n) in
  (5 <= length records)%nat ->
  0 <= n ->
  Forall (fun r => forall x, rating r = Some x -> 1 <= x <= 5) records ->
  Forall (fun r => NoDup (default [] (taste_notes r))) records ->
  (forall t,
     dict_get t (weighted_counts filtered) =
       match recent_contributors t records n with
       | [] => None
       | rs => Some (py_sum (map (table_weight RECENT_TABLE) rs))
       end)
  /\ (forall l1 r l2,
        recent_records records n = l1 ++ r :: l2 ->
        default 0 (rating r) < 3 ->
        weighted_counts filtered = weighted_counts (filtered_records (l1 ++ l2)))
  /\ analyze_recent_taste_trend env uid n =
       match filtered with
       | [] => None
       | _ => trend_verdict (weighted_counts filtered)
       end.
Proof.
  intros records filtered Hlen Hn Hrating Hnodup. split_and!.
  - intros t. subst filtered. rewrite recent_scores_general.
    unfold recent_contributors. rewrite recent_records_take by done.
    set (recent := take _ records).
    assert (Hsub : forall r, r ∈ recent -> r ∈ records).
    { intros r (i & Hi & _)%elem_of_take. by eapply list_elem_of_lookup_2. }
    unfold filtered_records.
    rewrite (flat_map_ext_Forall _
      (fun r => if decide (carries t r)
                then [table_weight RECENT_TABLE r] else [])).
    + rewrite flat_map_carriers, list_filter_filter.
      rewrite (list_filter_iff _
        (fun r => 3 <= default 0 (rating r) /\ carries t r)) by tauto.
      by destruct (filter _ recent).
    + apply Forall_forall. intros r [Hr Hin%Hsub]%list_elem_of_filter.
      rewrite Forall_forall in Hrating, Hnodup.
      rewrite copies_NoDup by auto. unfold carries.
      rewrite recent_weight_table; [done|].
      destruct (rating r) as [x|] eqn:Ex; simpl in *; [|lia].
      specialize (Hrating r Hin x Ex). lia.
  - intros l1 r l2 Heq Hr. subst filtered. rewrite Heq.
    by rewrite filtered_records_drop.
  - unfold analyze_recent_taste_trend. fold records. fold filtered.
    destruct (Z.ltb_spec (Z.of_nat (length records)) 5); [lia|done].
Qed.

Lemma C2_recent_weighted_scores_witness :
  dict_get "smoky"
    (weighted_counts (filtered_records (recent_records sample_records 10)))
  = Some (py_sum [Float f1_0; Float f0_8]).
Proof.
  assert (H1 : (5 <= length (get_user_records sample_env "u1"))%nat)
    by (vm_compute; lia).
  assert (H2 : 0 <= 10) by lia.
  assert (H3 : Forall (fun r => forall x, rating r = Some x -> 1 <= x <= 5)
                      (get_user_records sample_env "u1")).
  { change (get_user_records sample_env "u1") with sample_records.
    unfold sample_records.
    repeat (apply Forall_cons_2; [simpl; intros x [= <-]; lia|]).
    apply Forall_nil_2. }
  assert (H4 : Forall (fun r => NoDup (default [] (taste_notes r)))
                      (get_user_records sample_env "u1")).
  { change (get_user_records sample_env "u1") with sample_records.
    unfold sample_records.
    repeat (apply Forall_cons_2;
            [simpl; apply (bool_decide_unpack _); vm_compute; exact I|]).
    apply Forall_nil_2. }
  destruct (C2_recent_weighted_scores sample_env "u1" 10 H1 H2 H3 H4)
    as (Hscore & _ & _).
  exact (Hscore "smoky"%string).
Defined.

(** ** C5: word frequencies *)

Lemma countable_spec whitelist w :
  countable whitelist w = true ->
  (1 < py_len w)%nat /\ (w ∉ STOPWORDS) /\ (w ∈ whitelist).
Proof.
  unfold countable. rewrite !andb_true_iff, !bool_decide_eq_true. tauto.
Qed.

Lemma clean_nil whitelist : clean whitelist [].
Proof. intros w c H. discriminate H. Qed.

Lemma dict_incr_clean whitelist w d :
  countable whitelist w = true -> clean whitelist d ->
  clean whitelist (dict_incr w d).
Proof.
  intros Hw Hd w' c. unfold dict_incr.
  destruct (decide (w = w')) as [<-|Hne].
  - intros _. by apply countable_spec.
  - rewrite dict_get_set_ne by done. apply Hd.
Qed.

Lemma count_tokens_clean whitelist tokens d :
  clean whitelist d -> clean whitelist (count_tokens whitelist tokens d).
Proof.
  unfold count_tokens. revert d.
  induction tokens as [|token tokens IH]; intros d Hd; [done|].
  simpl. apply IH.
  destruct (noun_or_verb token); simpl; [|done].
  destruct (countable whitelist (form token)) eqn:E; [|done].
  by apply dict_incr_clean.
Qed.

Lemma count_memos_clean analyze whitelist memo_list d d' :
  clean whitelist d ->
  count_memos analyze whitelist memo_list d = Some d' ->
  clean whitelist d'.
Proof.
  revert d. induction memo_list as [|memo rest IH]; intros d Hd; simpl.
  - by intros [= <-].
  - destruct (memo_skipped memo); [by apply IH|].
    destruct (analyze memo) as [tokens|]; [|done].
    apply IH. by apply count_tokens_clean.
Qed.

Lemma _parse_memo_text_clean env memo_list :
  clean (_get_whitelist (whitelist_file env)) (_parse_memo_text env memo_list).
Proof.
  unfold _parse_memo_text. destruct (kiwi env) as [analyze|];
    [|apply clean_nil].
  destruct (count_memos _ _ _ _) as [d'|] eqn:E; simpl; [|apply clean_nil].
  eapply count_memos_clean; [apply clean_nil|exact E].
Qed.

(** A skipped memo is not even handed to the tokenizer. *)
Lemma count_memos_skip analyze whitelist l1 memo l2 d :
  memo_skipped memo = true ->
  count_memos analyze whitelist (l1 ++ memo :: l2) d
  = count_memos analyze whitelist (l1 ++ l2) d.
Proof.
  intros Hskip. revert d. induction l1 as [|m l1 IH]; intros d; simpl.
  - by rewrite Hskip.
  - destruct (memo_skipped m); [apply IH|].
    destruct (analyze m); [apply IH|done].
Qed.

Lemma memo_skipped_spec memo :
  memo_skipped memo = true <->
  memo = EmptyString \/ startswith memo DELETED_MARKER = true.
Proof.
  unfold memo_skipped. by rewrite orb_true_iff, bool_decide_eq_true.
Qed.

Lemma countable_empty w : countable ∅ w = false.
Proof.
  unfold countable. rewrite (bool_decide_eq_false_2 (w ∈ ∅)).
  - apply andb_false_r.
  - apply not_elem_of_empty.
Qed.

Lemma count_tokens_empty tokens d : count_tokens ∅ tokens d = d.
Proof.
  unfold count_tokens. revert d.
  induction tokens as [|token tokens IH]; intros d; [done|].
  simpl. rewrite countable_empty, andb_false_r. apply IH.
Qed.

Lemma count_memos_empty analyze memo_list d :
  default d (count_memos analyze ∅ memo_list d) = d.
Proof.
  induction memo_list as [|memo rest IH]; simpl; [done|].
  destruct (memo_skipped memo); [done|].
  destruct (analyze memo) as [tokens|]; [|done].
  by rewrite count_tokens_empty.
Qed.

Lemma _parse_memo_text_nil env : _parse_memo_text env [] = [].
Proof. unfold _parse_memo_text. by destruct (kiwi env). Qed.

Lemma get_similar_clean env uid notes :
  clean (_get_whitelist (whitelist_file env))
        (get_similar_users_memo_wordcloud env uid notes).
Proof.
  unfold get_similar_users_memo_wordcloud.
  destruct notes; [apply clean_nil|].
  destruct (similar_memos _ _ _); [apply clean_nil|].
  apply _parse_memo_text_clean.
Qed.

Lemma get_product_clean env uid name :
  clean (_get_whitelist (whitelist_file env))
        (wordcloud (get_product_reviews_wordcloud env uid name)).
Proof.
  unfold get_product_reviews_wordcloud.
  destruct (product_memos _ _ _); simpl; [apply clean_nil|].
  apply _parse_memo_text_clean.
Qed.

(** C5: whatever the memos, the tokenizer and the whitelist file, no key of
    the word frequencies has at most one code point, is a stopword or is
    missing from the loaded whitelist, and the same holds for the word clouds
    of the public results; an empty or soft-deleted memo changes no count;
    without a tokenizer, on an empty input and with a missing whitelist file
    (the whitelist is then the empty set) the result is the empty mapping. *)
Theorem C5_word_frequency_filter (env : Env) (memo_list : list string) :
  let whitelist := _get_whitelist (whitelist_file env) in
  clean whitelist (_parse_memo_text env memo_list)
  /\ (forall uid notes,
        clean whitelist (get_similar_users_memo_wordcloud env uid notes))
  /\ (forall uid name,
        clean whitelist (wordcloud (get_product_reviews_wordcloud env uid name)))
  /\ (forall uid result,
        compute_taste_analysis env uid = Some result ->
        clean whitelist (memo_wordcloud result))
  /\ (forall l1 memo l2,
        memo = EmptyString \/ startswith memo DELETED_MARKER = true ->
        _parse_memo_text env (l1 ++ memo :: l2) = _parse_memo_text env (l1 ++ l2))
  /\ (kiwi env = None -> _parse_memo_text env memo_list = [])
  /\ _parse_memo_text env [] = []
  /\ (whitelist_file env = None ->
        whitelist = ∅ /\ _parse_memo_text env memo_list = []).
Proof.
  intros whitelist. split_and!.
  - apply _parse_memo_text_clean.
  - intros. apply get_similar_clean.
  - intros. apply get_product_clean.
  - intros uid result. unfold compute_taste_analysis.
    destruct (_ <? 5); [done|]. intros [= <-]. simpl.
    apply _parse_memo_text_clean.
  - intros l1 memo l2 Hskip%memo_skipped_spec. unfold _parse_memo_text.
    destruct (kiwi env) as [analyze|]; [|done].
    simpl. by rewrite count_memos_skip.
  - intros Hk. unfold _parse_memo_text. by rewrite Hk.
  - apply _parse_memo_text_nil.
  - intros Hfile. subst whitelist. rewrite Hfile. split; [done|].
    unfold _parse_memo_text. rewrite Hfile. simpl.
    destruct (kiwi env) as [analyze|]; [|done].
    apply count_memos_empty.
Qed.

(** ** C7 and C8: cross-user selection *)

Lemma shares_note_spec r (notes : list string) :
  shares_note r (list_to_set notes) = true <->
  Exists (fun t => t ∈ notes) (default [] (taste_notes r)).
Proof.
  unfold shares_note. rewrite negb_true_iff, bool_decide_eq_false, Exists_exists.
  split.
  - intros [t Ht]%set_choose_L. exists t.
    apply elem_of_intersection in Ht as [H1 H2].
    by rewrite elem_of_list_to_set in H1, H2.
  - intros (t & H1 & H2) Hempty.
    assert (Hin : t ∈ (list_to_set (default [] (taste_notes r)) : gset string)
                      ∩ list_to_set notes).
    { apply elem_of_intersection. by rewrite !elem_of_list_to_set. }
    rewrite Hempty in Hin. by apply not_elem_of_empty in Hin.
Qed.

Lemma similar_memos_from uid notes all acc :
  fold_left
    (fun memos record =>
       if bool_decide (user_id record = Some uid) then memos
       else
         let memo := default EmptyString (memo record) in
         if memo_skipped memo then memos
         else if shares_note record (list_to_set notes) then memos ++ [memo]
         else memos)
    all acc
  = acc ++ memos_of (qualifying_similar uid notes all).
Proof.
  unfold qualifying_similar. revert acc.
  induction all as [|r all IH]; intros acc; simpl; [by rewrite app_nil_r|].
  rewrite IH. clear IH. case_bool_decide as Huid.
  { rewrite filter_cons_False; [done|]. intros [? _]. done. }
  destruct (memo_skipped _) eqn:Hskip.
  { rewrite filter_cons_False; [done|]. intros (_ & ? & _). congruence. }
  destruct (shares_note r (list_to_set notes)) eqn:Hshare.
  - rewrite filter_cons_True.
    + simpl. by rewrite <- app_assoc.
    + split_and!; [done|done|]. by apply shares_note_spec.
  - rewrite filter_cons_False; [done|]. intros (_ & _ & H).
    apply shares_note_spec in H. congruence.
Qed.

Lemma similar_memos_spec uid notes all :
  similar_memos uid (list_to_set notes) all
  = memos_of (qualifying_similar uid notes all).
Proof. unfold similar_memos. by rewrite similar_memos_from. Qed.

Lemma memo_skipped_false memo :
  memo_skipped memo = false <->
  memo <> EmptyString /\ startswith memo DELETED_MARKER = false.
Proof.
  unfold memo_skipped. by rewrite orb_false_iff, bool_decide_eq_false.
Qed.

(** C7: the tag similarity returns the empty mapping for empty reference tags;
    otherwise it runs the word-frequency analysis on exactly the memos, in scan
    order, of the records that another user owns, whose memo is neither empty
    nor soft-deleted, and that share at least one tag with the reference tags;
    a record of the caller is never selected. *)
Theorem C7_similar_users_selection (env : Env) (uid : string) :
  get_similar_users_memo_wordcloud env uid [] = []
  /\ (forall reference_tags,
        reference_tags <> [] ->
        similar_memos uid (list_to_set reference_tags) (get_all_records env)
        = memos_of (qualifying_similar uid reference_tags (get_all_records env))
        /\ get_similar_users_memo_wordcloud env uid reference_tags
           = _parse_memo_text env
               (memos_of (qualifying_similar uid reference_tags
                                             (get_all_records env))))
  /\ (forall reference_tags r,
        r ∈ qualifying_similar uid reference_tags (get_all_records env) <->
        r ∈ get_all_records env
        /\ user_id r <> Some uid
        /\ default EmptyString (memo r) <> EmptyString
        /\ startswith (default EmptyString (memo r)) DELETED_MARKER = false
        /\ exists t, carries t r /\ t ∈ reference_tags)
  /\ (forall reference_tags r,
        user_id r = Some uid ->
        r ∉ qualifying_similar uid reference_tags (get_all_records env)).
Proof.
  split_and!.
  - done.
  - intros tags Htags. split; [apply similar_memos_spec|].
    unfold get_similar_users_memo_wordcloud.
    destruct tags as [|t tags]; [done|].
    rewrite similar_memos_spec.
    destruct (memos_of _); [by rewrite _parse_memo_text_nil|done].
  - intros tags r. unfold qualifying_similar.
    rewrite list_elem_of_filter, memo_skipped_false, Exists_exists.
    unfold carries. tauto.
  - intros tags r Hr. unfold qualifying_similar.
    rewrite list_elem_of_filter. tauto.
Qed.

Lemma product_memos_from uid name all acc :
  fold_left
    (fun memos record =>
       if bool_decide (user_id record = Some uid) then memos
       else if bool_decide (whiskey_name record ≠ Some name) then memos
       else
         let memo := default EmptyString (memo record) in
         if memo_skipped memo then memos else memos ++ [memo])
    all acc
  = acc ++ memos_of (qualifying_product uid name all).
Proof.
  unfold qualifying_product. revert acc.
  induction all as [|r all IH]; intros acc; simpl; [by rewrite app_nil_r|].
  rewrite IH. clear IH. case_bool_decide as Huid.
  { rewrite filter_cons_False; [done|]. intros (_ & ? & _). done. }
  case_bool_decide as Hname.
  { rewrite filter_cons_False; [done|]. intros (? & _). done. }
  destruct (memo_skipped _) eqn:Hskip.
  { rewrite filter_cons_False; [done|]. intros (_ & _ & ?). congruence. }
  rewrite filter_cons_True.
  - simpl. by rewrite <- app_assoc.
  - split_and!; [|done|done].
    by destruct (decide (whiskey_name r = Some name)).
Qed.

Lemma product_memos_spec uid name all :
  product_memos uid name all = memos_of (qualifying_product uid name all).
Proof. unfold product_memos. by rewrite product_memos_from. Qed.

(** C8: the product similarity keeps exactly the records whose product name
    equals the given name (string equality, hence case-sensitive), that
    another user owns and whose memo is neither empty nor soft-deleted; with
    no such record it returns no data, an empty word cloud and count 0;
    otherwise it returns data, the word frequencies of the kept memos and
    their number as count. *)
Theorem C8_product_reviews (env : Env) (uid name : string) :
  let kept := qualifying_product uid name (get_all_records env) in
  product_memos uid name (get_all_records env) = memos_of kept
  /\ (forall r,
        r ∈ kept <->
        r ∈ get_all_records env
        /\ whiskey_name r = Some name
        /\ user_id r <> Some uid
        /\ default EmptyString (memo r) <> EmptyString
        /\ startswith (default EmptyString (memo r)) DELETED_MARKER = false)
  /\ (kept = [] ->
        get_product_reviews_wordcloud env uid name
        = {| wordcloud := []; count := 0; has_data := false |})
  /\ (kept <> [] ->
        get_product_reviews_wordcloud env uid name
        = {| wordcloud := _parse_memo_text env (memos_of kept);
             count := Z.of_nat (length kept);
             has_data := true |})
  /\ count (get_product_reviews_wordcloud env uid name) = Z.of_nat (length kept)
  /\ (has_data (get_product_reviews_wordcloud env uid name) = true <->
      kept <> []).
Proof.
  intros kept.
  assert (Hget : get_product_reviews_wordcloud env uid name =
    match kept with
    | [] => {| wordcloud := []; count := 0; has_data := false |}
    | _ => {| wordcloud := _parse_memo_text env (memos_of kept);
              count := Z.of_nat (length kept);
              has_data := true |}
    end).
  { unfold get_product_reviews_wordcloud. rewrite product_memos_spec.
    fold kept. destruct kept as [|r rs]; [done|].
    unfold memos_of. simpl. by rewrite length_map. }
  split_and!.
  - apply product_memos_spec.
  - intros r. subst kept. unfold qualifying_product.
    rewrite list_elem_of_filter, memo_skipped_false. tauto.
  - intros Hk. by rewrite Hget, Hk.
  - intros Hk. rewrite Hget. by destruct kept.
  - rewrite Hget. by destruct kept.
  - rewrite Hget. by destruct kept.
Qed.

(** Two reviews of other users bear the exact name; a third one differs in
    case only, and the caller's own review is left out. *)
Example product_reviews_sample :
  get_product_reviews_wordcloud sample_env "u1" "Glenfiddich 12"
  = {| wordcloud := [("바닐라", 2); ("과일", 1)]%string; count := 2;
       has_data := true |}
  /\ get_product_reviews_wordcloud sample_env "u1" "Macallan 12"
     = {| wordcloud := []; count := 0; has_data := false |}.
Proof. split; vm_compute; reflexivity. Qed.

(** ** C6: result cache *)

Section CacheLemmas.
Context {V : Type}.
Implicit Types (cache : gmap string (V * float)) (key : string) (value : V).

Lemma get_cache_hit now key value timestamp cache :
  cache !! key = Some (value, timestamp) ->
  fresh now timestamp = true ->
  get_cache now key cache = (Some value, cache).
Proof. intros Hk Hf. unfold get_cache. by rewrite Hk, Hf. Qed.

Lemma get_cache_expired now key value timestamp cache :
  cache !! key = Some (value, timestamp) ->
  fresh now timestamp = false ->
  get_cache now key cache = (None, delete key cache).
Proof. intros Hk Hf. unfold get_cache. by rewrite Hk, Hf. Qed.

Lemma get_cache_absent now key cache :
  cache !! key = None -> get_cache now key cache = (None, cache).
Proof. intros Hk. unfold get_cache. by rewrite Hk. Qed.

Lemma set_cache_lookup now key value cache :
  set_cache now key value cache !! key = Some (value, now).
Proof. apply lookup_insert_eq. Qed.

Lemma get_cache_miss_absent now key cache :
  fst (get_cache now key cache) = None ->
  snd (get_cache now key cache) !! key = None.
Proof.
  unfold get_cache. destruct (cache !! key) as [[value timestamp]|] eqn:Hk.
  - destruct (fresh now timestamp); [done|]. intros _. apply lookup_delete_eq.
  - done.
Qed.

Lemma get_cache_other now key key' cache :
  key <> key' ->
  snd (get_cache now key cache) !! key' = cache !! key'.
Proof.
  intros Hne. unfold get_cache.
  destruct (cache !! key) as [[value timestamp]|]; [|done].
  destruct (fresh now timestamp); [done|]. simpl. by apply lookup_delete_ne.
Qed.
End CacheLemmas.

Lemma cache_key_inj uid uid' : cache_key uid = cache_key uid' -> uid = uid'.
Proof. unfold cache_key. intros H. cbv in H. congruence. Qed.

(** A call that misses the cache and produces a result stores it under the
    user's key with the time of the write. *)
Lemma get_user_taste_analysis_stores env t_read t_write uid cache result cache1 :
  fst (get_cache t_read (cache_key uid) cache) = None ->
  get_user_taste_analysis env t_read t_write uid cache = (Some result, cache1) ->
  compute_taste_analysis env uid = Some result
  /\ cache1 !! cache_key uid = Some (result, t_write).
Proof.
  unfold get_user_taste_analysis.
  destruct (get_cache t_read (cache_key uid) cache) as [[cached|] cache'];
    [done|]. intros _.
  destruct (compute_taste_analysis env uid) as [r|]; [|done].
  intros [= -> <-]. split; [done|]. apply set_cache_lookup.
Qed.

(** A call within the lifetime of an entry returns the entry and leaves the
    cache as it is, whatever the record store holds by then. *)
Lemma get_user_taste_analysis_cached env t_read t_write uid cache result ts :
  cache !! cache_key uid = Some (result, ts) ->
  fresh t_read ts = true ->
  get_user_taste_analysis env t_read t_write uid cache = (Some result, cache).
Proof.
  intros Hk Hf. unfold get_user_taste_analysis.
  by rewrite (get_cache_hit _ _ _ _ _ Hk Hf).
Qed.

(** A call at or past the expiry of an entry evicts it and recomputes. *)
Lemma get_user_taste_analysis_expired env t_read t_write uid cache result ts :
  cache !! cache_key uid = Some (result, ts) ->
  fresh t_read ts = false ->
  get_user_taste_analysis env t_read t_write uid cache =
    match compute_taste_analysis env uid with
    | None => (None, delete (cache_key uid) cache)
    | Some result' =>
        (Some result',
         set_cache t_write (cache_key uid) result' (delete (cache_key uid) cache))
    end.
Proof.
  intros Hk Hf. unfold get_user_taste_analysis.
  by rewrite (get_cache_expired _ _ _ _ _ Hk Hf).
Qed.

(** The analysis of one user leaves the entry of another user alone. *)
Lemma get_user_taste_analysis_other env t_read t_write uid uid' cache :
  uid <> uid' ->
  snd (get_user_taste_analysis env t_read t_write uid cache) !! cache_key uid'
  = cache !! cache_key uid'.
Proof.
  intros Hne.
  assert (Hkey : cache_key uid <> cache_key uid')
    by (intros H; by apply cache_key_inj in H).
  unfold get_user_taste_analysis.
  pose proof (get_cache_other t_read _ _ cache Hkey) as Hother.
  destruct (get_cache t_read (cache_key uid) cache) as [[cached|] cache'];
    simpl in *; [done|].
  destruct (compute_taste_analysis env uid) as [r|]; simpl; [|done].
  unfold set_cache. by rewrite lookup_insert_ne.
Qed.

(** What the archive page writes into the mapping it is handed is written
    into the cached object: the entry keeps its time and its four computed
    fields and gains the word cloud of similar users. *)
Lemma update_wordcloud_alias env t_read t_write uid cache stored ts :
  cache !! cache_key uid = Some (stored, ts) ->
  fresh t_read ts = true ->
  snd (update_wordcloud env t_read t_write uid cache) !! cache_key uid
  = Some (attach_similar stored
            (get_similar_users_memo_wordcloud env uid
               (dict_keys (main_expressions stored))), ts).
Proof.
  intros Hk Hf. unfold update_wordcloud.
  rewrite (get_user_taste_analysis_cached _ _ _ _ _ _ _ Hk Hf). simpl.
  by rewrite lookup_alter_eq, Hk.
Qed.

(** *** The lifetime on readings of the clock *)

Lemma digits2_pos_size p : digits2_pos p = Pos.size p.
Proof. induction p as [p IH|p IH|]; simpl; by rewrite ?IH. Qed.

Lemma digits2_pos_bounds p :
  2 ^ (Zpos (digits2_pos p) - 1) <= Zpos p < 2 ^ Zpos (digits2_pos p).
Proof.
  rewrite digits2_pos_size. split.
  - pose proof (Pos.size_le p) as H.
    assert (H' : 2 ^ Zpos (Pos.size p) <= 2 * Zpos p).
    { change (2 * Zpos p) with (Zpos p~0). rewrite <- Pos2Z.inj_pow.
      by apply Pos2Z.pos_le_pos. }
    replace (Zpos (Pos.size p)) with (Zpos (Pos.size p) - 1 + 1) in H' by lia.
    rewrite Z.pow_add_r in H' by lia. lia.
  - pose proof (Pos.size_gt p) as H. rewrite <- Pos2Z.inj_pow.
    by apply Pos2Z.pos_lt_pos.
Qed.

Lemma iter_xO_spec p k :
  digits2_pos (Pos.iter xO p k) = (digits2_pos p + k)%positive
  /\ Zpos (Pos.iter xO p k) = Zpos p * 2 ^ Zpos k.
Proof.
  induction k as [|k [IH1 IH2]] using Pos.peano_ind.
  - simpl. split; [lia|lia].
  - rewrite Pos.iter_succ. simpl digits2_pos. rewrite IH1.
    split; [lia|].
    rewrite Pos2Z.inj_xO, IH2, Pos2Z.inj_succ, Z.pow_succ_r by lia. lia.
Qed.

Lemma fexp_canonical e :
  -1074 <= e -> Z.max (53 + e - 53) (3 - 1024 - 53) - e = 0.
Proof. lia. Qed.

Lemma binary_round_aux_canonical s m e :
  Zpos (digits2_pos m) = 53 -> -1074 <= e <= 971 ->
  binary_round_aux prec emax s (Zpos m) e loc_Exact = S754_finite s m e.
Proof.
  intros Hd [He1 He2].
  unfold binary_round_aux, shr_fexp, fexp, emin, prec, emax.
  simpl Zdigits2. rewrite Hd, (fexp_canonical e He1).
  simpl. rewrite Hd, (fexp_canonical e He1). simpl.
  change (1024 - 53) with 971.
  destruct (e <=? 971) eqn:E; [done|]. apply Z.leb_gt in E. lia.
Qed.

(** Normalisation of a mantissa of at most 53 bits at the exponent of the
    clock. *)
Lemma binary_round_ticks s p :
  Zpos (digits2_pos p) <= 53 ->
  exists m,
    binary_round prec emax s p (-22)
    = S754_finite s m (Zpos (digits2_pos p) - 75)
    /\ Zpos m = Zpos p * 2 ^ (53 - Zpos (digits2_pos p)).
Proof.
  intros Hd. unfold binary_round, fexp, emin, shl_align, prec, emax.
  pose proof (Pos2Z.is_pos (digits2_pos p)) as Hpos.
  replace (Z.max (Zpos (digits2_pos p) + -22 - 53) (3 - 1024 - 53) - -22)
    with (Zpos (digits2_pos p) - 53) by lia.
  replace (Z.max (Zpos (digits2_pos p) + -22 - 53) (3 - 1024 - 53))
    with (Zpos (digits2_pos p) - 75) by lia.
  destruct (Zpos (digits2_pos p) - 53) as [|k|k] eqn:E; [|lia|].
  - exists p. replace (-22) with (Zpos (digits2_pos p) - 75) at 1 by lia.
    split.
    + fold prec emax. apply binary_round_aux_canonical; lia.
    + replace (53 - Zpos (digits2_pos p)) with 0 by lia. lia.
  - destruct (iter_xO_spec p k) as [H1 H2].
    exists (Pos.iter xO p k). split.
    + fold prec emax. apply binary_round_aux_canonical; [|lia].
      rewrite H1. lia.
    + rewrite H2. f_equal. f_equal. lia.
Qed.

Lemma float_of_int_ttl :
  float_of_int _CACHE_TTL = S754_finite false (300 * 2 ^ 44) (-44).
Proof. vm_compute. reflexivity. Qed.

(** The lifetime test on two readings of the clock is the comparison of
    their exact difference with 300 seconds. *)
Lemma fresh_clock written read :
  clock_ticks written -> clock_ticks read ->
  fresh (clock read) (clock written)
  = (Zpos read - Zpos written <? _CACHE_TTL * TICKS_PER_SECOND).
Proof.
  unfold clock_ticks. intros Hw Hr. unfold fresh, float_ltb, float_sub, clock.
  rewrite float_of_int_ttl.
  unfold SFsub, shl_align, cond_Zopp.
  change (Z.min (-22) (-22)) with (-22).
  change (-22 - -22) with 0. cbv beta iota. unfold fst.
  unfold _CACHE_TTL, TICKS_PER_SECOND.
  remember (Zpos read - Zpos written) as M eqn:HM.
  assert (Hbound : - 2 ^ 52 < M < 2 ^ 52) by lia. clear HM Hw Hr.
  destruct M as [|p|p]; unfold binary_normalize.
  - done.
  - pose proof (digits2_pos_bounds p) as Hdig.
    assert (Hd : Zpos (digits2_pos p) <= 53).
    { destruct (Z_le_gt_dec (Zpos (digits2_pos p)) 53) as [|Hgt]; [done|].
      assert (2 ^ 53 <= 2 ^ (Zpos (digits2_pos p) - 1))
        by (apply Z.pow_le_mono_r; lia). lia. }
    destruct (binary_round_ticks false p Hd) as (m & -> & Hm).
    unfold SFltb, SFcompare.
    destruct (Z.compare_spec (Zpos (digits2_pos p) - 75) (-44)) as [E|E|E].
    + assert (Hd31 : Zpos (digits2_pos p) = 31) by lia.
      rewrite Hd31 in Hm, Hdig.
      change (Pos.compare_cont Eq m (300 * 2 ^ 44))
        with (Zpos m ?= Zpos (300 * 2 ^ 44)).
      rewrite Hm. change (53 - 31) with 22.
      change (Zpos (300 * 2 ^ 44)) with ((300 * 2 ^ 22) * 2 ^ 22).
      destruct (Z.compare_spec (Zpos p * 2 ^ 22) (300 * 2 ^ 22 * 2 ^ 22));
        symmetry; [apply Z.ltb_ge|apply Z.ltb_lt|apply Z.ltb_ge]; lia.
    + symmetry. apply Z.ltb_lt.
      assert (2 ^ Zpos (digits2_pos p) <= 2 ^ 30)
        by (apply Z.pow_le_mono_r; lia). lia.
    + symmetry. apply Z.ltb_ge.
      assert (2 ^ 31 <= 2 ^ (Zpos (digits2_pos p) - 1))
        by (apply Z.pow_le_mono_r; lia). lia.
  - pose proof (digits2_pos_bounds p) as Hdig.
    assert (Hd : Zpos (digits2_pos p) <= 53).
    { destruct (Z_le_gt_dec (Zpos (digits2_pos p)) 53) as [|Hgt]; [done|].
      assert (2 ^ 53 <= 2 ^ (Zpos (digits2_pos p) - 1))
        by (apply Z.pow_le_mono_r; lia). lia. }
    destruct (binary_round_ticks true p Hd) as (m & -> & Hm).
    done.
Qed.

(** C6: a key set at time [ts] reads as its value as long as
    [now - ts < 300] (binary64 subtraction and comparison); a read at or past
    that bound deletes the entry and returns [None].  On the readings of
    the clock, from 2004 to 2038, this is the comparison of the times
    themselves: the read returns the value exactly when it occurs strictly
    less than 300 seconds after the insertion, and a read 300 seconds after
    it, or later, evicts the entry.  Consequently: a call
    of the full-history analysis that misses the cache and produces a result
    stores it with the time of the write; a later call for the same user
    within the lifetime of the entry returns the stored mapping and leaves
    the cache alone, whatever the record store holds by then; a call at or
    past the expiry evicts the entry and recomputes from the current records;
    the analysis of another user leaves the entry alone. *)
Theorem C6_cache_round_trip :
  _CACHE_TTL = 300
  /\ (forall (V : Type) (cache : gmap string (V * float)) key (value : V) ts now,
        (fresh now ts = true ->
         get_cache now key (set_cache ts key value cache)
         = (Some value, set_cache ts key value cache))
        /\ (fresh now ts = false ->
            get_cache now key (set_cache ts key value cache)
            = (None, delete key cache)))
  /\ (forall env uid t_read t_write cache result cache1,
        fst (get_cache t_read (cache_key uid) cache) = None ->
        get_user_taste_analysis env t_read t_write uid cache
        = (Some result, cache1) ->
        compute_taste_analysis env uid = Some result
        /\ cache1 !! cache_key uid = Some (result, t_write))
  /\ (forall env uid t_read t_write cache stored ts,
        cache !! cache_key uid = Some (stored, ts) ->
        (fresh t_read ts = true ->
         get_user_taste_analysis env t_read t_write uid cache
         = (Some stored, cache))
        /\ (fresh t_read ts = false ->
            get_user_taste_analysis env t_read t_write uid cache =
              match compute_taste_analysis env uid with
              | None => (None, delete (cache_key uid) cache)
              | Some result' =>
                  (Some result',
                   set_cache t_write (cache_key uid) result'
                             (delete (cache_key uid) cache))
              end))
  /\ (forall env uid uid' t_read t_write cache,
        uid' <> uid ->
        snd (get_user_taste_analysis env t_read t_write uid' cache)
          !! cache_key uid
        = cache !! cache_key uid)
  /\ (forall (V : Type) (cache : gmap string (V * float)) key (value : V)
             written read,
        clock_ticks written -> clock_ticks read ->
        get_cache (clock read) key (set_cache (clock written) key value cache)
        = if decide (Zpos read - Zpos written < 300 * TICKS_PER_SECOND)
          then (Some value, set_cache (clock written) key value cache)
          else (None, delete key cache))
  /\ (forall env uid t_write cache stored written read,
        clock_ticks written -> clock_ticks read ->
        cache !! cache_key uid = Some (stored, clock written) ->
        get_user_taste_analysis env (clock read) t_write uid cache
        = if decide (Zpos read - Zpos written < 300 * TICKS_PER_SECOND)
          then (Some stored, cache)
          else
            match compute_taste_analysis env uid with
            | None => (None, delete (cache_key uid) cache)
            | Some result' =>
                (Some result',
                 set_cache t_write (cache_key uid) result'
                           (delete (cache_key uid) cache))
            end).
Proof.
  split_and!.
  - reflexivity.
  - intros V cache key value ts now. split; intros Hf.
    + eapply get_cache_hit; [apply set_cache_lookup|done].
    + erewrite get_cache_expired; [|apply set_cache_lookup|done].
      unfold set_cache. by rewrite delete_insert_eq.
  - intros env uid t_read t_write cache result cache1 Hmiss Hcall.
    by eapply get_user_taste_analysis_stores.
  - intros env uid t_read t_write cache stored ts Hk. split; intros Hf.
    + by eapply get_user_taste_analysis_cached.
    + by eapply get_user_taste_analysis_expired.
  - intros env uid uid' t_read t_write cache Hne.
    by apply get_user_taste_analysis_other.
  - intros V cache key value written read Hw Hr.
    pose proof (fresh_clock written read Hw Hr) as Hf.
    change (_CACHE_TTL * TICKS_PER_SECOND) with (300 * TICKS_PER_SECOND) in Hf.
    destruct (decide (Zpos read - Zpos written < 300 * TICKS_PER_SECOND))
      as [Hlt|Hge].
    + eapply get_cache_hit; [apply set_cache_lookup|].
      rewrite Hf. by apply Z.ltb_lt.
    + erewrite get_cache_expired; [|apply set_cache_lookup|].
      * unfold set_cache. by rewrite delete_insert_eq.
      * rewrite Hf. apply Z.ltb_ge. lia.
  - intros env uid t_write cache stored written read Hw Hr Hk.
    pose proof (fresh_clock written read Hw Hr) as Hf.
    change (_CACHE_TTL * TICKS_PER_SECOND) with (300 * TICKS_PER_SECOND) in Hf.
    destruct (decide (Zpos read - Zpos written < 300 * TICKS_PER_SECOND))
      as [Hlt|Hge].
    + eapply get_user_taste_analysis_cached; [done|].
      rewrite Hf. by apply Z.ltb_lt.
    + eapply get_user_taste_analysis_expired; [done|].
      rewrite Hf. apply Z.ltb_ge. lia.
Qed.

Lemma C6_cache_round_trip_witness :
  get_cache (clock 7130318058291199) "k"
            (set_cache (clock 7130316800000000) "k" 7 ∅)
  = (Some 7, set_cache (clock 7130316800000000) "k" 7 ∅)
  /\ get_cache (clock 7130318058291200) "k"
               (set_cache (clock 7130316800000000) "k" 7 ∅)
     = (None, ∅).
Proof.
  destruct C6_cache_round_trip as (_ & _ & _ & _ & _ & Hwindow & _).
  split.
  - rewrite (Hwindow Z ∅ "k"%string 7 7130316800000000%positive
               7130318058291199%positive)
      by (unfold clock_ticks; lia).
    rewrite decide_True; [done|]. unfold TICKS_PER_SECOND. lia.
  - rewrite (Hwindow Z ∅ "k"%string 7 7130316800000000%positive
               7130318058291200%positive)
      by (unfold clock_ticks; lia).
    rewrite decide_False; [|unfold TICKS_PER_SECOND; lia].
    by rewrite delete_empty.
Defined.

(** The sample user at seconds 1000, 1299 and 1300: the second call returns
    the cached analysis although a record has been deleted in between, the
    third call finds the entry expired and, with four records left, returns
    [None]. *)
Example cache_round_trip_sample :
  fst (get_user_taste_analysis sample_env_after_delete (float_of_int 1299)
         (float_of_int 1299) "u1" sample_cache)
  = compute_taste_analysis sample_env "u1"
  /\ get_user_taste_analysis sample_env_after_delete (float_of_int 1300)
       (float_of_int 1300) "u1" sample_cache
     = (None, ∅).
Proof. split; vm_compute; reflexivity. Qed.

(** ** C4: full-history buckets *)

Lemma fold_tally_note rating weight notes acc :
  fold_left (tally_note rating weight) notes acc =
    if 4 <=? rating then
      {| tally_main := add_notes weight notes (tally_main acc);
         tally_sub := tally_sub acc;
         tally_memos := tally_memos acc |}
    else if rating <=? 2 then
      {| tally_main := tally_main acc;
         tally_sub := add_notes weight notes (tally_sub acc);
         tally_memos := tally_memos acc |}
    else acc.
Proof.
  unfold add_notes. revert acc.
  induction notes as [|note notes IH]; intros acc; simpl.
  - destruct acc. by repeat case_match.
  - rewrite IH. unfold tally_note. by repeat case_match.
Qed.

Lemma tally_records_main rs acc :
  tally_main (fold_left tally_record rs acc) =
    fold_left
      (fun c r => add_notes (table_weight RATING_WEIGHTS r)
                            (default [] (taste_notes r)) c)
      (filter (fun r => 4 <= default 0 (rating r)) rs) (tally_main acc).
Proof.
  revert acc. induction rs as [|r rs IH]; intros acc; [done|].
  simpl. rewrite IH. clear IH. unfold tally_record.
  rewrite fold_tally_note, full_weight_table, filter_cons.
  destruct (Z.leb_spec 4 (default 0 (rating r))).
  - rewrite decide_True by done. simpl. by destruct (memo_skipped _).
  - rewrite decide_False by lia.
    destruct (default 0 (rating r) <=? 2); by destruct (memo_skipped _).
Qed.

Lemma tally_records_sub rs acc :
  tally_sub (fold_left tally_record rs acc) =
    fold_left
      (fun c r => add_notes (table_weight RATING_WEIGHTS r)
                            (default [] (taste_notes r)) c)
      (filter (fun r => default 0 (rating r) <= 2) rs) (tally_sub acc).
Proof.
  revert acc. induction rs as [|r rs IH]; intros acc; [done|].
  simpl. rewrite IH. clear IH. unfold tally_record.
  rewrite fold_tally_note, full_weight_table, filter_cons.
  destruct (Z.leb_spec 4 (default 0 (rating r))).
  - rewrite decide_False by lia. simpl. by destruct (memo_skipped _).
  - destruct (Z.leb_spec (default 0 (rating r)) 2).
    + rewrite decide_True by done. simpl. by destruct (memo_skipped _).
    + rewrite decide_False by lia. by destruct (memo_skipped _).
Qed.

Lemma tally_records_memos rs acc :
  tally_memos (fold_left tally_record rs acc) =
    tally_memos acc ++ filter (fun m => memo_skipped m = false) (memos_of rs).
Proof.
  revert acc. induction rs as [|r rs IH]; intros acc; simpl;
    [by rewrite app_nil_r|].
  rewrite IH. clear IH. unfold tally_record.
  rewrite fold_tally_note, filter_cons.
  destruct (memo_skipped (default EmptyString (memo r))) eqn:Hskip.
  - rewrite decide_False by congruence. by repeat case_match.
  - rewrite decide_True by done.
    repeat case_match; simpl; by rewrite <- app_assoc.
Qed.

Lemma bucket_scores t (keep : TastingRecord -> Prop)
    `{!forall r, Decision (keep r)} rs :
  dict_get t
    (fold_left
       (fun c r => add_notes (table_weight RATING_WEIGHTS r)
                             (default [] (taste_notes r)) c)
       (filter keep rs) []) =
    match flat_map (fun r => copies t (default [] (taste_notes r))
                                    (table_weight RATING_WEIGHTS r))
                   (filter keep rs) with
    | [] => None
    | ws => Some (py_sum ws)
    end.
Proof.
  by rewrite fold_add_notes_accumulate, accumulate_get_empty,
    weights_for_events.
Qed.

(** C4: on a cache miss, for a user with at least 5 records, the analysis
    returns a result whose [total_count] is the number of records, whose
    [main_expressions] holds for each tag the sum (in record order, once per
    occurrence of the tag among the notes of a record) of the table weights
    of the records rated 4 or more, whose [sub_expressions] holds the same
    for the records rated 2 or less, and whose word cloud is computed from
    the memos that are neither empty nor soft-deleted; a record rated 3
    changes neither bucket. *)
Theorem C4_full_history_buckets (env : Env) (uid : string) :
  let records := get_user_records env uid in
  (5 <= length records)%nat ->
  exists result,
    compute_taste_analysis env uid = Some result
    /\ (forall t_read t_write cache,
          fst (get_cache t_read (cache_key uid) cache) = None ->
          fst (get_user_taste_analysis env t_read t_write uid cache)
          = Some result)
    /\ total_count result = Z.of_nat (length records)
    /\ (forall t,
          dict_get t (main_expressions result) =
            match flat_map
                    (fun r => copies t (default [] (taste_notes r))
                                     (table_weight RATING_WEIGHTS r))
                    (filter (fun r => 4 <= default 0 (rating r)) records) with
            | [] => None
            | ws => Some (py_sum ws)
            end)
    /\ (forall t,
          dict_get t (sub_expressions result) =
            match flat_map
                    (fun r => copies t (default [] (taste_notes r))
                                     (table_weight RATING_WEIGHTS r))
                    (filter (fun r => default 0 (rating r) <= 2) records) with
            | [] => None
            | ws => Some (py_sum ws)
            end)
    /\ memo_wordcloud result =
         _parse_memo_text env
           (filter (fun m => memo_skipped m = false) (memos_of records))
    /\ (forall l1 r l2,
          records = l1 ++ r :: l2 ->
          rating r = Some 3 ->
          main_expressions result = tally_main (tally_records (l1 ++ l2))
          /\ sub_expressions result = tally_sub (tally_records (l1 ++ l2))).
Proof.
  intros records Hlen.
  assert (Hcompute : compute_taste_analysis env uid = Some
    {| main_expressions := tally_main (tally_records records);
       sub_expressions := tally_sub (tally_records records);
       memo_wordcloud := _parse_memo_text env (tally_memos (tally_records records));
       total_count := Z.of_nat (length records);
       similar_wordcloud := None |}).
  { unfold compute_taste_analysis. fold records.
    destruct (Z.ltb_spec (Z.of_nat (length records)) 5); [lia|done]. }
  eexists. split; [exact Hcompute|]. simpl. split_and!.
  - intros t_read t_write cache Hmiss. unfold get_user_taste_analysis.
    destruct (get_cache t_read (cache_key uid) cache) as [[cached|] cache'];
      [done|]. by rewrite Hcompute.
  - done.
  - intros t. unfold tally_records. rewrite tally_records_main. simpl.
    apply bucket_scores.
  - intros t. unfold tally_records. rewrite tally_records_sub. simpl.
    apply bucket_scores.
  - unfold tally_records. by rewrite tally_records_memos.
  - intros l1 r l2 Heq Hr. unfold tally_records.
    rewrite !tally_records_main, !tally_records_sub, Heq, !filter_app.
    rewrite !filter_cons_False; [done| |]; rewrite Hr; simpl; lia.
Qed.

Lemma C4_full_history_buckets_witness :
  exists result,
    compute_taste_analysis sample_env "u1" = Some result
    /\ total_count result = 5
    /\ dict_get "smoky" (main_expressions result)
       = Some (py_sum [Float f1_0; Float f0_8])
    /\ dict_get "sweet" (main_expressions result) = None
    /\ dict_get "sweet" (sub_expressions result) = Some (py_sum [Float f0_3]).
Proof.
  assert (Hlen : (5 <= length (get_user_records sample_env "u1"))%nat)
    by (vm_compute; lia).
  destruct (C4_full_history_buckets sample_env "u1" Hlen)
    as (result & Hc & _ & Hn & Hmain & Hsub & _).
  exists result. split_and!.
  - exact Hc.
  - exact Hn.
  - exact (Hmain "smoky"%string).
  - exact (Hmain "sweet"%string).
  - exact (Hsub "sweet"%string).
Defined.

(** ** The order of binary64 values *)

Lemma float_ltb_key a b :
  is_nan a = false -> is_nan b = false ->
  (float_ltb a b = true <-> key_lt (float_key a) (float_key b)).
Proof.
  intros Ha Hb. unfold float_ltb, SFltb, key_lt.
  destruct a as [sa|sa| |sa ma ea], b as [sb|sb| |sb mb eb]; try discriminate;
    try destruct sa; try destruct sb; simpl;
    try (split; [discriminate|lia]); try (split; [intros _; lia|done]).
  - fold (Pos.compare ma mb).
    destruct (Z.compare_spec ea eb), (Pos.compare_spec ma mb); simpl; split;
      try discriminate; try lia; done.
  - fold (Pos.compare ma mb).
    destruct (Z.compare_spec ea eb), (Pos.compare_spec ma mb); simpl; split;
      try discriminate; try lia; done.
Qed.

Lemma float_ltb_nan_l a b : is_nan a = true -> float_ltb a b = false.
Proof. by destruct a. Qed.

Lemma float_ltb_nan_r a b : is_nan b = true -> float_ltb a b = false.
Proof. destruct b; try discriminate. by destruct a. Qed.

Lemma float_ltb_asym a b : float_ltb a b = true -> float_ltb b a = false.
Proof.
  intros Hab.
  destruct (is_nan a) eqn:Ha; [by rewrite float_ltb_nan_l in Hab|].
  destruct (is_nan b) eqn:Hb; [by rewrite float_ltb_nan_r in Hab|].
  apply float_ltb_key in Hab; [|done|done].
  apply not_true_is_false. intros Hba%float_ltb_key; [|done|done].
  unfold key_lt in *. lia.
Qed.

(** "Not less than" is transitive through a value that is not a NaN. *)
Lemma float_not_ltb_trans a b c :
  is_nan b = false ->
  float_ltb a b = false -> float_ltb b c = false -> float_ltb a c = false.
Proof.
  intros Hb Hab Hbc.
  destruct (is_nan a) eqn:Ha; [by apply float_ltb_nan_l|].
  destruct (is_nan c) eqn:Hc; [by apply float_ltb_nan_r|].
  apply not_true_is_false. intros Hac%float_ltb_key; [|done|done].
  apply not_true_iff_false in Hab, Hbc.
  rewrite float_ltb_key in Hab, Hbc by done.
  unfold key_lt in *. lia.
Qed.

Lemma num_ltb_asym x y : num_ltb x y = true -> num_ltb y x = false.
Proof.
  destruct x as [a|a], y as [b|b]; simpl; try apply float_ltb_asym.
  intros H%Z.ltb_lt. apply Z.ltb_ge. lia.
Qed.

Lemma num_ltb_irrefl x : num_ltb x x = false.
Proof.
  destruct (num_ltb x x) eqn:E; [|done].
  pose proof (num_ltb_asym _ _ E). congruence.
Qed.

Lemma good_score_not_ltb_trans x y z :
  good_score y ->
  num_ltb x y = false -> num_ltb y z = false ->
  good_score x -> good_score z ->
  num_ltb x z = false.
Proof.
  destruct x as [a|a], y as [b|b], z as [c|c]; simpl; try done.
  intros [Hb _] Hab Hbc _ _. by eapply float_not_ltb_trans.
Qed.

(** ** Rounding never yields a NaN *)

Lemma iter_pos_invariant {A : Type} (P : A -> Prop) (f : A -> A) :
  (forall x, P x -> P (f x)) ->
  forall p x, P x -> P (SpecFloat.iter_pos f p x).
Proof.
  intros Hf. induction p as [p IH|p IH|]; intros x Hx; simpl; auto.
Qed.

Lemma shr_1_nonneg mrs : 0 <= shr_m mrs -> 0 <= shr_m (shr_1 mrs).
Proof.
  destruct mrs as [m r s]. simpl.
  destruct m as [|p|p]; [done| |lia]. by destruct p.
Qed.

Lemma shr_fexp_nonneg m e l :
  0 <= m -> 0 <= shr_m (fst (shr_fexp prec emax m e l)).
Proof.
  intros Hm. unfold shr_fexp, shr.
  assert (H0 : 0 <= shr_m (shr_record_of_loc m l))
    by (destruct l as [|[]]; done).
  destruct (fexp prec emax (Zdigits2 m + e) - e) as [|p|p]; simpl; try done.
  apply (iter_pos_invariant (fun mrs => 0 <= shr_m mrs)); [|done].
  apply shr_1_nonneg.
Qed.

Lemma round_nearest_even_nonneg m l : 0 <= m -> 0 <= round_nearest_even m l.
Proof.
  intros Hm. unfold round_nearest_even.
  destruct l as [|[]]; try done; try lia. destruct (Z.even m); lia.
Qed.

Lemma binary_round_aux_good s m e l :
  0 <= m ->
  is_nan (binary_round_aux prec emax s m e l) = false
  /\ sign_bit (binary_round_aux prec emax s m e l) = s.
Proof.
  intros Hm. unfold binary_round_aux.
  pose proof (shr_fexp_nonneg m e l Hm) as H1.
  destruct (shr_fexp prec emax m e l) as [mrs' e']. simpl in H1.
  pose proof (shr_fexp_nonneg _ e' loc_Exact
                (round_nearest_even_nonneg _ (loc_of_shr_record mrs') H1)) as H2.
  destruct (shr_fexp prec emax _ e' loc_Exact) as [mrs'' e'']. simpl in H2.
  destruct (shr_m mrs'') as [|p|p]; [done| |lia].
  by destruct (e'' <=? emax - prec).
Qed.

Lemma binary_round_good s m e :
  is_nan (binary_round prec emax s m e) = false
  /\ sign_bit (binary_round prec emax s m e) = s.
Proof.
  unfold binary_round. destruct (shl_align _ _ _) as [mz ez].
  by apply binary_round_aux_good.
Qed.

(** The sum of two floats that are neither NaN nor negative is neither. *)
Lemma float_add_good a b :
  is_nan a = false -> sign_bit a = false ->
  is_nan b = false -> sign_bit b = false ->
  is_nan (float_add a b) = false /\ sign_bit (float_add a b) = false.
Proof.
  destruct a as [sa|sa| |sa ma ea], b as [sb|sb| |sb mb eb]; simpl;
    intros Ha Hsa Hb Hsb; try discriminate; subst; simpl; try done.
  apply binary_round_good.
Qed.

(** ** Scores of the recent-trend analysis are well-behaved floats *)

Lemma recent_weight_good r : good_score (recent_weight r).
Proof.
  unfold recent_weight, RATING_WEIGHTS_get.
  rewrite RATING_WEIGHTS_lookup. by repeat case_decide.
Qed.

Lemma num_add_good v w :
  v = Int 0 \/ good_score v -> good_score w -> good_score (num_add v w).
Proof.
  intros [->|Hv] Hw; destruct w as [|b]; try done.
  - destruct Hw as [Hb Hsb]. apply (float_add_good (S754_zero false)); done.
  - destruct v as [|a]; [done|]. destruct Hv, Hw. by apply float_add_good.
Qed.

Lemma dict_set_Forall {V : Type} (Q : V -> Prop) k v (d : dict V) :
  Q v -> Forall (fun kv => Q (snd kv)) d ->
  Forall (fun kv => Q (snd kv)) (dict_set k v d).
Proof.
  intros Hv. induction 1 as [|[k' v'] d Hkv Hd IH]; simpl.
  - by repeat constructor.
  - destruct (decide (k = k')); constructor; auto.
Qed.

Lemma dict_get_Forall {V : Type} (Q : V -> Prop) k v (d : dict V) :
  Forall (fun kv => Q (snd kv)) d -> dict_get k d = Some v -> Q v.
Proof.
  intros Hd Hk. apply dict_get_Some_elem in Hk.
  rewrite Forall_forall in Hd. apply (Hd _ Hk).
Qed.

Lemma accumulate_good evs d :
  Forall (fun e => good_score (snd e)) evs ->
  Forall (fun kv => good_score (snd kv)) d ->
  Forall (fun kv => good_score (snd kv)) (accumulate evs d).
Proof.
  intros Hevs. revert d.
  induction Hevs as [|[k w] evs Hw _ IH]; intros d Hd; [done|].
  apply IH. unfold dict_add. apply dict_set_Forall; [|done].
  apply num_add_good; [|done]. simpl.
  destruct (dict_get k d) as [v|] eqn:Hk; simpl; [|by left].
  right. by eapply (dict_get_Forall good_score).
Qed.

Lemma weighted_counts_good frs :
  Forall (fun kv => good_score (snd kv)) (weighted_counts frs).
Proof.
  rewrite weighted_counts_accumulate. apply accumulate_good; [|done].
  unfold events_of. induction frs as [|r frs IH]; simpl; [done|].
  apply Forall_app. split; [|done].
  apply Forall_fmap, Forall_true. intros note. apply recent_weight_good.
Qed.

Lemma weighted_counts_NoDup frs : NoDup (dict_keys (weighted_counts frs)).
Proof.
  rewrite weighted_counts_accumulate. apply accumulate_NoDup, NoDup_nil_2.
Qed.

(** ** The stable descending sort *)

Lemma insert_desc_perm x l : insert_desc x l ≡ₚ x :: l.
Proof.
  induction l as [|y l IH]; simpl; [done|].
  destruct (num_ltb (snd x) (snd y)); [|done].
  by rewrite IH, Permutation_swap.
Qed.

Lemma sorted_desc_perm l : sorted_desc l ≡ₚ l.
Proof.
  induction l as [|x l IH]; simpl; [done|].
  by rewrite insert_desc_perm, IH.
Qed.

(** Neighbours are in order, for any scores. *)
Lemma insert_desc_Sorted x l :
  Sorted not_below l -> Sorted not_below (insert_desc x l).
Proof.
  induction 1 as [|y l Hl IH Hy]; simpl; [by repeat constructor|].
  destruct (num_ltb (snd x) (snd y)) eqn:E.
  - constructor; [done|]. destruct Hy as [|z l Hyz]; simpl.
    + constructor. by apply num_ltb_asym.
    + destruct (num_ltb (snd x) (snd z)); constructor; [done|].
      by apply num_ltb_asym.
  - by repeat constructor.
Qed.

Lemma sorted_desc_Sorted l : Sorted not_below (sorted_desc l).
Proof.
  induction l as [|x l IH]; simpl; [constructor|].
  by apply insert_desc_Sorted.
Qed.

(** Every element is in order with all that follow, for well-behaved scores. *)
Lemma insert_desc_StronglySorted x l :
  good_score (snd x) -> Forall (fun kv => good_score (snd kv)) l ->
  StronglySorted not_below l -> StronglySorted not_below (insert_desc x l).
Proof.
  intros Hx Hgood. induction 1 as [|y l Hl IH Hy]; simpl;
    [by repeat constructor|].
  apply Forall_cons in Hgood as [Hgy Hgl].
  destruct (num_ltb (snd x) (snd y)) eqn:E.
  - constructor; [by apply IH|].
    rewrite insert_desc_perm. constructor; [|done].
    by apply num_ltb_asym.
  - constructor; [by constructor|]. constructor; [done|].
    rewrite Forall_forall in Hy, Hgl. apply Forall_forall. intros z Hz.
    unfold not_below in *.
    eapply (good_score_not_ltb_trans _ (snd y)); eauto.
Qed.

Lemma sorted_desc_StronglySorted l :
  Forall (fun kv => good_score (snd kv)) l ->
  StronglySorted not_below (sorted_desc l).
Proof.
  induction 1 as [|x l Hx Hl IH]; simpl; [constructor|].
  apply insert_desc_StronglySorted; [done| |done].
  by rewrite sorted_desc_perm.
Qed.

(** [before], through the sublists of the library. *)
Lemma before_sublist {A : Type} (x y : A) l :
  before x y l <-> [x; y] `sublist_of` l.
Proof.
  unfold before. rewrite sublist_cons_l. split.
  - intros (l1 & l2 & l3 & ->). exists l1, (l2 ++ y :: l3). split; [done|].
    apply sublist_cons_l. exists l2, l3. split; [done|]. apply sublist_nil_l.
  - intros (l1 & k & -> & (l2 & l3 & -> & _)%sublist_cons_l). by exists l1, l2, l3.
Qed.

(** Where an element is inserted: after a run of strictly greater scores. *)
Lemma insert_desc_split x l :
  exists l1 l2,
    l = l1 ++ l2
    /\ insert_desc x l = l1 ++ x :: l2
    /\ Forall (fun z => num_ltb (snd x) (snd z) = true) l1.
Proof.
  induction l as [|y l (l1 & l2 & -> & Hins & Hall)]; simpl.
  - by exists [], [].
  - destruct (num_ltb (snd x) (snd y)) eqn:E.
    + exists (y :: l1), l2. rewrite Hins. by repeat constructor.
    + by exists [], (y :: l1 ++ l2).
Qed.

(** Insertion keeps the relative order of the elements already there. *)
Lemma insert_desc_before (a b : string * num) x l :
  before a b l -> before a b (insert_desc x l).
Proof.
  rewrite !before_sublist. intros Hab.
  destruct (insert_desc_split x l) as (l1 & l2 & -> & -> & _).
  etrans; [exact Hab|]. apply sublist_app; [done|]. by apply sublist_cons.
Qed.

(** An inserted element lands before every element that does not beat it. *)
Lemma insert_desc_before_new x b l :
  b ∈ l -> not_below x b -> before x b (insert_desc x l).
Proof.
  intros Hb Hxb. destruct (insert_desc_split x l) as (l1 & l2 & -> & -> & Hall).
  apply elem_of_app in Hb as [Hb|Hb].
  - rewrite Forall_forall in Hall. specialize (Hall _ Hb).
    unfold not_below in Hxb. congruence.
  - apply list_elem_of_split in Hb as (l3 & l4 & ->). by exists l1, l3, l4.
Qed.

(** Stability: two elements change places only when the later one has a
    strictly greater score. *)
Lemma sorted_desc_stable a b l :
  before a b l -> not_below a b -> before a b (sorted_desc l).
Proof.
  intros Hab Hnb. induction l as [|x l IH]; simpl.
  - destruct Hab as (l1 & l2 & l3 & Heq). by destruct l1.
  - destruct Hab as (l1 & l2 & l3 & Heq). destruct l1 as [|y l1]; simpl in Heq.
    + injection Heq as -> ->. apply insert_desc_before_new; [|done].
      rewrite sorted_desc_perm. apply elem_of_app. right. apply list_elem_of_here.
    + injection Heq as -> ->. apply insert_desc_before, IH.
      by exists l1, l2, l3.
Qed.

(** ** Order of first accumulation *)

Lemma accumulate_keys evs d :
  dict_keys (accumulate evs d) =
    dict_keys d ++ filter (fun k => k ∉ dict_keys d) (first_seen (map fst evs)).
Proof.
  revert d. induction evs as [|[k w] evs IH]; intros d.
  - simpl. by rewrite app_nil_r.
  - change (accumulate ((k, w) :: evs) d) with (accumulate evs (dict_add k w d)).
    rewrite IH. unfold dict_add. rewrite dict_keys_set. simpl.
    rewrite filter_cons, list_filter_filter.
    destruct (dict_get k d) as [v|] eqn:Hk.
    + assert (Hin : k ∈ dict_keys d).
      { destruct (decide (k ∈ dict_keys d)) as [|Hn]; [done|].
        apply dict_get_None in Hn. congruence. }
      rewrite decide_False by auto. f_equal. apply list_filter_iff.
      intros y. split; [|tauto]. intros Hy. split; [done|]. by intros ->.
    + apply dict_get_None in Hk. rewrite decide_True by done.
      rewrite <- app_assoc. simpl. do 2 f_equal. apply list_filter_iff.
      intros y. rewrite elem_of_app, list_elem_of_singleton. tauto.
Qed.

Lemma events_of_keys weight_of rs :
  map fst (events_of weight_of rs) =
    flat_map (fun r => default [] (taste_notes r)) rs.
Proof.
  induction rs as [|r rs IH]; [done|].
  simpl. rewrite map_app, IH. f_equal.
  induction (default [] (taste_notes r)) as [|note notes IHn]; [done|].
  simpl. by rewrite IHn.
Qed.

Lemma weighted_counts_keys frs :
  dict_keys (weighted_counts frs) =
    first_seen (flat_map (fun r => default [] (taste_notes r)) frs).
Proof.
  rewrite weighted_counts_accumulate, accumulate_keys, events_of_keys. simpl.
  induction (first_seen _) as [|k ks IH]; [done|].
  rewrite filter_cons_True by apply not_elem_of_nil. by rewrite IH.
Qed.

(** The example of the specification: ratings 5 and 4 give 1.0 + 0.8 = 1.8,
    the binary64 value of the literal.  Sums are rounded as Python rounds
    them: three records rated 3 give 0.6 + 0.6 + 0.6, one unit in the last
    place below the literal 1.8. *)
Example recent_score_examples :
  py_sum [Float f1_0; Float f0_8] = Float f1_8
  /\ py_sum [Float f0_6; Float f0_6; Float f0_6]
     = Float (S754_finite false 8106479329266892 (-52)).
Proof. vm_compute. split; reflexivity. Qed.

(** ** C3: the verdict *)

Lemma analyze_recent_verdict env uid n :
  (5 <= length (get_user_records env uid))%nat ->
  analyze_recent_taste_trend env uid n =
    trend_verdict
      (weighted_counts
         (filtered_records (recent_records (get_user_records env uid) n))).
Proof.
  intros Hlen. unfold analyze_recent_taste_trend.
  destruct (Z.ltb_spec (Z.of_nat (length (get_user_records env uid))) 5);
    [lia|].
  by destruct (filtered_records _).
Qed.

(** C3: for a user with at least 5 records, with [counts] the accumulated
    scores, one entry for each distinct tag: when no tag has a score the
    result is [None]; when exactly one tag has a score the verdict is a clear
    trend on it; with two tags or more
    the ranking starts with a tag [top] whose score no score exceeds,
    followed by a tag [second] whose score no other remaining score exceeds,
    and the verdict is a clear trend on [top] exactly when
    [first_score >= second_score * 1.5] holds in binary64 arithmetic, and no
    clear trend otherwise; scores 1.0 and 0.7 give no clear trend. *)
Theorem C3_trend_verdict (env : Env) (uid : string) (n : Z) :
  let records := get_user_records env uid in
  let counts :=
    weighted_counts (filtered_records (recent_records records n)) in
  (5 <= length records)%nat ->
  NoDup (dict_keys counts)
  /\ (counts = [] -> analyze_recent_taste_trend env uid n = None)
  /\ (forall t s,
        counts = [(t, s)] ->
        analyze_recent_taste_trend env uid n
        = Some (ClearTrend t (_note_to_korean t)))
  /\ ((2 <= length counts)%nat ->
      exists top first_score second second_score rest,
        sorted_notes counts = (top, first_score) :: (second, second_score) :: rest
        /\ sorted_notes counts ≡ₚ counts
        /\ Forall (fun kv => num_ltb first_score (snd kv) = false) counts
        /\ Forall (fun kv => num_ltb second_score (snd kv) = false)
                  ((second, second_score) :: rest)
        /\ analyze_recent_taste_trend env uid n =
             Some (if num_geb first_score (num_mul second_score (Float f1_5))
                   then ClearTrend top (_note_to_korean top)
                   else NoClearTrend)
        /\ (is_clear_trend
              (default NoClearTrend (analyze_recent_taste_trend env uid n))
            = true <->
            num_geb first_score (num_mul second_score (Float f1_5)) = true))
  /\ trend_verdict [("spicy", Float f1_0); ("sweet", Float f0_7)]%string
     = Some NoClearTrend.
Proof.
  intros records counts Hlen.
  pose proof (analyze_recent_verdict env uid n Hlen) as Hv.
  fold records in Hv. fold counts in Hv. rewrite Hv. split_and!.
  - apply weighted_counts_NoDup.
  - by intros ->.
  - by intros t s ->.
  - intros Hlen2.
    pose proof (sorted_desc_perm counts) as Hperm.
    pose proof (sorted_desc_StronglySorted counts (weighted_counts_good _))
      as Hsorted.
    unfold trend_verdict, sorted_notes.
    destruct (sorted_desc counts) as [|[top s1] [|[second s2] rest]] eqn:Es.
    + apply Permutation_length in Hperm. simpl in Hperm. lia.
    + apply Permutation_length in Hperm. simpl in Hperm. lia.
    + exists top, s1, second, s2, rest.
      apply StronglySorted_inv in Hsorted as [Htail Htop].
      apply StronglySorted_inv in Htail as [_ Hsecond].
      split_and!.
      * done.
      * done.
      * rewrite <- Hperm. constructor; [apply num_ltb_irrefl|exact Htop].
      * constructor; [apply num_ltb_irrefl|exact Hsecond].
      * destruct counts; [simpl in Hlen2; lia|].
        by destruct (num_geb s1 (num_mul s2 (Float f1_5))).
      * destruct counts; [simpl in Hlen2; lia|].
        by destruct (num_geb s1 (num_mul s2 (Float f1_5))).
  - vm_compute. reflexivity.
Qed.

Lemma C3_trend_verdict_witness :
  analyze_recent_taste_trend sample_env "u1" 10
  = Some (ClearTrend "smoky" "스모키").
Proof.
  assert (Hlen : (5 <= length (get_user_records sample_env "u1"))%nat)
    by (vm_compute; lia).
  destruct (C3_trend_verdict sample_env "u1" 10 Hlen)
    as (_ & _ & _ & Hmany & _).
  destruct Hmany as (top & s1 & second & s2 & rest & Hs & _ & _ & _ & Hr & _).
  { vm_compute. lia. }
  rewrite Hr. vm_compute in Hs. injection Hs as <- <- <- <- <-.
  vm_compute. reflexivity.
Defined.

(** Two records rated 3 against one record rated 4: the scores are 1.2 and
    0.8, and in binary64 arithmetic [0.8 * 1.5] exceeds [0.6 + 0.6] by one
    unit in the last place, so the comparison fails. *)
Example trend_verdict_rounding :
  py_sum [Float f0_6; Float f0_6]
  = Float (S754_finite false 5404319552844595 (-52))
  /\ num_mul (Float f0_8) (Float f1_5)
     = Float (S754_finite false 5404319552844596 (-52))
  /\ trend_verdict [("sweet", py_sum [Float f0_6; Float f0_6]);
                    ("smoky", Float f0_8)]%string
     = Some NoClearTrend.
Proof. vm_compute. repeat split; reflexivity. Qed.

(** ** C9: deterministic, stable ranking *)

(** C9: the result depends on nothing but the user's record sequence and
    [n]; the tags are held in the order in which they are first accumulated;
    the ranking is a rearrangement of them in which no tag is followed by one
    of strictly greater score, and in which a tag stays ahead of every later
    tag that does not beat it, in particular of every later tag of equal
    score (these three facts determine the ranking); the tag name plays no
    role (smoky stays ahead of fruity on equal scores). *)
Theorem C9_stable_tie_break :
  (forall env env' uid n,
     get_user_records env uid = get_user_records env' uid ->
     analyze_recent_taste_trend env uid n
     = analyze_recent_taste_trend env' uid n)
  /\ (forall filtered,
        dict_keys (weighted_counts filtered) =
          first_seen (flat_map (fun r => default [] (taste_notes r)) filtered))
  /\ (forall filtered,
        let counts := weighted_counts filtered in
        sorted_notes counts ≡ₚ counts
        /\ StronglySorted not_below (sorted_notes counts)
        /\ (forall a b s,
              before (a, s) (b, s) counts ->
              before (a, s) (b, s) (sorted_notes counts))
        /\ (forall x y,
              before x y counts -> num_ltb (snd x) (snd y) = false ->
              before x y (sorted_notes counts)))
  /\ sorted_notes [("smoky", Float f0_8); ("fruity", Float f0_8)]%string
     = [("smoky", Float f0_8); ("fruity", Float f0_8)]%string.
Proof.
  split_and!.
  - intros env env' uid n Heq. unfold analyze_recent_taste_trend.
    by rewrite Heq.
  - apply weighted_counts_keys.
  - intros filtered counts. split_and!.
    + apply sorted_desc_perm.
    + apply sorted_desc_StronglySorted, weighted_counts_good.
    + intros a b s Hab. apply sorted_desc_stable; [done|].
      apply num_ltb_irrefl.
    + intros x y Hxy Hnb. by apply sorted_desc_stable.
  - vm_compute. reflexivity.
Qed.

(** ** C10: ratings outside 1..5 *)










(** * Further properties *)

(** ** Helper lemmas *)

Lemma first_seen_elem x l : x ∈ first_seen l <-> x ∈ l.
Proof.
  induction l as [|y l IH]; simpl; [done|].
  rewrite !elem_of_cons, list_elem_of_filter, IH.
  destruct (decide (x = y)); tauto.
Qed.

Lemma elem_of_flat_map {A B : Type} (f : A -> list B) l y :
  y ∈ flat_map f l <-> exists x, x ∈ l /\ y ∈ f x.
Proof.
  rewrite list_elem_of_In, in_flat_map. split.
  - intros (x & Hx & Hy). exists x. by rewrite !list_elem_of_In.
  - intros (x & Hx & Hy). exists x. by rewrite <- !list_elem_of_In.
Qed.

Lemma fold_dict_set_keys {V E : Type} (key : E -> string)
    (val : E -> dict V -> V) evs (d : dict V) :
  dict_keys (fold_left (fun c e => dict_set (key e) (val e c) c) evs d) =
    dict_keys d ++ filter (fun k => k ∉ dict_keys d) (first_seen (map key evs)).
Proof.
  revert d. induction evs as [|e evs IH]; intros d.
  - simpl. by rewrite app_nil_r.
  - simpl fold_left. rewrite IH, dict_keys_set. simpl.
    rewrite filter_cons, list_filter_filter.
    destruct (dict_get (key e) d) as [v|] eqn:Hk.
    + assert (Hin : key e ∈ dict_keys d).
      { destruct (decide (key e ∈ dict_keys d)) as [|Hn]; [done|].
        apply dict_get_None in Hn. congruence. }
      rewrite decide_False by auto. f_equal. apply list_filter_iff.
      intros y. split; [|tauto]. intros Hy. split; [done|]. by intros ->.
    + apply dict_get_None in Hk. rewrite decide_True by done.
      rewrite <- app_assoc. simpl. do 2 f_equal. apply list_filter_iff.
      intros y. rewrite elem_of_app, list_elem_of_singleton. tauto.
Qed.

Lemma filter_nil_keys (ks : list string) :
  filter (fun k => k ∉ (@nil string)) ks = ks.
Proof.
  induction ks as [|k ks IH]; [done|].
  rewrite filter_cons_True by apply not_elem_of_nil. by rewrite IH.
Qed.

Lemma occurrences_zero w l : occurrences w l = O <-> w ∉ l.
Proof.
  unfold occurrences. induction l as [|x l IH]; simpl.
  - split; [intros _; apply not_elem_of_nil|done].
  - rewrite filter_cons, not_elem_of_cons.
    destruct (decide (x = w)) as [->|Hne]; simpl.
    + split; [done|]. intros [? _]. done.
    + rewrite IH. split; [by split|tauto].
Qed.

(** ** Word frequencies: exact counts *)

Lemma incr_all_app ws1 ws2 d :
  incr_all (ws1 ++ ws2) d = incr_all ws2 (incr_all ws1 d).
Proof. unfold incr_all. apply fold_left_app. Qed.

Lemma incr_all_get w ws d :
  dict_get w (incr_all ws d) =
    match occurrences w ws with
    | O => dict_get w d
    | k => Some (default 0 (dict_get w d) + Z.of_nat k)
    end.
Proof.
  revert d. induction ws as [|x ws IH]; intros d; [done|].
  change (incr_all (x :: ws) d) with (incr_all ws (dict_incr x d)).
  rewrite IH. unfold occurrences, dict_incr. rewrite filter_cons.
  destruct (decide (x = w)) as [->|Hne]; simpl.
  - rewrite dict_get_set_eq. simpl.
    destruct (length (filter (fun x => x = w) ws)); f_equal; lia.
  - by rewrite dict_get_set_ne.
Qed.

Lemma incr_all_keys ws d :
  dict_keys (incr_all ws d) =
    dict_keys d ++ filter (fun k => k ∉ dict_keys d) (first_seen ws).
Proof.
  unfold incr_all, dict_incr.
  rewrite (fold_dict_set_keys (fun w : string => w)
             (fun w c => default 0 (dict_get w c) + 1)).
  by rewrite map_id.
Qed.

Lemma count_tokens_incr whitelist tokens d :
  count_tokens whitelist tokens d =
    incr_all
      (map form
         (filter (fun token =>
                    noun_or_verb token && countable whitelist (form token) = true)
                 tokens)) d.
Proof.
  unfold count_tokens. revert d.
  induction tokens as [|token tokens IH]; intros d; [done|].
  simpl. rewrite IH, filter_cons.
  destruct (noun_or_verb token && countable whitelist (form token)) eqn:E.
  - by rewrite decide_True.
  - by rewrite decide_False.
Qed.

Lemma count_memos_total analyze whitelist memo_list d :
  Forall (fun memo => memo_skipped memo = false -> is_Some (analyze memo))
         memo_list ->
  count_memos analyze whitelist memo_list d =
    Some (incr_all (counted_forms analyze whitelist memo_list) d).
Proof.
  intros Hall. revert d.
  induction Hall as [|memo rest Hmemo _ IH]; intros d; [done|].
  simpl. destruct (memo_skipped memo) eqn:Hskip; [apply IH|].
  destruct (Hmemo eq_refl) as [tokens Htokens]. rewrite Htokens. simpl.
  by rewrite IH, incr_all_app, count_tokens_incr.
Qed.

Lemma count_memos_raises analyze whitelist memo_list memo d :
  memo ∈ memo_list -> memo_skipped memo = false -> analyze memo = None ->
  count_memos analyze whitelist memo_list d = None.
Proof.
  intros Hin Hskip Hraise. revert d.
  induction memo_list as [|m rest IH]; intros d.
  - by apply elem_of_nil in Hin.
  - simpl. apply elem_of_cons in Hin as [<-|Hin].
    + by rewrite Hskip, Hraise.
    + destruct (memo_skipped m); [by apply IH|].
      destruct (analyze m); [by apply IH|done].
Qed.

(** X1: when the tokenizer answers on every memo that is not skipped, the
    word frequencies are exact: the keys are the counted surface forms in the
    order of their first occurrence, and each is mapped to the number of its
    occurrences. *)
Theorem word_frequencies_exact (env : Env) (analyze : Kiwi)
    (memo_list : list string) :
  kiwi env = Some analyze ->
  Forall (fun memo => memo_skipped memo = false -> is_Some (analyze memo))
         memo_list ->
  let forms :=
    counted_forms analyze (_get_whitelist (whitelist_file env)) memo_list in
  dict_keys (_parse_memo_text env memo_list) = first_seen forms
  /\ forall w,
       dict_get w (_parse_memo_text env memo_list) =
         if decide (w ∈ forms) then Some (Z.of_nat (occurrences w forms))
         else None.
Proof.
  intros Hk Hall forms. unfold _parse_memo_text. rewrite Hk.
  rewrite (count_memos_total _ _ _ _ Hall). simpl. fold forms. split.
  - rewrite incr_all_keys. simpl. apply filter_nil_keys.
  - intros w. rewrite incr_all_get. simpl.
    destruct (occurrences w forms) eqn:E.
    + apply occurrences_zero in E. by rewrite decide_False.
    + rewrite decide_True; [f_equal; lia|].
      destruct (decide (w ∈ forms)) as [|Hn]; [done|].
      apply occurrences_zero in Hn. congruence.
Qed.

Lemma word_frequencies_exact_witness :
  dict_keys (_parse_memo_text sample_env ["바닐라 과일"; ""; "바닐라"]%string)
  = ["바닐라"; "과일"]%string
  /\ dict_get "바닐라"
       (_parse_memo_text sample_env ["바닐라 과일"; ""; "바닐라"]%string)
     = Some 2.
Proof.
  assert (Hall : Forall (fun memo => memo_skipped memo = false ->
                                     is_Some (sample_kiwi memo))
                        ["바닐라 과일"; ""; "바닐라"]%string).
  { repeat (apply Forall_cons_2; [intros _; by eexists|]). apply Forall_nil_2. }
  destruct (word_frequencies_exact sample_env sample_kiwi _ eq_refl Hall)
    as [Hkeys Hget].
  split; [exact Hkeys | exact (Hget "바닐라"%string)].
Defined.

(** X2: the word frequencies are all or nothing: when the tokenizer raises
    on one memo that is not skipped, the counts of all other memos are lost
    and the result is the empty mapping. *)
Theorem word_frequencies_all_or_nothing (env : Env) (analyze : Kiwi)
    (memo_list : list string) (memo : string) :
  kiwi env = Some analyze ->
  memo ∈ memo_list ->
  memo_skipped memo = false ->
  analyze memo = None ->
  _parse_memo_text env memo_list = [].
Proof.
  intros Hk Hin Hskip Hraise. unfold _parse_memo_text. rewrite Hk.
  by rewrite (count_memos_raises _ _ _ memo).
Qed.

Lemma word_frequencies_all_or_nothing_witness :
  _parse_memo_text sample_env_failing ["바닐라 과일"; "꿀"; "바닐라"]%string = [].
Proof.
  apply (word_frequencies_all_or_nothing sample_env_failing sample_kiwi_failing
           _ "꿀"%string).
  - reflexivity.
  - apply (bool_decide_unpack _). vm_compute. exact I.
  - vm_compute. reflexivity.
  - vm_compute. reflexivity.
Defined.

(** ** Recent trend: what a verdict can name, and the window *)

Lemma trend_verdict_clear counts top kr :
  trend_verdict counts = Some (ClearTrend top kr) ->
  kr = _note_to_korean top /\ top ∈ dict_keys counts.
Proof.
  unfold trend_verdict, sorted_notes.
  pose proof (sorted_desc_perm counts) as Hperm.
  assert (Hin : forall t s l, sorted_desc counts = (t, s) :: l ->
                              t ∈ dict_keys counts).
  { intros t s l E. unfold dict_keys. rewrite <- Hperm, E. simpl.
    apply list_elem_of_here. }
  destruct counts as [|c counts]; [done|].
  destruct (sorted_desc (c :: counts)) as [|[t s] [|[t2 s2] rest]] eqn:E;
    [done| |].
  - intros [= <- <-]. split; [done|]. by eapply Hin.
  - destruct (num_geb s (num_mul s2 (Float f1_5))); [|done].
    intros [= <- <-]. split; [done|]. by eapply Hin.
Qed.

(** X3: a clear trend names a tag that the user really used: the verdict is
    given only for a user with at least 5 records, its tag is carried by one
    of the records of the window that is rated 3 or more, and its Korean
    label is the translation of that tag. *)
Theorem trend_names_a_recent_tag (env : Env) (uid : string) (n : Z)
    (top kr : string) :
  analyze_recent_taste_trend env uid n = Some (ClearTrend top kr) ->
  kr = _note_to_korean top
  /\ (5 <= length (get_user_records env uid))%nat
  /\ exists r,
       r ∈ recent_records (get_user_records env uid) n
       /\ 3 <= default 0 (rating r)
       /\ carries top r.
Proof.
  unfold analyze_recent_taste_trend.
  destruct (Z.ltb_spec (Z.of_nat (length (get_user_records env uid))) 5);
    [done|].
  set (filtered := filtered_records _).
  intros Hv.
  assert (Hv' : trend_verdict (weighted_counts filtered)
                = Some (ClearTrend top kr)) by by destruct filtered.
  apply trend_verdict_clear in Hv' as [-> Hin]. split; [done|].
  split; [lia|].
  rewrite weighted_counts_keys, first_seen_elem, elem_of_flat_map in Hin.
  destruct Hin as (r & Hr & Ht). subst filtered. unfold filtered_records in Hr.
  apply list_elem_of_filter in Hr as [Hrating Hr]. by exists r.
Qed.

Lemma trend_names_a_recent_tag_witness :
  exists r,
    r ∈ recent_records (get_user_records sample_env "u1") 10
    /\ 3 <= default 0 (rating r)
    /\ carries "smoky" r.
Proof.
  apply (trend_names_a_recent_tag sample_env "u1" 10 "smoky" "스모키").
  vm_compute. reflexivity.
Defined.

(** X4: the window of the recent trend at its bounds.  With [n = 0] the
    window is empty and the result is [None], however many records the user
    has; every [n] at or above the number of records gives the result of the
    full list; a negative [n] raises nothing: the window then leaves out the
    [-n] oldest records. *)
Theorem recent_window_bounds (env : Env) (uid : string) :
  let records := get_user_records env uid in
  analyze_recent_taste_trend env uid 0 = None
  /\ (forall n,
        Z.of_nat (length records) <= n ->
        recent_records records n = records
        /\ analyze_recent_taste_trend env uid n
           = analyze_recent_taste_trend env uid (Z.of_nat (length records)))
  /\ (forall n,
        n < 0 ->
        recent_records records n
        = take (length records - Z.to_nat (- n)) records).
Proof.
  intros records.
  assert (Hfull : forall n, Z.of_nat (length records) <= n ->
                            recent_records records n = records).
  { intros n Hn. rewrite recent_records_take by lia.
    apply firstn_all2. lia. }
  split_and!.
  - unfold analyze_recent_taste_trend. fold records.
    destruct (_ <? 5); [done|]. rewrite recent_records_take by lia.
    by rewrite Z.min_l by lia.
  - intros n Hn. split; [by apply Hfull|].
    unfold analyze_recent_taste_trend. fold records.
    by rewrite !Hfull by lia.
  - intros n Hn. unfold recent_records, py_slice_to.
    destruct (Z.ltb_spec (Z.min n (Z.of_nat (length records))) 0); [|lia].
    f_equal. lia.
Qed.

(** ** Full history: the tags of the buckets *)

Lemma tally_main_keys rs :
  dict_keys (tally_main (tally_records rs)) =
    first_seen (tags_of (fun r => 4 <= default 0 (rating r)) rs).
Proof.
  unfold tally_records, tags_of. rewrite tally_records_main. simpl.
  rewrite fold_add_notes_accumulate, accumulate_keys, events_of_keys. simpl.
  apply filter_nil_keys.
Qed.

Lemma tally_sub_keys rs :
  dict_keys (tally_sub (tally_records rs)) =
    first_seen (tags_of (fun r => default 0 (rating r) <= 2) rs).
Proof.
  unfold tally_records, tags_of. rewrite tally_records_sub. simpl.
  rewrite fold_add_notes_accumulate, accumulate_keys, events_of_keys. simpl.
  apply filter_nil_keys.
Qed.

Lemma tags_of_elem (keep : TastingRecord -> Prop)
    `{!forall r, Decision (keep r)} rs t :
  t ∈ first_seen (tags_of keep rs) <->
  exists r, r ∈ rs /\ keep r /\ carries t r.
Proof.
  unfold tags_of, carries. rewrite first_seen_elem, elem_of_flat_map.
  split.
  - intros (r & [Hk Hr]%list_elem_of_filter & Ht). by exists r.
  - intros (r & Hr & Hk & Ht). exists r. by rewrite list_elem_of_filter.
Qed.

(** X5: in a freshly computed analysis the keys of [main_expressions] are
    exactly the tags carried by a record rated 4 or more, and the keys of
    [sub_expressions] exactly the tags carried by a record rated 2 or less,
    each once and in the order of first occurrence; the result is computed
    for 5 records or more only. *)
Theorem bucket_tags (env : Env) (uid : string) (result : TasteAnalysis) :
  let records := get_user_records env uid in
  compute_taste_analysis env uid = Some result ->
  5 <= total_count result
  /\ dict_keys (main_expressions result)
     = first_seen (tags_of (fun r => 4 <= default 0 (rating r)) records)
  /\ dict_keys (sub_expressions result)
     = first_seen (tags_of (fun r => default 0 (rating r) <= 2) records)
  /\ (forall t,
        t ∈ dict_keys (main_expressions result) <->
        exists r, r ∈ records /\ 4 <= default 0 (rating r) /\ carries t r)
  /\ (forall t,
        t ∈ dict_keys (sub_expressions result) <->
        exists r, r ∈ records /\ default 0 (rating r) <= 2 /\ carries t r).
Proof.
  intros records. unfold compute_taste_analysis. fold records.
  destruct (Z.ltb_spec (Z.of_nat (length records)) 5); [done|].
  intros [= <-]. simpl. split_and!.
  - done.
  - apply tally_main_keys.
  - apply tally_sub_keys.
  - intros t. rewrite tally_main_keys. apply tags_of_elem.
  - intros t. rewrite tally_sub_keys. apply tags_of_elem.
Qed.

Lemma bucket_tags_witness :
  exists result,
    compute_taste_analysis sample_env "u1" = Some result
    /\ dict_keys (main_expressions result) = ["peaty"; "smoky"]%string
    /\ dict_keys (sub_expressions result) = ["sweet"; "floral"]%string.
Proof.
  destruct (compute_taste_analysis sample_env "u1") as [result|] eqn:E;
    [|vm_compute in E; discriminate].
  exists result.
  destruct (bucket_tags sample_env "u1" result E) as (_ & Hmain & Hsub & _).
  split_and!; [done|exact Hmain|exact Hsub].
Defined.

(** ** Similarity: only the set of reference tags matters *)

Lemma filter_sublist_impl {A : Type} (P Q : A -> Prop)
    `{!forall x, Decision (P x)} `{!forall x, Decision (Q x)} (l : list A) :
  (forall x, P x -> Q x) -> filter P l `sublist_of` filter Q l.
Proof.
  intros HPQ. induction l as [|x l IH]; [done|].
  rewrite !filter_cons. destruct (decide (P x)) as [HP|HP].
  - rewrite decide_True by auto. by apply sublist_skip.
  - destruct (decide (Q x)); [by apply sublist_cons|done].
Qed.

(** X6: the tag similarity depends on the reference tags as a set: two lists
    with the same elements, in any order and with any repetition, give the
    same memos and the same word counts; and more reference tags select more
    memos, never fewer. *)
Theorem similar_memos_by_tag_set (env : Env) (uid : string)
    (tags tags' : list string) :
  ((forall t, t ∈ tags <-> t ∈ tags') ->
   similar_memos uid (list_to_set tags) (get_all_records env)
   = similar_memos uid (list_to_set tags') (get_all_records env)
   /\ get_similar_users_memo_wordcloud env uid tags
      = get_similar_users_memo_wordcloud env uid tags')
  /\ ((forall t, t ∈ tags -> t ∈ tags') ->
      similar_memos uid (list_to_set tags) (get_all_records env)
      `sublist_of` similar_memos uid (list_to_set tags') (get_all_records env)).
Proof.
  split.
  - intros Hsame.
    assert (Hset : (list_to_set tags : gset string) = list_to_set tags').
    { apply set_eq. intros t. by rewrite !elem_of_list_to_set. }
    split; [by rewrite Hset|].
    unfold get_similar_users_memo_wordcloud. rewrite Hset.
    destruct tags as [|t tags], tags' as [|t' tags']; try done.
    + exfalso. eapply not_elem_of_nil, Hsame, list_elem_of_here.
    + exfalso. eapply not_elem_of_nil, Hsame, list_elem_of_here.
  - intros Hsub. rewrite !similar_memos_spec. unfold memos_of.
    apply fmap_sublist. unfold qualifying_similar.
    apply filter_sublist_impl. intros r (Hu & Hm & He). split_and!; [done..|].
    rewrite Exists_exists in *. destruct He as (t & Ht & Hin). eauto.
Qed.

(** ** Product reviews without a tokenizer *)

(** X7: [count] and [has_data] of the product reviews are decided by the
    record store alone: they are the same with any tokenizer and any
    whitelist; without a tokenizer the word cloud is empty although
    [has_data] still reports the memos that were found. *)
Theorem product_reviews_count_without_tokenizer (env env' : Env)
    (uid name : string) :
  get_all_records env = get_all_records env' ->
  count (get_product_reviews_wordcloud env uid name)
  = count (get_product_reviews_wordcloud env' uid name)
  /\ has_data (get_product_reviews_wordcloud env uid name)
     = has_data (get_product_reviews_wordcloud env' uid name)
  /\ (kiwi env = None ->
      wordcloud (get_product_reviews_wordcloud env uid name) = []).
Proof.
  intros Hall. unfold get_product_reviews_wordcloud. rewrite Hall.
  destruct (product_memos uid name (get_all_records env')); simpl;
    split_and!; try done.
  intros Hk. unfold _parse_memo_text. by rewrite Hk.
Qed.

Lemma product_reviews_count_without_tokenizer_witness :
  get_product_reviews_wordcloud
    {| get_user_records := get_user_records sample_env;
       get_all_records := get_all_records sample_env;
       kiwi := None;
       whitelist_file := None |} "u1" "Glenfiddich 12"
  = {| wordcloud := []; count := 2; has_data := true |}.
Proof.
  set (env := {| get_user_records := get_user_records sample_env;
                 get_all_records := get_all_records sample_env;
                 kiwi := None; whitelist_file := None |}).
  destruct (product_reviews_count_without_tokenizer env sample_env "u1"
              "Glenfiddich 12" eq_refl) as (Hc & Hd & Hw).
  specialize (Hw eq_refl).
  destruct (get_product_reviews_wordcloud env "u1" "Glenfiddich 12")
    as [w c d] eqn:E.
  simpl in Hc, Hd, Hw. subst w c d. vm_compute. reflexivity.
Defined.

(** ** Cache: what a read can return and change *)

(** X8: a read returns only what is stored: a value comes back only from an
    entry of that key that is younger than the lifetime, and such a read
    leaves the cache as it is; a read never adds a key and never touches the
    entry of another key; after a read that returned nothing the key is
    absent; and of two writes to a key the later one decides value and age. *)
Theorem cache_read_sound (V : Type) (cache : gmap string (V * float))
    (now : float) (key : string) :
  (forall value,
     fst (get_cache now key cache) = Some value ->
     exists ts,
       cache !! key = Some (value, ts)
       /\ fresh now ts = true
       /\ snd (get_cache now key cache) = cache)
  /\ (fst (get_cache now key cache) = None ->
      snd (get_cache now key cache) !! key = None)
  /\ (forall key',
        key' <> key ->
        snd (get_cache now key cache) !! key' = cache !! key')
  /\ dom (snd (get_cache now key cache)) ⊆ dom cache
  /\ (forall v1 v2 t1 t2,
        get_cache now key (set_cache t2 key v2 (set_cache t1 key v1 cache))
        = get_cache now key (set_cache t2 key v2 cache)).
Proof.
  split_and!.
  - intros value. unfold get_cache.
    destruct (cache !! key) as [[v ts]|] eqn:Hk; [|done].
    destruct (fresh now ts) eqn:Hf; [|done].
    intros [= <-]. by exists ts.
  - apply get_cache_miss_absent.
  - intros key' Hne. by apply get_cache_other.
  - unfold get_cache. destruct (cache !! key) as [[v ts]|] eqn:Hk; [|done].
    destruct (fresh now ts); [done|]. simpl. rewrite dom_delete_L.
    apply subseteq_difference_l. done.
  - intros v1 v2 t1 t2. unfold set_cache. by rewrite insert_insert_eq.
Qed.

(** X9: clearing the cache forces the next analysis of every user to be
    computed from the current records, whatever was cached and whenever. *)
Theorem clear_cache_forces_recompute (env : Env) (t_read t_write : float)
    (uid : string) (cache : gmap string (TasteAnalysis * float)) :
  get_user_taste_analysis env t_read t_write uid (clear_cache cache) =
    match compute_taste_analysis env uid with
    | None => (None, ∅)
    | Some result => (Some result, {[cache_key uid := (result, t_write)]})
    end.
Proof.
  unfold get_user_taste_analysis, clear_cache, get_cache.
  rewrite lookup_empty.
  destruct (compute_taste_analysis env uid) as [result|]; [|done].
  unfold set_cache. by rewrite insert_empty.
Qed.

(** ** The word clouds of the archive page *)

Lemma count_memos_filter analyze whitelist memo_list d :
  count_memos analyze whitelist memo_list d =
    count_memos analyze whitelist
      (filter (fun m => memo_skipped m = false) memo_list) d.
Proof.
  revert d. induction memo_list as [|m rest IH]; intros d; [done|].
  rewrite filter_cons. simpl. destruct (memo_skipped m) eqn:Hskip.
  - rewrite decide_False by done. apply IH.
  - rewrite decide_True by done. simpl. rewrite Hskip.
    destruct (analyze m); [apply IH|done].
Qed.

Lemma _parse_memo_text_filter env memo_list :
  _parse_memo_text env memo_list =
    _parse_memo_text env (filter (fun m => memo_skipped m = false) memo_list).
Proof.
  unfold _parse_memo_text. destruct (kiwi env); [|done].
  simpl. by rewrite count_memos_filter.
Qed.

(** X10: the card of the user's own words counts exactly the memos of the
    user's visible records that are neither empty nor marked as deleted, with
    or without 5 records; whenever the full-history analysis is computed, its
    [memo_wordcloud] is the same mapping. *)
Theorem my_wordcloud_matches_analysis (env : Env) (uid : string) :
  load_my_wordcloud env uid
  = _parse_memo_text env
      (filter (fun m => memo_skipped m = false)
              (memos_of (get_user_records env uid)))
  /\ (forall result,
        compute_taste_analysis env uid = Some result ->
        memo_wordcloud result = load_my_wordcloud env uid).
Proof.
  assert (Hmine : load_my_wordcloud env uid
                  = _parse_memo_text env
                      (filter (fun m => memo_skipped m = false)
                              (memos_of (get_user_records env uid)))).
  { unfold load_my_wordcloud. rewrite _parse_memo_text_filter. f_equal.
    unfold memos_of.
    induction (get_user_records env uid) as [|r rs IH]; [done|].
    rewrite filter_cons. simpl. rewrite (filter_cons _ (default _ _)).
    destruct (decide (default EmptyString (memo r) <> EmptyString)) as [Hne|He].
    - simpl. rewrite filter_cons. by rewrite IH.
    - rewrite IH. rewrite decide_False; [done|].
      apply dec_stable in He. rewrite He. by vm_compute. }
  split; [exact Hmine|].
  intros result. unfold compute_taste_analysis.
  destruct (_ <? 5); [done|]. intros [= <-]. simpl.
  rewrite Hmine. unfold tally_records. by rewrite tally_records_memos.
Qed.

(** X11: the word cloud of the community.  When the analysis is not served
    from the cache, the page shows the notice below 5 records, and otherwise
    the words of the other users whose records share a tag with the user's
    records rated 4 or more; a user with no record rated 4 or more gets an
    empty mapping.  When the analysis is served from the cache, the
    reference tags are those of the cached analysis. *)
Theorem community_reference_tags (env : Env) (t_read t_write : float)
    (uid : string) (cache : gmap string (TasteAnalysis * float)) :
  let records := get_user_records env uid in
  let tags := first_seen (tags_of (fun r => 4 <= default 0 (rating r)) records) in
  (fst (get_cache t_read (cache_key uid) cache) = None ->
   fst (load_community_wordcloud env t_read t_write uid cache) =
     if Z.of_nat (length records) <? 5 then None
     else Some (get_similar_users_memo_wordcloud env uid tags))
  /\ (fst (get_cache t_read (cache_key uid) cache) = None ->
      (5 <= length records)%nat ->
      Forall (fun r => default 0 (rating r) < 4) records ->
      fst (load_community_wordcloud env t_read t_write uid cache) = Some [])
  /\ (forall stored,
        fst (get_cache t_read (cache_key uid) cache) = Some stored ->
        fst (load_community_wordcloud env t_read t_write uid cache) =
          Some (get_similar_users_memo_wordcloud env uid
                  (dict_keys (main_expressions stored)))).
Proof.
  intros records tags.
  assert (Hmiss : fst (get_cache t_read (cache_key uid) cache) = None ->
    fst (load_community_wordcloud env t_read t_write uid cache) =
      if Z.of_nat (length records) <? 5 then None
      else Some (get_similar_users_memo_wordcloud env uid tags)).
  { unfold load_community_wordcloud, get_user_taste_analysis.
    destruct (get_cache t_read (cache_key uid) cache) as [[stored|] cache'];
      [done|]. intros _.
    unfold compute_taste_analysis. fold records.
    destruct (Z.of_nat (length records) <? 5); [done|]. simpl.
    by rewrite tally_main_keys. }
  split_and!.
  - exact Hmiss.
  - intros Hm Hlen Hlow. rewrite (Hmiss Hm).
    destruct (Z.ltb_spec (Z.of_nat (length records)) 5); [lia|].
    assert (Htags : tags = []).
    { subst tags. unfold tags_of.
      replace (filter _ records) with (@nil TastingRecord); [done|].
      symmetry. clear -Hlow.
      induction Hlow as [|r rs Hr _ IH]; [done|].
      rewrite filter_cons_False by lia. exact IH. }
    by rewrite Htags.
  - intros stored. unfold load_community_wordcloud, get_user_taste_analysis.
    destruct (get_cache t_read (cache_key uid) cache) as [[cached|] cache'];
      [|done]. by intros [= ->].
Qed.

(** ** Strings: strip, split and join *)

Section Lstrip.
Variable two : ascii -> ascii -> bool.
Variable three : ascii -> ascii -> ascii -> bool.

(** What is left is a tail of the input. *)
Lemma lstrip_with_suffix cs :
  exists p, cs = p ++ lstrip_with two three cs.
Proof.
  induction cs as [cs IH] using (induction_ltof1 _ (@length ascii)).
  unfold ltof in IH.
  destruct cs as [|c1 r1]; [by exists []|]. simpl.
  destruct (space_1 c1).
  { destruct (IH r1) as [p Hp]; [simpl; lia|].
    exists (c1 :: p). simpl. by rewrite <- Hp. }
  destruct r1 as [|c2 r2]; [by exists []|].
  destruct (two c1 c2).
  { destruct (IH r2) as [p Hp]; [simpl; lia|].
    exists (c1 :: c2 :: p). simpl. by rewrite <- Hp. }
  destruct r2 as [|c3 r3]; [by exists []|].
  destruct (three c1 c2 c3); [|by exists []].
  destruct (IH r3) as [p Hp]; [simpl; lia|].
  exists (c1 :: c2 :: c3 :: p). simpl. by rewrite <- Hp.
Qed.

Lemma lstrip_with_length cs :
  (length (lstrip_with two three cs) <= length cs)%nat.
Proof.
  destruct (lstrip_with_suffix cs) as [p Hp].
  rewrite Hp at 2. rewrite length_app. lia.
Qed.

(** A sequence is left alone exactly when no whitespace starts it. *)
Lemma lstrip_with_fixed cs :
  lstrip_with two three cs = cs <->
  match cs with
  | [] => True
  | c1 :: r1 =>
      space_1 c1 = false
      /\ match r1 with
         | [] => True
         | c2 :: r2 =>
             two c1 c2 = false
             /\ match r2 with
                | [] => True
                | c3 :: _ => three c1 c2 c3 = false
                end
         end
  end.
Proof.
  destruct cs as [|c1 r1]; [done|]. simpl.
  destruct (space_1 c1) eqn:E1.
  { split; [|intros [? _]; done]. intros H.
    pose proof (lstrip_with_length r1) as Hl. rewrite H in Hl. simpl in Hl. lia. }
  destruct r1 as [|c2 r2]; [done|].
  destruct (two c1 c2) eqn:E2.
  { split; [|intros (_ & ? & _); done]. intros H.
    pose proof (lstrip_with_length r2) as Hl. rewrite H in Hl. simpl in Hl. lia. }
  destruct r2 as [|c3 r3]; [done|].
  destruct (three c1 c2 c3) eqn:E3; [|done].
  split; [|intros (_ & _ & ?); done]. intros H.
  pose proof (lstrip_with_length r3) as Hl. rewrite H in Hl. simpl in Hl. lia.
Qed.

(** Stripping twice is stripping once. *)
Lemma lstrip_with_idemp cs :
  lstrip_with two three (lstrip_with two three cs) = lstrip_with two three cs.
Proof.
  induction cs as [cs IH] using (induction_ltof1 _ (@length ascii)).
  unfold ltof in IH.
  destruct cs as [|c1 r1]; [done|]. simpl.
  destruct (space_1 c1) eqn:E1; [apply IH; simpl; lia|].
  destruct r1 as [|c2 r2]; [simpl; by rewrite E1|].
  destruct (two c1 c2) eqn:E2; [apply IH; simpl; lia|].
  destruct r2 as [|c3 r3]; [simpl; by rewrite E1, E2|].
  destruct (three c1 c2 c3) eqn:E3; [apply IH; simpl; lia|].
  simpl. by rewrite E1, E2, E3.
Qed.

(** A head of a sequence that no whitespace starts is left alone too. *)
Lemma lstrip_with_fixed_prefix p q :
  lstrip_with two three (p ++ q) = p ++ q ->
  lstrip_with two three p = p.
Proof.
  rewrite !lstrip_with_fixed.
  destruct p as [|c1 [|c2 [|c3 p]]]; simpl; try done.
  - intros [H1 _]. done.
  - intros (H1 & H2 & _). done.
Qed.
End Lstrip.

Lemma rstrip_bytes_prefix cs : exists q, cs = rstrip_bytes cs ++ q.
Proof.
  unfold rstrip_bytes.
  destruct (lstrip_with_suffix (fun c1 c2 => space_2 c2 c1)
              (fun c1 c2 c3 => space_3 c3 c2 c1) (rev cs)) as [p Hp].
  exists (rev p). rewrite <- rev_app_distr, <- Hp. by rewrite rev_involutive.
Qed.

Lemma rstrip_bytes_idemp cs : rstrip_bytes (rstrip_bytes cs) = rstrip_bytes cs.
Proof.
  unfold rstrip_bytes. by rewrite rev_involutive, lstrip_with_idemp.
Qed.

Lemma strip_bytes_idemp cs :
  rstrip_bytes (lstrip_bytes (rstrip_bytes (lstrip_bytes cs)))
  = rstrip_bytes (lstrip_bytes cs).
Proof.
  assert (Hl : lstrip_bytes (rstrip_bytes (lstrip_bytes cs))
               = rstrip_bytes (lstrip_bytes cs)).
  { destruct (rstrip_bytes_prefix (lstrip_bytes cs)) as [q Hq].
    apply (lstrip_with_fixed_prefix _ _ _ q). rewrite <- Hq.
    apply lstrip_with_idemp. }
  by rewrite Hl, rstrip_bytes_idemp.
Qed.

(** [s.strip().strip() == s.strip()]. *)
Lemma py_strip_idemp s : py_strip (py_strip s) = py_strip s.
Proof.
  unfold py_strip. rewrite list_ascii_of_string_of_list_ascii.
  by rewrite strip_bytes_idemp.
Qed.

Lemma list_ascii_of_string_app s1 s2 :
  list_ascii_of_string (String.append s1 s2)
  = list_ascii_of_string s1 ++ list_ascii_of_string s2.
Proof. induction s1 as [|c s1 IH]; simpl; [done|]. by rewrite IH. Qed.

(** [(" " + s).strip() == s.strip()]. *)
Lemma py_strip_leading_space s :
  py_strip (String.append " " s) = py_strip s.
Proof. done. Qed.

Lemma split_bytes_no_sep sep cs : sep ∉ cs -> split_bytes sep cs = [cs].
Proof.
  induction cs as [|c cs IH]; [done|].
  rewrite not_elem_of_cons. intros [Hne Hnin]. simpl.
  rewrite (proj2 (Ascii.eqb_neq c sep)) by auto. by rewrite IH.
Qed.

Lemma split_bytes_at_sep sep cs rest :
  sep ∉ cs -> split_bytes sep (cs ++ sep :: rest) = cs :: split_bytes sep rest.
Proof.
  induction cs as [|c cs IH]; simpl.
  - intros _. by rewrite Ascii.eqb_refl.
  - rewrite not_elem_of_cons. intros [Hne Hnin].
    rewrite (proj2 (Ascii.eqb_neq c sep)) by auto. by rewrite IH.
Qed.

Lemma split_bytes_pieces sep cs piece :
  piece ∈ split_bytes sep cs -> sep ∉ piece.
Proof.
  revert piece. induction cs as [|c cs IH]; intros piece; simpl.
  - intros ->%list_elem_of_singleton. apply not_elem_of_nil.
  - destruct (Ascii.eqb_spec c sep) as [->|Hne].
    + intros [->|Hin]%elem_of_cons; [apply not_elem_of_nil|by apply IH].
    + destruct (split_bytes sep cs) as [|p ps] eqn:E.
      * intros ->%list_elem_of_singleton.
        rewrite not_elem_of_cons. split; [auto|apply not_elem_of_nil].
      * intros [->|Hin]%elem_of_cons.
        -- rewrite not_elem_of_cons. split; [auto|].
           apply IH. apply list_elem_of_here.
        -- apply IH. by apply list_elem_of_further.
Qed.

Lemma split_bytes_cons_other sep c cs :
  c <> sep ->
  exists piece pieces,
    split_bytes sep cs = piece :: pieces
    /\ split_bytes sep (c :: cs) = (c :: piece) :: pieces.
Proof.
  intros Hne. simpl. rewrite (proj2 (Ascii.eqb_neq c sep)) by done.
  assert (Hnonempty : forall l, split_bytes sep l <> []).
  { intros l. destruct l as [|x l]; simpl; [done|].
    destruct (Ascii.eqb x sep); [done|]. by destruct (split_bytes sep l). }
  destruct (split_bytes sep cs) as [|piece pieces] eqn:E.
  - by destruct (Hnonempty cs).
  - by exists piece, pieces.
Qed.

(** [[k.strip() for k in (" " + s).split(',')]] is the list for [s]. *)
Lemma split_strip_leading_space s :
  split_strip (String " " s) = split_strip s.
Proof.
  unfold split_strip, py_split_comma. simpl list_ascii_of_string.
  assert (Hne : " "%char <> ","%char) by discriminate.
  destruct (split_bytes_cons_other "," " " (list_ascii_of_string s) Hne)
    as (piece & pieces & -> & ->).
  simpl. f_equal.
Qed.

Lemma split_strip_word w : stripped_word w -> split_strip w = [w].
Proof.
  intros [Hcomma Hstrip]. unfold split_strip, py_split_comma.
  rewrite split_bytes_no_sep by done. simpl.
  by rewrite string_of_list_ascii_of_string, Hstrip.
Qed.

Lemma split_strip_word_comma w rest :
  stripped_word w ->
  split_strip (String.append w (String.append ", " rest))
  = w :: split_strip rest.
Proof.
  intros [Hcomma Hstrip]. rewrite <- (split_strip_leading_space rest).
  unfold split_strip, py_split_comma.
  rewrite list_ascii_of_string_app. simpl list_ascii_of_string.
  rewrite split_bytes_at_sep by done. simpl.
  by rewrite string_of_list_ascii_of_string, Hstrip.
Qed.

(** Joining stripped words and splitting again gives the words back. *)
Lemma split_strip_join ws :
  ws <> [] -> Forall stripped_word ws -> split_strip (py_join ", " ws) = ws.
Proof.
  intros Hne Hall. induction Hall as [|w ws Hw Hws IH]; [done|].
  destruct ws as [|w' ws].
  - simpl. by apply split_strip_word.
  - change (py_join ", " (w :: w' :: ws))
      with (String.append w (String.append ", " (py_join ", " (w' :: ws)))).
    rewrite split_strip_word_comma by done. f_equal. by apply IH.
Qed.

Lemma py_join_nonempty sep w ws : w <> EmptyString -> py_join sep (w :: ws) <> EmptyString.
Proof.
  intros Hw. destruct ws as [|w' ws]; simpl; [done|].
  destruct w; [done|]. discriminate.
Qed.

Lemma strip_bytes_subset c cs :
  c ∈ rstrip_bytes (lstrip_bytes cs) -> c ∈ cs.
Proof.
  intros Hc.
  destruct (rstrip_bytes_prefix (lstrip_bytes cs)) as [q Hq].
  destruct (lstrip_with_suffix space_2 space_3 cs) as [p Hp].
  rewrite Hp. apply elem_of_app. right. fold (lstrip_bytes cs).
  rewrite Hq. apply elem_of_app. by left.
Qed.

(** Every piece of a split cell is a stripped word. *)
Lemma split_strip_stripped s : Forall stripped_word (split_strip s).
Proof.
  apply Forall_forall. intros w Hw. unfold split_strip in Hw.
  apply list_elem_of_fmap in Hw as (piece & -> & Hpiece).
  split; [|apply py_strip_idemp].
  unfold py_split_comma in Hpiece.
  apply list_elem_of_fmap in Hpiece as (bs & -> & Hbs).
  apply split_bytes_pieces in Hbs. unfold py_strip.
  rewrite !list_ascii_of_string_of_list_ascii.
  intros Hin. apply Hbs. by apply strip_bytes_subset in Hin.
Qed.

(** ** Sheet rows *)

Lemma parse_taste_notes_plain notes_cell :
  Forall plain_word (parse_taste_notes notes_cell).
Proof.
  unfold parse_taste_notes.
  destruct (decide (notes_cell = EmptyString)); [done|].
  apply Forall_forall. intros w [Hne Hw]%list_elem_of_filter.
  split; [done|].
  pose proof (split_strip_stripped notes_cell) as Hall.
  rewrite Forall_forall in Hall. by apply Hall.
Qed.

Lemma parse_taste_notes_join notes :
  Forall plain_word notes -> parse_taste_notes (py_join ", " notes) = notes.
Proof.
  intros Hall. unfold parse_taste_notes.
  destruct notes as [|w ws]; [done|].
  rewrite decide_False.
  2:{ apply py_join_nonempty. by apply Forall_cons in Hall as [[? _] _]. }
  rewrite split_strip_join; [|done|].
  - clear -Hall. induction Hall as [|x l [Hx _] _ IH]; [done|].
    rewrite filter_cons_True by done. by rewrite IH.
  - eapply Forall_impl; [exact Hall|]. by intros x [_ ?].
Qed.

(** X12: the tags of a record survive the sheet.  Whatever a tag cell holds,
    the tags parsed from it are not empty, hold no comma and have no
    whitespace at either end; and a list of such tags, written as
    [save_whiskey_record] writes it, is parsed back as it was. *)
Theorem taste_notes_round_trip :
  (forall notes_cell, Forall plain_word (parse_taste_notes notes_cell))
  /\ (forall r notes,
        taste_notes r = Some notes ->
        Forall plain_word notes ->
        parse_taste_notes (taste_notes_str r) = notes)
  /\ (forall notes_cell,
        parse_taste_notes
          (py_join ", " (parse_taste_notes notes_cell))
        = parse_taste_notes notes_cell).
Proof.
  split_and!.
  - apply parse_taste_notes_plain.
  - intros r notes Hr Hall. unfold taste_notes_str. rewrite Hr. simpl.
    by apply parse_taste_notes_join.
  - intros notes_cell. apply parse_taste_notes_join, parse_taste_notes_plain.
Qed.











(** ** Timestamps and the stable descending sort by a key *)

Lemma string_compare_ge_trans a b c :
  String.compare a b <> Lt -> String.compare b c <> Lt ->
  String.compare a c <> Lt.
Proof.
  revert b c. induction a as [|x a IH]; intros [|y b] [|z c]; simpl;
    try done.
  unfold Ascii.compare.
  destruct (N.compare_spec (N_of_ascii x) (N_of_ascii y)) as [Hxy|Hxy|Hxy];
    destruct (N.compare_spec (N_of_ascii y) (N_of_ascii z)) as [Hyz|Hyz|Hyz];
    destruct (N.compare_spec (N_of_ascii x) (N_of_ascii z)) as [Hxz|Hxz|Hxz];
    try done; try lia.
  apply IH.
Qed.

Lemma older_asym x y : older x y = true -> older y x = false.
Proof.
  unfold older, String.ltb. rewrite (String.compare_antisym
    (record_timestamp y)). by destruct (String.compare _ _).
Qed.

Lemma not_older_trans x y z :
  older x y = false -> older y z = false -> older x z = false.
Proof.
  unfold older, String.ltb. intros Hxy Hyz.
  pose proof (string_compare_ge_trans (record_timestamp x)
                (record_timestamp y) (record_timestamp z)) as Ht.
  destruct (String.compare (record_timestamp x) (record_timestamp y));
    destruct (String.compare (record_timestamp y) (record_timestamp z));
    destruct (String.compare (record_timestamp x) (record_timestamp z));
    try done; exfalso; by apply Ht.
Qed.

Section SortDescBy.
Context {A : Type} (ltb : A -> A -> bool).
Hypothesis ltb_asym : forall x y, ltb x y = true -> ltb y x = false.
Hypothesis not_ltb_trans :
  forall x y z, ltb x y = false -> ltb y z = false -> ltb x z = false.

Lemma insert_desc_by_perm x l : insert_desc_by ltb x l ≡ₚ x :: l.
Proof.
  induction l as [|y l IH]; simpl; [done|].
  destruct (ltb x y); [|done]. by rewrite IH, Permutation_swap.
Qed.

Lemma sort_desc_by_perm l : sort_desc_by ltb l ≡ₚ l.
Proof.
  induction l as [|x l IH]; simpl; [done|].
  by rewrite insert_desc_by_perm, IH.
Qed.

Lemma insert_desc_by_sorted x l :
  StronglySorted (fun a b => ltb a b = false) l ->
  StronglySorted (fun a b => ltb a b = false) (insert_desc_by ltb x l).
Proof.
  induction 1 as [|y l Hl IH Hy]; simpl; [by repeat constructor|].
  destruct (ltb x y) eqn:E.
  - constructor; [done|]. rewrite insert_desc_by_perm.
    constructor; [by apply ltb_asym|done].
  - constructor; [by constructor|]. constructor; [done|].
    eapply Forall_impl; [exact Hy|]. intros z Hz. by eapply not_ltb_trans.
Qed.

Lemma sort_desc_by_sorted l :
  StronglySorted (fun a b => ltb a b = false) (sort_desc_by ltb l).
Proof.
  induction l as [|x l IH]; simpl; [constructor|].
  by apply insert_desc_by_sorted.
Qed.

Lemma insert_desc_by_split x l :
  exists l1 l2,
    l = l1 ++ l2
    /\ insert_desc_by ltb x l = l1 ++ x :: l2
    /\ Forall (fun z => ltb x z = true) l1.
Proof.
  induction l as [|y l (l1 & l2 & -> & Hins & Hall)]; simpl.
  - by exists [], [].
  - destruct (ltb x y) eqn:E.
    + exists (y :: l1), l2. rewrite Hins. by repeat constructor.
    + by exists [], (y :: l1 ++ l2).
Qed.

(** Two elements change places only when the later one has the greater
    key. *)
Lemma sort_desc_by_stable a b l :
  before a b l -> ltb a b = false -> before a b (sort_desc_by ltb l).
Proof.
  intros Hab Hnb. induction l as [|x l IH]; simpl.
  - destruct Hab as (l1 & l2 & l3 & Heq). by destruct l1.
  - destruct Hab as (l1 & l2 & l3 & Heq). destruct l1 as [|y l1]; simpl in Heq.
    + injection Heq as -> ->.
      destruct (insert_desc_by_split a (sort_desc_by ltb (l2 ++ b :: l3)))
        as (k1 & k2 & Hk & -> & Hall).
      assert (Hb : b ∈ k1 ++ k2).
      { rewrite <- Hk, sort_desc_by_perm. apply elem_of_app. right.
        apply list_elem_of_here. }
      apply elem_of_app in Hb as [Hb|Hb].
      * rewrite Forall_forall in Hall. specialize (Hall _ Hb). congruence.
      * apply list_elem_of_split in Hb as (k3 & k4 & ->). by exists k1, k3, k4.
    + injection Heq as -> ->.
      assert (Hb : before a b (sort_desc_by ltb (l1 ++ a :: l2 ++ b :: l3)))
        by (apply IH; by exists l1, l2, l3).
      apply before_sublist in Hb. apply before_sublist.
      destruct (insert_desc_by_split y
                  (sort_desc_by ltb (l1 ++ a :: l2 ++ b :: l3)))
        as (k1 & k2 & Hk & -> & _).
      rewrite Hk in Hb. etrans; [exact Hb|].
      apply sublist_app; [done|]. by apply sublist_cons.
Qed.
End SortDescBy.


Section SortFilter.
Context {A : Type} (ltb : A -> A -> bool).
Context (P : A -> Prop) `{!forall x, Decision (P x)}.
Hypothesis ltb_asym : forall x y, ltb x y = true -> ltb y x = false.
Hypothesis not_ltb_trans :
  forall x y z, ltb x y = false -> ltb y z = false -> ltb x z = false.

Lemma insert_desc_by_head x l :
  Forall (fun z => ltb x z = false) l -> insert_desc_by ltb x l = x :: l.
Proof. intros Hall. destruct Hall as [|y l Hy _]; simpl; [done|]. by rewrite Hy. Qed.

Lemma filter_insert_desc_by x l :
  StronglySorted (fun a b => ltb a b = false) l ->
  filter P (insert_desc_by ltb x l)
  = if decide (P x) then insert_desc_by ltb x (filter P l) else filter P l.
Proof.
  induction 1 as [|y l Hl IH Hy]; simpl.
  - rewrite filter_cons, filter_nil. by destruct (decide (P x)).
  - destruct (ltb x y) eqn:E.
    + rewrite !(filter_cons _ y), IH.
      destruct (decide (P y)), (decide (P x)); simpl; by rewrite ?E.
    + rewrite (filter_cons _ x). destruct (decide (P x)); [|done].
      rewrite insert_desc_by_head; [done|].
      apply Forall_forall. intros z Hz%list_elem_of_filter.
      destruct Hz as [_ Hz]. apply elem_of_cons in Hz as [->|Hz]; [done|].
      rewrite Forall_forall in Hy. eapply not_ltb_trans; [exact E|by apply Hy].
Qed.

(** Filtering commutes with the stable descending sort. *)
Lemma filter_sort_desc_by l :
  filter P (sort_desc_by ltb l) = sort_desc_by ltb (filter P l).
Proof.
  induction l as [|x l IH]; simpl; [done|].
  rewrite filter_insert_desc_by by by apply sort_desc_by_sorted.
  rewrite filter_cons. destruct (decide (P x)); simpl; by rewrite IH.
Qed.
End SortFilter.

(** ** The record store *)



Lemma is_deleted_mark_deleted deleted_at r :
  is_deleted (mark_deleted deleted_at r) = true.
Proof. done. Qed.

Lemma soft_delete_record_first l1 r l2 id uid deleted_at :
  Forall (fun x => ~ delete_target id uid x) l1 ->
  delete_target id uid r ->
  WhiskeyDataManager.soft_delete_record (l1 ++ r :: l2) id uid deleted_at
  = l1 ++ mark_deleted deleted_at r :: l2.
Proof.
  intros Hl1 [Hid Hu]. induction Hl1 as [|x l1 Hx _ IH]; simpl.
  - by rewrite !bool_decide_eq_true_2.
  - rewrite IH. destruct (bool_decide (record_id x = id)) eqn:E1;
      destruct (bool_decide (user_id (tasting x) = Some uid)) eqn:E2;
      simpl; try done.
    exfalso. apply Hx. split; by eapply bool_decide_eq_true_1.
Qed.

Lemma soft_delete_record_none rs id uid deleted_at :
  Forall (fun x => ~ delete_target id uid x) rs ->
  WhiskeyDataManager.soft_delete_record rs id uid deleted_at = rs.
Proof.
  induction 1 as [|x l1 Hx _ IH]; simpl; [done|].
  rewrite IH. destruct (bool_decide (record_id x = id)) eqn:E1;
    destruct (bool_decide (user_id (tasting x) = Some uid)) eqn:E2;
    simpl; try done.
  exfalso. apply Hx. split; by eapply bool_decide_eq_true_1.
Qed.

Lemma memory_user_records sheets rs uid :
  is_connected sheets = false ->
  WhiskeyDataManager.get_user_records
    {| sheets_manager := sheets; records := rs |} uid
  = sort_desc_by older (filter (listed_for uid) rs).
Proof.
  intros Hc. unfold WhiskeyDataManager.get_user_records,
    WhiskeyDataManager.get_all_records. simpl. rewrite Hc.
  apply (filter_sort_desc_by older (listed_for uid));
    [apply older_asym|apply not_older_trans].
Qed.


Lemma filter_empty_rows (rows : list (list string)) :
  Forall (Forall (fun c => c = EmptyString)) rows ->
  filter (fun row => Exists (fun c => c <> EmptyString) row) rows = [].
Proof.
  induction 1 as [|row rows Hrow _ IH]; [done|].
  rewrite filter_cons_False; [done|].
  intros Hex. apply Exists_exists in Hex as (c & Hc & Hne).
  rewrite Forall_forall in Hrow. by apply Hne, Hrow.
Qed.

Lemma sheet_all_unavailable sheets :
  is_connected sheets = false
  \/ worksheet sheets = None
  \/ (exists values,
        worksheet sheets = Some values
        /\ Forall (Forall (fun c => c = EmptyString)) (drop 1 values)) ->
  GoogleSheetsManager.get_all_whiskey_records sheets = [].
Proof.
  unfold GoogleSheetsManager.get_all_whiskey_records.
  intros [Hc|[Hw|(values & Hw & Hrows)]].
  - by rewrite Hc.
  - rewrite Hw. by destruct (negb _).
  - rewrite Hw. destruct (negb _); [done|].
    destruct (length values <=? 1)%nat; [done|].
    by rewrite filter_empty_rows.
Qed.

Lemma py_join_comma_nonempty ws w :
  w <> EmptyString -> py_join ", " (ws ++ [w]) <> EmptyString.
Proof.
  intros Hw. destruct ws as [|x [|y ws]]; simpl; [done| |];
    destruct x; discriminate.
Qed.





(** X17: a soft delete in the memory store.  The first record with that id
    and that owner gets the deletion mark on its memo and stays in the store
    at its place; every other record is untouched, and without such a
    record nothing changes.  For every user the listing is, from then on,
    the listing of the store without that record, and the owner's record
    count drops by one when the record was listed. *)
Theorem soft_delete_hides_record (sheets : Sheets)
    (l1 l2 : list StoredRecord) (r : StoredRecord)
    (id uid deleted_at : string) :
  is_connected sheets = false ->
  Forall (fun x => ~ delete_target id uid x) l1 ->
  delete_target id uid r ->
  let store := {| sheets_manager := sheets; records := l1 ++ r :: l2 |} in
  let store' :=
    {| sheets_manager := sheets;
       records := WhiskeyDataManager.soft_delete_record
                    (records store) id uid deleted_at |} in
  records store' = l1 ++ mark_deleted deleted_at r :: l2
  /\ is_deleted (mark_deleted deleted_at r) = true
  /\ WhiskeyDataManager.get_all_records store'
     ≡ₚ l1 ++ mark_deleted deleted_at r :: l2
  /\ (forall v,
        WhiskeyDataManager.get_user_records store' v
        = WhiskeyDataManager.get_user_records
            {| sheets_manager := sheets; records := l1 ++ l2 |} v)
  /\ (is_deleted r = false -> py_strip uid = uid ->
      WhiskeyDataManager.get_user_records_count store' uid
      = WhiskeyDataManager.get_user_records_count store uid - 1)
  /\ (forall rs,
        Forall (fun x => ~ delete_target id uid x) rs ->
        WhiskeyDataManager.soft_delete_record rs id uid deleted_at = rs).
Proof.
  intros Hc Hl1 Hr store store'. subst store store'. simpl.
  rewrite (soft_delete_record_first _ _ _ _ _ _ Hl1 Hr).
  assert (Hlist : forall v,
    filter (listed_for v) (l1 ++ mark_deleted deleted_at r :: l2)
    = filter (listed_for v) (l1 ++ l2)).
  { intros v. rewrite !filter_app, filter_cons_False; [done|].
    intros [_ Hd]. by rewrite is_deleted_mark_deleted in Hd. }
  split_and!; try done.
  - unfold WhiskeyDataManager.get_all_records. simpl. rewrite Hc.
    apply sort_desc_by_perm.
  - intros v. by rewrite !memory_user_records, Hlist by done.
  - intros Hd Hs. unfold WhiskeyDataManager.get_user_records_count.
    rewrite !memory_user_records by done.
    rewrite !(Permutation_length (sort_desc_by_perm older _)), Hlist.
    rewrite !filter_app, filter_cons_True.
    2:{ destruct Hr as [_ Hu]. split; [by rewrite Hu|done]. }
    rewrite !length_app. simpl. lia.
  - intros rs. apply soft_delete_record_none.
Qed.

Lemma soft_delete_hides_record_witness :
  map record_id
      (WhiskeyDataManager.get_user_records
         {| sheets_manager := {| is_connected := false; worksheet := None |};
            records := WhiskeyDataManager.soft_delete_record sample_memory
                         "1736065800.0" "u1" "2025-01-06 10:00" |} "u1")
  = ["1735812000.0"%string].
Proof.
  destruct (soft_delete_hides_record
              {| is_connected := false; worksheet := None |}
              (take 1 sample_memory) (drop 2 sample_memory)
              {| record_id := "1736065800.0";
                 record_timestamp := "2025-01-05T09:30:00";
                 record_date := "2025-01-05"; record_username := "kim";
                 record_keyword := "";
                 tasting := sample_record "u1" "Ardbeg 10" ["peaty"] 5
                                          "피트" |}
              "1736065800.0" "u1" "2025-01-06 10:00" eq_refl)
    as (_ & _ & _ & Hlist & _).
  - apply Forall_cons_2; [|apply Forall_nil_2]. intros [Hid _]. discriminate.
  - split; reflexivity.
  - transitivity
      (map record_id
           (WhiskeyDataManager.get_user_records
              {| sheets_manager :=
                   {| is_connected := false; worksheet := None |};
                 records := take 1 sample_memory ++ drop 2 sample_memory |}
              "u1")).
    + exact (f_equal (map record_id) (Hlist "u1"%string)).
    + vm_compute. reflexivity.
Defined.

(** X18: the fallback to the memory store.  When the sheet is not
    connected, or reading it fails, or it has no data row with a non-empty
    cell, the data manager answers from the memory store: all its records,
    newest first, and for a user the records whose stripped user id is the
    user and that carry no deletion mark, newest first. *)
Theorem sheet_unavailable_falls_back_to_memory (store : Store) :
  is_connected (sheets_manager store) = false
  \/ worksheet (sheets_manager store) = None
  \/ (exists values,
        worksheet (sheets_manager store) = Some values
        /\ Forall (Forall (fun c => c = EmptyString)) (drop 1 values)) ->
  WhiskeyDataManager.get_all_records store
  = sort_desc_by older (records store)
  /\ WhiskeyDataManager.get_all_records store ≡ₚ records store
  /\ (forall uid,
        WhiskeyDataManager.get_user_records store uid
        = sort_desc_by older (filter (listed_for uid) (records store)))
  /\ (forall uid r,
        r ∈ WhiskeyDataManager.get_user_records store uid
        <-> r ∈ records store /\ listed_for uid r).
Proof.
  intros Hs. apply sheet_all_unavailable in Hs.
  assert (Hall : WhiskeyDataManager.get_all_records store
                 = sort_desc_by older (records store)).
  { unfold WhiskeyDataManager.get_all_records. rewrite Hs.
    by destruct (is_connected _). }
  assert (Huser : forall uid,
    WhiskeyDataManager.get_user_records store uid
    = sort_desc_by older (filter (listed_for uid) (records store))).
  { intros uid. unfold WhiskeyDataManager.get_user_records.
    unfold GoogleSheetsManager.get_user_whiskey_records_visible,
      GoogleSheetsManager.get_user_whiskey_records.
    rewrite Hs, Hall.
    replace (if is_connected (sheets_manager store)
             then if negb (is_connected (sheets_manager store)) then []
                  else filter (fun r => is_deleted r = false)
                         (if negb (is_connected (sheets_manager store))
                          then []
                          else filter (fun r => user_id (tasting r) = Some uid)
                                      [])
             else []) with (@nil StoredRecord)
      by (by destruct (is_connected _)).
    apply (filter_sort_desc_by older (listed_for uid));
      [apply older_asym|apply not_older_trans]. }
  split_and!; try done.
  - rewrite Hall. apply sort_desc_by_perm.
  - intros uid r. rewrite Huser, sort_desc_by_perm, list_elem_of_filter.
    tauto.
Qed.

Lemma sheet_unavailable_falls_back_to_memory_witness :
  map record_id
      (WhiskeyDataManager.get_all_records (sample_store sample_memory))
  = ["1736065800.0"; "1735988400.0"; "1735812000.0"]%string.
Proof.
  rewrite (proj1 (sheet_unavailable_falls_back_to_memory
                    (sample_store sample_memory) (or_introl eq_refl))).
  vm_compute. reflexivity.
Defined.

(** X19: adding a keyword that is a plain word (not empty, no comma, no
    blank at either end).  When the cell is rewritten, the keywords read
    from the new cell are the old ones followed by the new one, and adding
    the same keyword again writes nothing; when nothing is written, the
    keyword was among the keywords of the cell. *)
Theorem add_keyword_once (current_keywords keyword : string) :
  plain_word keyword ->
  match add_keyword current_keywords keyword with
  | Some new_keywords =>
      parse_keywords new_keywords
      = parse_keywords current_keywords ++ [keyword]
      /\ (keyword ∉ parse_keywords current_keywords)
      /\ add_keyword new_keywords keyword = None
  | None => keyword ∈ parse_keywords current_keywords
  end.
Proof.
  intros [Hne Hw]. unfold add_keyword, parse_keywords.
  destruct (decide (current_keywords = EmptyString)) as [->|Hcur].
  - simpl. rewrite !decide_False by done.
    rewrite split_strip_word by done.
    split_and!; [done|apply not_elem_of_nil|].
    rewrite decide_True; [done|apply list_elem_of_here].
  - destruct (decide (keyword ∈ split_strip current_keywords)) as [Hin|Hin];
      [done|].
    assert (Hnew : py_join ", " (split_strip current_keywords ++ [keyword])
                   <> EmptyString) by by apply py_join_comma_nonempty.
    rewrite !decide_False by done.
    rewrite split_strip_join.
    + split_and!; [done|done|].
      rewrite decide_True; [done|]. apply elem_of_app. right.
      apply list_elem_of_here.
    + by destruct (split_strip current_keywords).
    + apply Forall_app. split; [apply split_strip_stripped|].
      by apply Forall_cons_2; [|apply Forall_nil_2].
Qed.

Lemma add_keyword_once_witness :
  add_keyword "피트, 스모키" "바닐라" = Some "피트, 스모키, 바닐라"%string
  /\ parse_keywords "피트, 스모키, 바닐라"
     = ["피트"; "스모키"; "바닐라"]%string
  /\ add_keyword "피트, 스모키, 바닐라" "바닐라" = None.
Proof.
  assert (Hplain : plain_word "바닐라").
  { split; [discriminate|split;
      [apply (bool_decide_unpack _); vm_compute; exact I
      |vm_compute; reflexivity]]. }
  pose proof (add_keyword_once "피트, 스모키" "바닐라" Hplain) as H.
  assert (Hadd : add_keyword "피트, 스모키" "바닐라"
                 = Some "피트, 스모키, 바닐라"%string)
    by (vm_compute; reflexivity).
  rewrite Hadd in H. destruct H as (Hp & _ & Hagain).
  split_and!; [done| |done]. rewrite Hp. vm_compute. reflexivity.
Defined.

(** X20: a keyword with a comma, or with a blank at either end, is never
    recognised as saved.  Whatever the cell holds, the cell is rewritten,
    the new cell is not empty, and the keyword is not among the keywords
    read from the new cell; the next addition of the same keyword writes
    again. *)
Theorem add_keyword_never_settles (current_keywords keyword : string) :
  ~ stripped_word keyword ->
  exists new_keywords,
    add_keyword current_keywords keyword = Some new_keywords
    /\ new_keywords <> EmptyString
    /\ (keyword ∉ parse_keywords new_keywords)
    /\ add_keyword new_keywords keyword <> None.
Proof.
  intros Hw.
  assert (Hne : keyword <> EmptyString).
  { intros ->. apply Hw. split; [apply not_elem_of_nil|done]. }
  assert (Hnot : forall s, keyword ∉ split_strip s).
  { intros s Hin. apply Hw.
    pose proof (split_strip_stripped s) as Hall.
    rewrite Forall_forall in Hall. by apply Hall. }
  assert (Hadd : forall s, exists new_keywords,
    add_keyword s keyword = Some new_keywords
    /\ new_keywords <> EmptyString).
  { intros s. unfold add_keyword.
    destruct (decide (s = EmptyString)); [by eexists|].
    rewrite decide_False by apply Hnot. eexists. split; [done|].
    by apply py_join_comma_nonempty. }
  destruct (Hadd current_keywords) as (new_keywords & Hnew & Hnonempty).
  exists new_keywords. split_and!; try done.
  - unfold parse_keywords. rewrite decide_False by done. apply Hnot.
  - destruct (Hadd new_keywords) as (again & -> & _). done.
Qed.

Lemma add_keyword_never_settles_witness :
  exists new_keywords,
    add_keyword "피트" "a,b" = Some new_keywords
    /\ new_keywords <> EmptyString
    /\ ("a,b"%string ∉ parse_keywords new_keywords)
    /\ add_keyword new_keywords "a,b" <> None.
Proof.
  apply (add_keyword_never_settles "피트" "a,b").
  intros [Hcomma _]. apply Hcomma.
  apply (bool_decide_unpack _). vm_compute. exact I.
Defined.

(** ** Display of word counts and progress *)

Lemma fewer_asym x y : fewer x y = true -> fewer y x = false.
Proof. unfold fewer. intros H%Z.ltb_lt. apply Z.ltb_ge. lia. Qed.

Lemma not_fewer_trans x y z :
  fewer x y = false -> fewer y z = false -> fewer x z = false.
Proof.
  unfold fewer. intros H1%Z.ltb_ge H2%Z.ltb_ge. apply Z.ltb_ge. lia.
Qed.

Lemma StronglySorted_mono {A : Type} (R1 R2 : A -> A -> Prop) l :
  (forall x y, R1 x y -> R2 x y) -> StronglySorted R1 l -> StronglySorted R2 l.
Proof.
  intros HR. induction 1 as [|x l Hl IH Hx]; constructor; [done|].
  eapply Forall_impl; [exact Hx|]. intros y. apply HR.
Qed.

(** X21: the word display shows the most frequent words.  For a non-empty
    dictionary whose counts are all 1 or more, and a limit that is not
    negative, nothing raises and the words shown are the limit's number of
    items of the dictionary (all of them when there are fewer), in
    descending order of count; no word left out has a greater count than a
    word shown.  The words shown are the head of the whole dictionary in
    descending order of count, in which words with equal counts keep the
    order of the dictionary.  An empty dictionary gives the placeholder. *)
Theorem wordcloud_display_top_words (word_counts : dict Z) (max_words : Z) :
  0 <= max_words -> word_counts <> [] ->
  Forall (fun kv => 1 <= snd kv) word_counts ->
  exists shown hidden,
    _create_wordcloud_display word_counts max_words = WordsShown shown
    /\ shown ++ hidden ≡ₚ word_counts
    /\ length shown = Nat.min (Z.to_nat max_words) (length word_counts)
    /\ StronglySorted (fun x y => snd y <= snd x) (shown ++ hidden)
    /\ (forall x y, x ∈ shown -> y ∈ hidden -> snd y <= snd x)
    /\ (forall x y,
          before x y word_counts -> snd y <= snd x ->
          before x y (shown ++ hidden))
    /\ _create_wordcloud_display [] max_words = NoWordsYet.
Proof.
  intros Hmax Hne Hpos.
  set (sorted := sort_desc_by fewer word_counts).
  assert (Hperm : sorted ≡ₚ word_counts) by apply sort_desc_by_perm.
  assert (Hsorted : StronglySorted (fun x y => snd y <= snd x) sorted).
  { eapply StronglySorted_mono; [|
      apply (sort_desc_by_sorted fewer fewer_asym not_fewer_trans)].
    intros x y H. by apply Z.ltb_ge in H. }
  assert (Hslice : py_slice_to sorted max_words
                   = take (Z.to_nat max_words) sorted).
  { unfold py_slice_to. destruct (max_words <? 0) eqn:E; [|done].
    apply Z.ltb_lt in E. lia. }
  exists (take (Z.to_nat max_words) sorted),
         (drop (Z.to_nat max_words) sorted).
  rewrite take_drop.
  split_and!; try done.
  - unfold _create_wordcloud_display. fold sorted. rewrite Hslice.
    destruct word_counts as [|kv0 rest]; [done|].
    destruct (take (Z.to_nat max_words) sorted) as [|[w c] shown] eqn:E;
      [done|].
    assert (Hin : (w, c) ∈ kv0 :: rest).
    { rewrite <- Hperm. eapply elem_of_sublist; [|apply sublist_take].
      rewrite E. apply list_elem_of_here. }
    rewrite Forall_forall in Hpos. specialize (Hpos _ Hin). simpl in Hpos.
    destruct (c =? 0) eqn:Ec; [|done]. apply Z.eqb_eq in Ec. lia.
  - by rewrite length_take, Hperm.
  - intros x y Hx Hy. rewrite <- (take_drop (Z.to_nat max_words)) in Hsorted.
    by apply (StronglySorted_app_1_elem_of _ _ _ _ _ Hsorted).
  - intros x y Hxy Hle.
    apply sort_desc_by_stable; [done|].
    unfold fewer. apply Z.ltb_ge. lia.
Qed.

Lemma wordcloud_display_top_words_witness :
  _create_wordcloud_display
    [("꿀", 2); ("바닐라", 5); ("오크", 2); ("피트", 3)]%string 2
  = WordsShown [("바닐라", 5); ("피트", 3)]%string.
Proof.
  destruct (wordcloud_display_top_words
              [("꿀", 2); ("바닐라", 5); ("오크", 2); ("피트", 3)]%string 2)
    as (shown & hidden & Hshown & _); [lia|done| |].
  - repeat (apply Forall_cons_2; [simpl; lia|]). apply Forall_nil_2.
  - rewrite Hshown. vm_compute in Hshown. by injection Hshown as <-.
Defined.

(** X22: the progress line of the glass.  For every record count the line
    announces how many more records complete the next glass: that number is
    between 1 and 10, and with that many more records the count is ten times
    the announced glass number.  The line that reports completed glasses is
    never shown, also when the count is a multiple of ten. *)
Theorem glass_message_counts_to_next_glass (record_count : Z) :
  exists remaining glass,
    _create_whiskey_glass record_count = MoreToComplete remaining glass
    /\ 1 <= remaining <= 10
    /\ record_count + remaining = 10 * glass
    /\ (0 <= record_count -> 1 <= glass)
    /\ forall store uid,
         exists remaining' glass',
           update_glass store uid = MoreToComplete remaining' glass'
           /\ 1 <= glass'
           /\ Z.of_nat (length (WhiskeyDataManager.get_user_records store uid))
              + remaining' = 10 * glass'.
Proof.
  assert (Hgen : forall n,
    _create_whiskey_glass n = MoreToComplete (10 - n mod 10) (n / 10 + 1)).
  { intros n. unfold _create_whiskey_glass.
    pose proof (Z.mod_pos_bound n 10 ltac:(lia)) as Hb.
    destruct (n mod 10 <? 10) eqn:E; [done|]. apply Z.ltb_ge in E. lia. }
  exists (10 - record_count mod 10), (record_count / 10 + 1).
  pose proof (Z.mod_pos_bound record_count 10 ltac:(lia)) as Hb.
  pose proof (Z.div_mod record_count 10 ltac:(lia)) as Hd.
  split; [apply Hgen|]. split; [lia|]. split; [lia|]. split.
  - intros Hn. pose proof (Z.div_pos record_count 10 Hn ltac:(lia)). lia.
  - intros store uid. unfold update_glass,
      WhiskeyDataManager.get_user_records_count.
    set (n := Z.of_nat (length (WhiskeyDataManager.get_user_records store uid))).
    exists (10 - n mod 10), (n / 10 + 1).
    pose proof (Z.mod_pos_bound n 10 ltac:(lia)) as Hb'.
    pose proof (Z.div_mod n 10 ltac:(lia)) as Hd'.
    pose proof (Z.div_pos n 10 ltac:(lia) ltac:(lia)).
    split; [apply Hgen|]. split; lia.
Qed.

(** ** The notes cards of the archive page *)

Lemma notes_card (keep : TastingRecord -> Prop)
    `{!forall r, Decision (keep r)} (limit : nat) rs (d : dict num) :
  (2 <= limit)%nat ->
  dict_keys d = first_seen (tags_of keep rs) ->
  panel_for keep limit rs
    match d with
    | [] => NoNotesYet
    | _ =>
        NotesShown
          (take 2 (map (fun kv => _note_to_korean (fst kv)) (sorted_desc d)))
          (take limit
                (map (fun kv => _note_to_korean (fst kv)) (sorted_desc d)))
    end.
Proof.
  intros Hlimit Hkeys. destruct d as [|kv0 d0].
  - simpl. intros r t Hr Hk Ht.
    assert (Hin : t ∈ first_seen (tags_of keep rs))
      by (apply tags_of_elem; by exists r).
    rewrite <- Hkeys in Hin. by apply elem_of_nil in Hin.
  - remember (kv0 :: d0) as d eqn:Hd.
    assert (Hne : (1 <= length d)%nat) by (rewrite Hd; simpl; lia).
    clear Hd.
    set (names := map (fun kv => _note_to_korean (fst kv)) (sorted_desc d)).
    assert (Hlen : length names = length (first_seen (tags_of keep rs))).
    { unfold names. rewrite length_map, (Permutation_length (sorted_desc_perm d)).
      rewrite <- Hkeys. unfold dict_keys. by rewrite length_map. }
    simpl. split_and!.
    + rewrite take_take. f_equal. lia.
    + by rewrite length_take, Hlen.
    + rewrite length_take, Hlen, <- Hkeys. unfold dict_keys.
      rewrite length_map. lia.
    + intros name Hname.
      assert (Hin : name ∈ names)
        by (eapply elem_of_sublist; [exact Hname|apply sublist_take]).
      unfold names in Hin. apply list_elem_of_fmap in Hin as (kv' & -> & Hkv).
      rewrite sorted_desc_perm in Hkv.
      assert (Hkey : fst kv' ∈ first_seen (tags_of keep rs)).
      { rewrite <- Hkeys. unfold dict_keys. apply list_elem_of_fmap.
        by exists kv'. }
      apply tags_of_elem in Hkey as (r & Hr & Hk & Ht).
      by exists (fst kv'), r.
Qed.

(** X23: the notes cards of the archive page, for an analysis that was just
    computed.  Below 5 records both cards show the notice that asks for more
    records.  Otherwise the card of strong notes shows the notice for an
    empty bucket exactly when no record rated 4 or more carries a tag, and
    else at most 4 tags, as many as there are distinct such tags up to 4,
    each the Korean name of a tag carried by a record rated 4 or more; the
    sentence names the first two of the tags shown.  The card of weak notes
    does the same with the records rated 2 or less and at most 3 tags. *)
Theorem notes_cards_show_rated_tags (env : Env) (uid : string) :
  let rs := get_user_records env uid in
  match compute_taste_analysis env uid with
  | None =>
      (length rs < 5)%nat
      /\ _create_main_notes_panel None = NeedMoreRecords
      /\ _create_sub_notes_panel None = NeedMoreRecords
  | Some result =>
      (5 <= length rs)%nat
      /\ panel_for (fun r => 4 <= default 0 (rating r)) 4 rs
           (_create_main_notes_panel (Some result))
      /\ panel_for (fun r => default 0 (rating r) <= 2) 3 rs
           (_create_sub_notes_panel (Some result))
  end.
Proof.
  intros rs. unfold compute_taste_analysis. fold rs.
  destruct (Z.of_nat (length rs) <? 5) eqn:E.
  - apply Z.ltb_lt in E. split_and!; [lia|done|done].
  - apply Z.ltb_ge in E. split_and!; [lia| |].
    + unfold _create_main_notes_panel. simpl.
      apply notes_card; [lia|apply tally_main_keys].
    + unfold _create_sub_notes_panel. simpl.
      apply notes_card; [lia|apply tally_sub_keys].
Qed.
